(** * CBSE board-exams server: authentication, role gate and invigilation checks

    A shallow embedding of the Express application (the server file with
    [authenticateToken], [authorizeRole], [validateRequest], [isValidDate],
    the [CBSEDatabase] class and the route table), over a relational store
    that enforces the column types ([INTEGER] range, [VARCHAR] lengths) and
    the constraints declared by the [CREATE TABLE] statements.

    Conventions.
    - A request body is a map from field names to JSON scalars; an absent
      field reads as [None].  JavaScript truthiness is written out: the
      empty string and the number 0 are falsy.  Numbers are integers, and
      texts are made of characters the store takes (no NUL character).
    - [jsonwebtoken], [bcryptjs] and the store's input routines for
      [INTEGER] and [DATE] are libraries outside the repository: they are
      parameters ([JwtLib], [Bcrypt], [PgInput]) with the laws their
      documentation gives.
    - Every handler takes the server state and returns the new state and the
      HTTP response. *)

From stdpp Require Import base list strings gmap sorting.
From Stdlib Require Import ZArith Ascii String Permutation.

Open Scope string_scope.
Open Scope Z_scope.
Open Scope list_scope.

(** ** JavaScript [Date]: the part used by [isValidDate] *)

Module JSDate.

(** ECMAScript day arithmetic (Year Number, Month Number, Date Number). *)

Definition DaysInYear (y : Z) : Z :=
  if negb (y mod 4 =? 0) then 365
  else if negb (y mod 100 =? 0) then 366
  else if negb (y mod 400 =? 0) then 365
  else 366.

Definition InLeapYear (y : Z) : bool := DaysInYear y =? 366.

Definition DayFromYear (y : Z) : Z :=
  365 * (y - 1970) + (y - 1969) / 4 - (y - 1901) / 100 + (y - 1601) / 400.

(** Days in one 400-year period, and the day number of 1 January of year 0. *)
Definition period_days : Z := 146097.
Definition day_of_year0 : Z := -719528.

(** Walk down from an upper estimate to the largest year of the period
    whose first day is not after day [r] of the period. *)
Fixpoint year_down (fuel : nat) (r k : Z) : Z :=
  match fuel with
  | O => k
  | S fuel' =>
      if DayFromYear k - day_of_year0 <=? r then k
      else year_down fuel' r (k - 1)
  end.

(** [YearFromTime]: the largest year [y] with [DayFromYear y <= day]. *)
Definition YearFromDay (day : Z) : Z :=
  let c := (day - day_of_year0) / period_days in
  let r := (day - day_of_year0) mod period_days in
  400 * c + year_down 4 r (r / 365).

Definition DayWithinYear (day : Z) : Z := day - DayFromYear (YearFromDay day).

(** First day (within the year) of month number [mn] (0 = January). *)
Definition month_start (leap : bool) (mn : Z) : Z :=
  let l := if leap then 1 else 0 in
  match mn with
  | 0 => 0
  | 1 => 31
  | 2 => 59 + l
  | 3 => 90 + l
  | 4 => 120 + l
  | 5 => 151 + l
  | 6 => 181 + l
  | 7 => 212 + l
  | 8 => 243 + l
  | 9 => 273 + l
  | 10 => 304 + l
  | 11 => 334 + l
  | _ => 365 + l
  end.

Fixpoint month_scan (fuel : nat) (leap : bool) (dwy mn : Z) : Z :=
  match fuel with
  | O => mn
  | S fuel' =>
      if dwy <? month_start leap (mn + 1) then mn
      else month_scan fuel' leap dwy (mn + 1)
  end.

Definition MonthFromDay (day : Z) : Z :=
  month_scan 11 (InLeapYear (YearFromDay day)) (DayWithinYear day) 0.

Definition DateFromDay (day : Z) : Z :=
  DayWithinYear day
  - month_start (InLeapYear (YearFromDay day)) (MonthFromDay day) + 1.

(** [MakeDay(year, month, date)] on integers. *)
Definition MakeDay (year month date : Z) : Z :=
  let ym := year + month / 12 in
  let mn := month mod 12 in
  DayFromYear ym + month_start (InLeapYear ym) mn + date - 1.

(** Decimal digits. *)

Definition is_digit (c : ascii) : bool :=
  let n := Z.of_N (N_of_ascii c) in (48 <=? n) && (n <=? 57).

Definition digit_val (c : ascii) : Z := Z.of_N (N_of_ascii c) - 48.

Definition digit_char (d : Z) : ascii := ascii_of_N (Z.to_N (d + 48)).

Definition num2 (a b : ascii) : Z := 10 * digit_val a + digit_val b.

Definition num4 (a b c d : ascii) : Z :=
  1000 * digit_val a + 100 * digit_val b + 10 * digit_val c + digit_val d.

Definition pad2 (n : Z) : list ascii :=
  [digit_char (n / 10 mod 10); digit_char (n mod 10)].

Definition pad4 (n : Z) : list ascii :=
  [digit_char (n / 1000 mod 10); digit_char (n / 100 mod 10);
   digit_char (n / 10 mod 10); digit_char (n mod 10)].

Definition pad6 (n : Z) : list ascii :=
  [digit_char (n / 100000 mod 10); digit_char (n / 10000 mod 10)] ++ pad4 n.

Definition dash : ascii := "-"%char.

(** The regular expression [/^\d{4}-\d{2}-\d{2}$/]. *)
Definition regex_test (s : list ascii) : bool :=
  match s with
  | [y1; y2; y3; y4; s1; m1; m2; s2; d1; d2] =>
      is_digit y1 && is_digit y2 && is_digit y3 && is_digit y4
      && bool_decide (s1 = dash)
      && is_digit m1 && is_digit m2
      && bool_decide (s2 = dash)
      && is_digit d1 && is_digit d2
  | _ => false
  end.

(** [new Date(s)] for a date-only ISO string: the day number of the time
    value (midnight UTC), or [None] for an Invalid Date.  The engine accepts
    a month in 1..12 and a day in 1..31 and lets [MakeDay] carry the excess
    days into the next month. *)
Definition parse_date (s : list ascii) : option Z :=
  match s with
  | [y1; y2; y3; y4; _; m1; m2; _; d1; d2] =>
      let y := num4 y1 y2 y3 y4 in
      let m := num2 m1 m2 in
      let d := num2 d1 d2 in
      if (1 <=? m) && (m <=? 12) && (1 <=? d) && (d <=? 31)
      then Some (MakeDay y (m - 1) d)
      else None
  | _ => None
  end.

(** [toISOString()] of a time value at midnight UTC of day [day]. *)
Definition iso_year (y : Z) : list ascii :=
  if (0 <=? y) && (y <=? 9999) then pad4 y
  else (if y <? 0 then "-"%char else "+"%char) :: pad6 (Z.abs y).

Definition toISOString (day : Z) : list ascii :=
  iso_year (YearFromDay day) ++ [dash] ++ pad2 (MonthFromDay day + 1)
    ++ [dash] ++ pad2 (DateFromDay day)
    ++ list_ascii_of_string "T00:00:00.000Z".

Fixpoint startsWith (s p : list ascii) : bool :=
  match p, s with
  | [], _ => true
  | c :: p', c' :: s' => bool_decide (c = c') && startsWith s' p'
  | _ :: _, [] => false
  end.

End JSDate.

(** [isValidDate]: the format test, then the parse and print round trip. *)
Definition isValidDate (dateString : string) : bool :=
  let s := list_ascii_of_string dateString in
  if negb (JSDate.regex_test s) then false
  else match JSDate.parse_date s with
       | None => false
       | Some day => JSDate.startsWith (JSDate.toISOString day) s
       end.

(** The Gregorian calendar, stated independently of the day arithmetic. *)
Definition leap_year (y : Z) : bool :=
  ((y mod 4 =? 0) && negb (y mod 100 =? 0)) || (y mod 400 =? 0).

Definition days_in_month (y m : Z) : Z :=
  match m with
  | 1 | 3 | 5 | 7 | 8 | 10 | 12 => 31
  | 4 | 6 | 9 | 11 => 30
  | 2 => if leap_year y then 29 else 28
  | _ => 0
  end.

Definition real_date (y m d : Z) : bool :=
  (1 <=? m) && (m <=? 12) && (1 <=? d) && (d <=? days_in_month y m).

(** ** JavaScript values of a JSON request body *)

(** Scalar JSON values; numbers are integers.  An absent property reads as
    [undefined], which is [None] below. *)
Inductive jsval : Type :=
| JNull
| JBool (b : bool)
| JNum (n : Z)
| JStr (s : string).

#[global] Instance jsval_eq_dec : EqDecision jsval.
Proof. solve_decision. Defined.

(** [!!v]: [undefined], [null], [false], [0] and the empty string are falsy. *)
Definition truthy (v : option jsval) : bool :=
  match v with
  | None | Some JNull => false
  | Some (JBool b) => b
  | Some (JNum n) => negb (n =? 0)
  | Some (JStr s) => negb (String.eqb s "")
  end.

(** [a || b] *)
Definition js_or (a : option jsval) (b : jsval) : option jsval :=
  if truthy a then a else Some b.

(** [v === 'text'] *)
Definition strict_eq_str (v : option jsval) (s : string) : bool :=
  match v with
  | Some (JStr s') => String.eqb s' s
  | _ => false
  end.

(** [str.split(' ')] *)
Fixpoint split_space_aux (cur : string) (s : string) : list string :=
  match s with
  | EmptyString => [cur]
  | String c s' =>
      if Ascii.eqb c " "%char then cur :: split_space_aux "" s'
      else split_space_aux (cur +:+ String c "") s'
  end.

Definition split_space (s : string) : list string := split_space_aux "" s.

Fixpoint join_comma (l : list string) : string :=
  match l with
  | [] => ""
  | [x] => x
  | x :: l' => x +:+ ", " +:+ join_comma l'
  end.

(** ** Libraries outside the repository *)

(** The identity claims signed into a token at login. *)
Record claims : Type := Claims {
  c_userId : Z;
  c_username : string;
  c_role : option string;
  c_examinerId : option Z;
  c_schoolId : option Z
}.

#[global] Instance claims_eq_dec : EqDecision claims.
Proof. solve_decision. Defined.

Inductive jwt_error : Type :=
| JsonWebTokenError   (* malformed token or bad signature *)
| TokenExpiredError.  (* good signature, expiry elapsed *)

Definition no_space (s : string) : Prop :=
  ~ In " "%char (list_ascii_of_string s).

(** [jsonwebtoken]: [jwt_sign c key iat ttl] is [jwt.sign(c, key,
    {expiresIn: ttl})] called at second [iat]; [jwt_verify tok key now] is
    [jwt.verify(tok, key)] called at second [now]. *)
Class JwtLib : Type := {
  jwt_sign : claims -> string -> Z -> Z -> string;
  jwt_verify : string -> string -> Z -> jwt_error + claims;
  jwt_verify_fresh : forall c key iat ttl now,
    now < iat + ttl -> jwt_verify (jwt_sign c key iat ttl) key now = inr c;
  jwt_verify_expired : forall c key iat ttl now,
    iat + ttl <= now ->
    jwt_verify (jwt_sign c key iat ttl) key now = inl TokenExpiredError;
  jwt_sign_word : forall c key iat ttl,
    jwt_sign c key iat ttl <> "" /\ no_space (jwt_sign c key iat ttl)
}.

(** [bcryptjs]: [bcrypt_hash p salt] is [bcrypt.hash(p, 10)] with the random
    salt it drew; [bcrypt_compare p h] is [bcrypt.compare(p, h)].  A hash
    has 60 characters; what is used of that is [bcrypt_hash_fits], that it
    fits the 255 characters of the column that keeps it. *)
Class Bcrypt : Type := {
  bcrypt_hash : string -> string -> string;
  bcrypt_compare : string -> string -> bool;
  bcrypt_compare_hash : forall p salt,
    bcrypt_compare p (bcrypt_hash p salt) = true;
  bcrypt_hash_fits : forall p salt,
    (String.length (bcrypt_hash p salt) <= 255)%nat
}.

(** The range of the store's [INTEGER]. *)
Definition is_int4 (n : Z) : bool :=
  (-2147483648 <=? n) && (n <=? 2147483647).

(** Conversions done by the database driver and the store's input routines:
    the text sent for a JavaScript number, the store's [INTEGER] input and
    its [DATE] input (a day number).  An input routine refuses a text for
    its form or, where [int4_overflow] or [date_overflow] says so, for a
    value out of range; what [int4_in] accepts is within the range of
    [INTEGER]. *)
Class PgInput : Type := {
  num_to_text : Z -> string;
  int4_in : string -> option Z;
  int4_overflow : string -> bool;
  date_in : string -> option Z;
  date_overflow : string -> bool;
  int4_in_range : forall s n, int4_in s = Some n -> is_int4 n = true
}.

(** ** The relational store *)

Inductive pg_error : Type :=
| not_null_violation (column : string)
| foreign_key_violation (constraint : string)
| unique_violation (constraint : string)
| check_violation (constraint : string)
| invalid_text_representation
| invalid_datetime_format
| string_data_right_truncation (limit : nat)
| numeric_value_out_of_range
| datetime_field_overflow
| sequence_generator_limit_exceeded.

(** [err.code] *)
Definition pg_code (e : pg_error) : string :=
  match e with
  | not_null_violation _ => "23502"
  | foreign_key_violation _ => "23503"
  | unique_violation _ => "23505"
  | check_violation _ => "23514"
  | invalid_text_representation => "22P02"
  | invalid_datetime_format => "22007"
  | string_data_right_truncation _ => "22001"
  | numeric_value_out_of_range => "22003"
  | datetime_field_overflow => "22008"
  | sequence_generator_limit_exceeded => "2200H"
  end.

(** What a handler's [try] block can catch. *)
Inductive thrown : Type :=
| PgError (e : pg_error)
| IllegalArguments   (* bcryptjs given a password that is not a string *)
| TypeError.         (* property read on [undefined] *)

Record user_row : Type := UserRow {
  u_user_id : Z;
  u_username : string;
  u_email : string;
  u_password_hash : string;
  u_role : option string;
  u_examiner_id : option Z;
  u_school_id : option Z;
  u_is_active : option bool;
  u_last_login : option Z
}.

Record school_row : Type := SchoolRow {
  sc_school_id : Z;
  sc_school_name : string;
  sc_location : string;
  sc_contact_number : option string;
  sc_email : option string;
  sc_principal_name : option string
}.

Record subject_row : Type := SubjectRow {
  sub_subject_id : Z;
  sub_subject_name : string;
  sub_subject_code : string
}.

Record examiner_row : Type := ExaminerRow {
  ex_examiner_id : Z;
  ex_examiner_name : string;
  ex_school_id : option Z;
  ex_qualification : option string;
  ex_subject_id : option Z;
  ex_contact_number : option string;
  ex_email : option string;
  ex_experience_years : option Z
}.

Record student_row : Type := StudentRow {
  st_student_id : Z;
  st_student_roll_number : string;
  st_student_name : string;
  st_school_id : option Z;
  st_class_standard : option Z
}.

Record answer_sheet_row : Type := AnswerSheetRow {
  as_sheet_id : Z;
  as_answer_book_id : string;
  as_student_roll_number : option string;
  as_subject_id : option Z;
  as_examiner_id : option Z;
  as_marks_assigned : option Z;
  as_evaluation_date : option Z;
  as_remarks : option string
}.

Record assignment_row : Type := AssignmentRow {
  ia_assignment_id : Z;
  ia_examiner_id : option Z;
  ia_school_id : option Z;
  ia_exam_date : Z;
  ia_exam_session : string;
  ia_subject_id : option Z
}.

(** A row of the view [evaluation_summary]. *)
Record evaluation_row : Type := EvaluationRow {
  ev_sheet_id : Z;
  ev_answer_book_id : string;
  ev_student_roll_number : option string;
  ev_student_name : string;
  ev_subject_name : string;
  ev_examiner_name : string;
  ev_marks_assigned : option Z;
  ev_evaluation_date : option Z;
  ev_remarks : option string;
  ev_examiner_id : option Z;
  ev_subject_id : option Z
}.

(** The tables, rows in insertion order, and the last value drawn from each
    [SERIAL] sequence.  The columns [created_at] and [updated_at], which no
    embedded statement reads, are left out. *)
Record database : Type := Database {
  users : list user_row;
  schools : list school_row;
  subjects : list subject_row;
  examiners : list examiner_row;
  students : list student_row;
  answer_sheets : list answer_sheet_row;
  invigilation_assignments : list assignment_row;
  users_seq : Z;
  schools_seq : Z;
  examiners_seq : Z;
  students_seq : Z;
  invigilation_seq : Z
}.

#[global] Instance user_row_eq_dec : EqDecision user_row.
Proof. solve_decision. Defined.
#[global] Instance evaluation_row_eq_dec : EqDecision evaluation_row.
Proof. solve_decision. Defined.

(** A statement runs against the store and either returns or raises; a
    raising statement changes no table (a sequence value it drew stays
    drawn). *)
Definition IO (A : Type) : Type := database -> database * (thrown + A).

Definition io_ret {A} (a : A) : IO A := fun db => (db, inr a).

Definition io_raise {A} (t : thrown) : IO A := fun db => (db, inl t).

Definition io_bind {A B} (m : IO A) (k : A -> IO B) : IO B :=
  fun db =>
    match m db with
    | (db', inr a) => k a db'
    | (db', inl t) => (db', inl t)
    end.

Notation "'let*' x ':=' m 'in' k" := (io_bind m (fun x => k))
  (at level 10, x pattern, m at level 100, k at level 200).

Definition io_read {A} (f : database -> A) : IO A := fun db => (db, inr (f db)).

Definition io_write (f : database -> database) : IO unit :=
  fun db => (f db, inr tt).

(** A constraint check of the store. *)
Definition require (b : bool) (e : pg_error) : IO unit :=
  if b then io_ret tt else io_raise (PgError e).

Definition not_null {A} (column : string) (v : option A) : IO A :=
  match v with
  | Some a => io_ret a
  | None => io_raise (PgError (not_null_violation column))
  end.

Definition references (constraint : string) (keys : list Z) (v : option Z) : IO unit :=
  match v with
  | None => io_ret tt
  | Some k => require (bool_decide (k ∈ keys)) (foreign_key_violation constraint)
  end.

Definition lift_pg {A} (r : pg_error + A) : IO A :=
  match r with
  | inr a => io_ret a
  | inl e => io_raise (PgError e)
  end.

Definition with_users (f : list user_row -> list user_row) (db : database) : database :=
  Database (f (users db)) (schools db) (subjects db) (examiners db) (students db)
    (answer_sheets db) (invigilation_assignments db)
    (users_seq db) (schools_seq db) (examiners_seq db) (students_seq db)
    (invigilation_seq db).

Definition with_schools (f : list school_row -> list school_row) (db : database) : database :=
  Database (users db) (f (schools db)) (subjects db) (examiners db) (students db)
    (answer_sheets db) (invigilation_assignments db)
    (users_seq db) (schools_seq db) (examiners_seq db) (students_seq db)
    (invigilation_seq db).

Definition with_examiners (f : list examiner_row -> list examiner_row) (db : database) : database :=
  Database (users db) (schools db) (subjects db) (f (examiners db)) (students db)
    (answer_sheets db) (invigilation_assignments db)
    (users_seq db) (schools_seq db) (examiners_seq db) (students_seq db)
    (invigilation_seq db).

Definition with_students (f : list student_row -> list student_row) (db : database) : database :=
  Database (users db) (schools db) (subjects db) (examiners db) (f (students db))
    (answer_sheets db) (invigilation_assignments db)
    (users_seq db) (schools_seq db) (examiners_seq db) (students_seq db)
    (invigilation_seq db).

Definition with_assignments (f : list assignment_row -> list assignment_row) (db : database) : database :=
  Database (users db) (schools db) (subjects db) (examiners db) (students db)
    (answer_sheets db) (f (invigilation_assignments db))
    (users_seq db) (schools_seq db) (examiners_seq db) (students_seq db)
    (invigilation_seq db).

(** [nextval] of each sequence; the sequence of a [SERIAL] column ends at
    the largest [INTEGER] and refuses to go further. *)
Definition nextval_users : IO Z := fun db =>
  let n := users_seq db + 1 in
  if n <=? 2147483647
  then (Database (users db) (schools db) (subjects db) (examiners db) (students db)
          (answer_sheets db) (invigilation_assignments db)
          n (schools_seq db) (examiners_seq db) (students_seq db) (invigilation_seq db),
        inr n)
  else (db, inl (PgError sequence_generator_limit_exceeded)).

Definition nextval_schools : IO Z := fun db =>
  let n := schools_seq db + 1 in
  if n <=? 2147483647
  then (Database (users db) (schools db) (subjects db) (examiners db) (students db)
          (answer_sheets db) (invigilation_assignments db)
          (users_seq db) n (examiners_seq db) (students_seq db) (invigilation_seq db),
        inr n)
  else (db, inl (PgError sequence_generator_limit_exceeded)).

Definition nextval_examiners : IO Z := fun db =>
  let n := examiners_seq db + 1 in
  if n <=? 2147483647
  then (Database (users db) (schools db) (subjects db) (examiners db) (students db)
          (answer_sheets db) (invigilation_assignments db)
          (users_seq db) (schools_seq db) n (students_seq db) (invigilation_seq db),
        inr n)
  else (db, inl (PgError sequence_generator_limit_exceeded)).

Definition nextval_students : IO Z := fun db =>
  let n := students_seq db + 1 in
  if n <=? 2147483647
  then (Database (users db) (schools db) (subjects db) (examiners db) (students db)
          (answer_sheets db) (invigilation_assignments db)
          (users_seq db) (schools_seq db) (examiners_seq db) n (invigilation_seq db),
        inr n)
  else (db, inl (PgError sequence_generator_limit_exceeded)).

Definition nextval_invigilation : IO Z := fun db =>
  let n := invigilation_seq db + 1 in
  if n <=? 2147483647
  then (Database (users db) (schools db) (subjects db) (examiners db) (students db)
          (answer_sheets db) (invigilation_assignments db)
          (users_seq db) (schools_seq db) (examiners_seq db) (students_seq db) n,
        inr n)
  else (db, inl (PgError sequence_generator_limit_exceeded)).

Definition school_ids (db : database) : list Z := map sc_school_id (schools db).
Definition subject_ids (db : database) : list Z := map sub_subject_id (subjects db).
Definition examiner_ids (db : database) : list Z := map ex_examiner_id (examiners db).

(** The [CHECK] constraint on [users.role] declared by the server's own
    [CREATE TABLE]; a [NULL] passes a [CHECK]. *)
Definition role_in_enum (r : option string) : bool :=
  match r with
  | None => true
  | Some s => bool_decide (s ∈ ["admin"; "coordinator"; "examiner"])
  end.

(** Replace the rows that satisfy [p] by their image under [f]. *)
Definition update_where {A} (p : A -> bool) (f : A -> A) (l : list A) : list A :=
  map (fun r => if p r then f r else r) l.

Definition delete_where {A} (p : A -> bool) (l : list A) : list A :=
  List.filter (fun r => negb (p r)) l.

Definition select_where {A} (p : A -> bool) (l : list A) : list A :=
  List.filter p l.

(** What the surrounding runtime supplies to one request: the clock (in
    seconds), the salt [bcrypt] draws, and the identifier [express-session]
    generates for a new session. *)
Record env : Type := Env {
  now : Z;
  salt : string;
  fresh_sid : string
}.

(** The objects passed to the [CBSEDatabase] methods. *)
Record ExaminerData : Type := mkExaminerData {
  ed_examinerName : option jsval;
  ed_schoolId : option jsval;
  ed_qualification : option jsval;
  ed_subjectId : option jsval;
  ed_contactNumber : option jsval;
  ed_email : option jsval;
  ed_experienceYears : option jsval
}.

Record StudentData : Type := mkStudentData {
  sd_studentRollNumber : option jsval;
  sd_studentName : option jsval;
  sd_schoolId : option jsval;
  sd_classStandard : option jsval
}.

Record AssignmentData : Type := mkAssignmentData {
  ad_examinerId : option jsval;
  ad_schoolId : option jsval;
  ad_examDate : option jsval;
  ad_examSession : option jsval;
  ad_subjectId : option jsval
}.

(** [ORDER BY evaluation_date DESC]: later dates first, [NULL]s before all. *)
Definition date_desc (a b : evaluation_row) : Prop :=
  match ev_evaluation_date a, ev_evaluation_date b with
  | None, _ => True
  | Some _, None => False
  | Some x, Some y => y <= x
  end.

#[global] Instance date_desc_dec : RelDecision date_desc.
Proof.
  intros a b. unfold date_desc.
  destruct (ev_evaluation_date a), (ev_evaluation_date b); apply _.
Defined.

(** *** Column types

    [VARCHAR(n)]: a text of more than [n] characters is refused, unless
    all that exceeds [n] is spaces, in which case the first [n] characters
    are kept.  In the statements below the parameters are converted first
    (as the statement is bound), then the texts are fitted to their columns
    in column order (as the statement is planned with these parameters);
    only then does the statement run and draw from a sequence. *)
Fixpoint take_chars (n : nat) (s : string) : string :=
  match n, s with
  | S n', String c s' => String c (take_chars n' s')
  | _, _ => ""
  end.

Fixpoint drop_chars (n : nat) (s : string) : string :=
  match n, s with
  | S n', String _ s' => drop_chars n' s'
  | _, _ => s
  end.

Fixpoint blank (s : string) : bool :=
  match s with
  | EmptyString => true
  | String c s' => Ascii.eqb c " "%char && blank s'
  end.

Definition varchar (n : nat) (s : string) : pg_error + string :=
  if (String.length s <=? n)%nat then inr s
  else if blank (drop_chars n s) then inr (take_chars n s)
  else inl (string_data_right_truncation n).

Section Store.

Context `{PgInput} `{Bcrypt}.

(** The [CHECK] on [users.role] that is in force: [role_in_enum] when the
    server's own [CREATE TABLE] made the table, no restriction when the
    schema script made it. *)
Variable role_check : option string -> bool.

(** *** Query parameters, as the driver sends them *)

Definition text_param (v : option jsval) : option string :=
  match v with
  | None | Some JNull => None
  | Some (JBool b) => Some (if b then "true" else "false")
  | Some (JNum n) => Some (num_to_text n)
  | Some (JStr s) => Some s
  end.

(** A number is sent as its decimal text, which from 10^21 on is in
    exponent notation. *)
Definition int_param (v : option jsval) : pg_error + option Z :=
  match v with
  | None | Some JNull => inr None
  | Some (JBool _) => inl invalid_text_representation
  | Some (JNum n) =>
      if is_int4 n then inr (Some n)
      else if Z.abs n <? 1000000000000000000000
      then inl numeric_value_out_of_range
      else inl invalid_text_representation
  | Some (JStr s) =>
      match int4_in s with
      | Some n => inr (Some n)
      | None =>
          inl (if int4_overflow s then numeric_value_out_of_range
               else invalid_text_representation)
      end
  end.

Definition date_param (v : option jsval) : pg_error + option Z :=
  match text_param v with
  | None => inr None
  | Some s =>
      match date_in s with
      | Some d => inr (Some d)
      | None =>
          inl (if date_overflow s then datetime_field_overflow
               else invalid_datetime_format)
      end
  end.

(** A text parameter assigned to a [VARCHAR(n)] column. *)
Definition varchar_param (n : nat) (v : option jsval) : pg_error + option string :=
  match text_param v with
  | None => inr None
  | Some s =>
      match varchar n s with
      | inr s' => inr (Some s')
      | inl e => inl e
      end
  end.

(** *** [CBSEDatabase]: users *)

Definition getUserByUsername (username : option jsval) : IO (option user_row) :=
  io_read (fun db =>
    head (select_where
            (fun u => bool_decide (text_param username = Some (u_username u))
                      && bool_decide (u_is_active u = Some true))
            (users db))).

Definition getUserByEmail (email : option jsval) : IO (option user_row) :=
  io_read (fun db =>
    head (select_where
            (fun u => bool_decide (text_param email = Some (u_email u))
                      && bool_decide (u_is_active u = Some true))
            (users db))).

Definition createUser (e : env)
    (username email password role examinerId schoolId : option jsval) : IO user_row :=
  let* hashedPassword :=
    match password with
    | Some (JStr p) => io_ret (bcrypt_hash p (salt e))
    | _ => io_raise IllegalArguments
    end in
  let* examiner := lift_pg (int_param examinerId) in
  let* school := lift_pg (int_param schoolId) in
  let* uname := lift_pg (varchar_param 50 username) in
  let* mail := lift_pg (varchar_param 100 email) in
  let* hash := lift_pg (varchar 255 hashedPassword) in
  let* role := lift_pg (varchar_param 20 role) in
  let* id := nextval_users in
  let* uname := not_null "username" uname in
  let* mail := not_null "email" mail in
  let* _ := require (role_check role) (check_violation "users_role_check") in
  let* rows := io_read users in
  let* _ := require (negb (bool_decide (id ∈ map u_user_id rows)))
              (unique_violation "users_pkey") in
  let* _ := require (negb (bool_decide (uname ∈ map u_username rows)))
              (unique_violation "users_username_key") in
  let* _ := require (negb (bool_decide (mail ∈ map u_email rows)))
              (unique_violation "users_email_key") in
  let* eids := io_read examiner_ids in
  let* _ := references "users_examiner_id_fkey" eids examiner in
  let* sids := io_read school_ids in
  let* _ := references "users_school_id_fkey" sids school in
  let row := UserRow id uname mail hash role examiner school (Some true) None in
  let* _ := io_write (with_users (fun l => (l ++ [row])%list)) in
  io_ret row.

Definition touch (t : Z) (u : user_row) : user_row :=
  UserRow (u_user_id u) (u_username u) (u_email u) (u_password_hash u)
    (u_role u) (u_examiner_id u) (u_school_id u) (u_is_active u) (Some t).

Definition updateLastLogin (e : env) (userId : Z) : IO unit :=
  io_write (with_users (update_where (fun u => u_user_id u =? userId) (touch (now e)))).

(** *** [CBSEDatabase]: examiners, students, invigilation *)

Definition addExaminer (d : ExaminerData) : IO examiner_row :=
  let* school := lift_pg (int_param (ed_schoolId d)) in
  let* subject := lift_pg (int_param (ed_subjectId d)) in
  let* years := lift_pg (int_param (ed_experienceYears d)) in
  let* name := lift_pg (varchar_param 255 (ed_examinerName d)) in
  let* qualification := lift_pg (varchar_param 255 (ed_qualification d)) in
  let* contact := lift_pg (varchar_param 15 (ed_contactNumber d)) in
  let* email := lift_pg (varchar_param 255 (ed_email d)) in
  let* id := nextval_examiners in
  let* name := not_null "examiner_name" name in
  let* ids := io_read examiner_ids in
  let* _ := require (negb (bool_decide (id ∈ ids))) (unique_violation "examiners_pkey") in
  let* sids := io_read school_ids in
  let* _ := references "examiners_school_id_fkey" sids school in
  let* subs := io_read subject_ids in
  let* _ := references "examiners_subject_id_fkey" subs subject in
  let row := ExaminerRow id name school qualification subject contact email years in
  let* _ := io_write (with_examiners (fun l => (l ++ [row])%list)) in
  io_ret row.

Definition addStudent (d : StudentData) : IO student_row :=
  let* school := lift_pg (int_param (sd_schoolId d)) in
  let* class := lift_pg (int_param (js_or (sd_classStandard d) (JNum 10))) in
  let* roll := lift_pg (varchar_param 50 (sd_studentRollNumber d)) in
  let* name := lift_pg (varchar_param 255 (sd_studentName d)) in
  let* id := nextval_students in
  let* roll := not_null "student_roll_number" roll in
  let* name := not_null "student_name" name in
  let* rows := io_read students in
  let* _ := require (negb (bool_decide (id ∈ map st_student_id rows)))
              (unique_violation "students_pkey") in
  let* _ := require (negb (bool_decide (roll ∈ map st_student_roll_number rows)))
              (unique_violation "students_student_roll_number_key") in
  let* sids := io_read school_ids in
  let* _ := references "students_school_id_fkey" sids school in
  let row := StudentRow id roll name school class in
  let* _ := io_write (with_students (fun l => (l ++ [row])%list)) in
  io_ret row.

Definition addInvigilationAssignment (d : AssignmentData) : IO assignment_row :=
  let* examiner := lift_pg (int_param (ad_examinerId d)) in
  let* school := lift_pg (int_param (ad_schoolId d)) in
  let* date := lift_pg (date_param (ad_examDate d)) in
  let* subject := lift_pg (int_param (ad_subjectId d)) in
  let* session := lift_pg (varchar_param 20 (ad_examSession d)) in
  let* id := nextval_invigilation in
  let* day := not_null "exam_date" date in
  let* session := not_null "exam_session" session in
  let* rows := io_read invigilation_assignments in
  let* _ := require (negb (bool_decide (id ∈ map ia_assignment_id rows)))
              (unique_violation "invigilation_assignments_pkey") in
  let* eids := io_read examiner_ids in
  let* _ := references "invigilation_assignments_examiner_id_fkey" eids examiner in
  let* sids := io_read school_ids in
  let* _ := references "invigilation_assignments_school_id_fkey" sids school in
  let* subs := io_read subject_ids in
  let* _ := references "invigilation_assignments_subject_id_fkey" subs subject in
  let row := AssignmentRow id examiner school day session subject in
  let* _ := io_write (with_assignments (fun l => (l ++ [row])%list)) in
  io_ret row.

(** *** [CBSEDatabase]: answer sheets, through the view [evaluation_summary] *)

Definition evaluation_summary (db : database) : list evaluation_row :=
  flat_map (fun a =>
    flat_map (fun st =>
      flat_map (fun sub =>
        map (fun ex =>
               EvaluationRow (as_sheet_id a) (as_answer_book_id a)
                 (as_student_roll_number a) (st_student_name st)
                 (sub_subject_name sub) (ex_examiner_name ex)
                 (as_marks_assigned a) (as_evaluation_date a) (as_remarks a)
                 (as_examiner_id a) (as_subject_id a))
            (select_where
               (fun ex => bool_decide (as_examiner_id a = Some (ex_examiner_id ex)))
               (examiners db)))
        (select_where
           (fun sub => bool_decide (as_subject_id a = Some (sub_subject_id sub)))
           (subjects db)))
      (select_where
         (fun st => bool_decide
                      (as_student_roll_number a = Some (st_student_roll_number st)))
         (students db)))
    (answer_sheets db).

(** The order among rows of equal date is the store's choice; the merge
    sort fixes one. *)
Definition getAllAnswerSheets : IO (list evaluation_row) :=
  io_read (fun db => merge_sort date_desc (evaluation_summary db)).

Definition getAnswerSheetsByExaminer (examinerId : option jsval)
    : IO (list evaluation_row) :=
  let* id := lift_pg (int_param examinerId) in
  io_read (fun db =>
    select_where (fun r => match id with
                           | Some n => bool_decide (ev_examiner_id r = Some n)
                           | None => false
                           end)
      (evaluation_summary db)).

End Store.

(** ** Requests and responses *)

(** The endpoints embedded here, named by method and path ([/api] omitted). *)
Inductive endpoint : Type :=
| POST_auth_register
| POST_auth_login
| POST_auth_logout
| GET_auth_verify
| POST_schools
| PUT_schools (id : string)
| DELETE_schools (id : string)
| POST_examiners
| PUT_examiners (id : string)
| DELETE_examiners (id : string)
| POST_students
| PUT_students (rollNumber : string)
| DELETE_students (rollNumber : string)
| GET_answer_sheets
| GET_answer_sheets_examiner (examinerId : string)
| POST_invigilation
| PUT_invigilation (id : string)
| DELETE_invigilation (id : string).

Record request : Type := Request {
  target : endpoint;
  authorization : option string;   (* [req.headers['authorization']] *)
  session_cookie : option string;  (* the session id of a valid session cookie *)
  body : gmap string jsval         (* [req.body]; empty when none was sent *)
}.

(** The text of an [error] or [details] property: a literal of the source or
    the [message] of what was caught. *)
Inductive errtext : Type :=
| Text (s : string)
| MessageOf (t : thrown).

Inductive payload : Type :=
| no_data
| registered (id : Z) (username email : string) (role : option string)
| logged_in (token : string) (id : Z) (username email : string)
    (role : option string) (examinerId schoolId : option Z)
| verified (id : Z) (username : string) (role : option string)
| school_data (r : school_row)
| examiner_data (r : examiner_row)
| student_data (r : student_row)
| assignment_data (r : assignment_row)
| sheets (rows : list evaluation_row).

(** A JSON response: the status, the [error] and [details] properties, and the
    data carried.  The [success] and [message] properties are not kept. *)
Record response : Type := Response {
  status : Z;
  error : option errtext;
  details : option errtext;
  data : payload
}.

Definition json_error (code : Z) (msg : string) : response :=
  Response code (Some (Text msg)) None no_data.

Definition json_caught (code : Z) (t : thrown) : response :=
  Response code (Some (MessageOf t)) None no_data.

Definition json_ok (code : Z) (d : payload) : response :=
  Response code None None d.

(** [req.session]: what login stores. *)
Record session_record : Type := SessionRecord {
  s_userId : Z;
  s_username : string;
  s_role : option string
}.

(** The server: the store and the session store of [express-session]. *)
Record server : Type := Server {
  db : database;
  sessions : gmap string session_record
}.

(** [req.sessionID]: the cookie's session when the store still has it, a new
    identifier otherwise. *)
Definition sessionID (e : env) (s : server) (r : request) : string :=
  match session_cookie r with
  | Some sid => if bool_decide (is_Some (sessions s !! sid)) then sid else fresh_sid e
  | None => fresh_sid e
  end.

(** [MemoryStore.destroy]: drops the record and reports no error. *)
Definition store_destroy (sid : string) (m : gmap string session_record)
    : option thrown * gmap string session_record :=
  (None, delete sid m).

(** ** Middleware *)

(** The request as the middleware chain sees it: [req.user] is set by
    [authenticateToken] only; [req.session] was loaded by [express-session]
    before the route's chain runs. *)
Record context : Type := Context {
  ctx_req : request;
  ctx_user : option claims;
  ctx_session : option session_record
}.

(** The stored session a request's cookie names, if any. *)
Definition load_session (s : server) (r : request) : option session_record :=
  match session_cookie r with
  | Some sid => sessions s !! sid
  | None => None
  end.

Inductive step : Type :=
| Next (c : context)       (* [next()] *)
| Send (r : response)      (* a response was sent; the chain stops *)
| Throw (t : thrown).      (* the middleware threw *)

Definition includes (roles : list string) (r : option string) : bool :=
  match r with
  | Some s => bool_decide (s ∈ roles)
  | None => false
  end.

Definition authorizeRole (roles : list string) (c : context) : step :=
  match ctx_user c with
  | None => Throw TypeError
  | Some user =>
      if negb (includes roles (c_role user))
      then Send (json_error 403 "Insufficient permissions")
      else Next c
  end.

Definition validateRequest (requiredFields : list string) (c : context) : step :=
  let missingFields :=
    List.filter (fun field => negb (truthy (body (ctx_req c) !! field))) requiredFields in
  if (0 <? Z.of_nat (List.length missingFields))
  then Send (json_error 400 ("Missing required fields: " +:+ join_comma missingFields))
  else Next c.

(** [authHeader && authHeader.split(' ')[1]] *)
Definition bearer_token (authHeader : option string) : option string :=
  match authHeader with
  | None => None
  | Some h => if String.eqb h "" then Some "" else split_space h !! 1%nat
  end.

Definition falsy_text (t : option string) : bool :=
  match t with
  | None => true
  | Some s => String.eqb s ""
  end.

Fixpoint run_chain (chain : list (context -> step)) (c : context) : step :=
  match chain with
  | [] => Next c
  | m :: chain' =>
      match m c with
      | Next c' => run_chain chain' c'
      | Send r => Send r
      | Throw t => Throw t
      end
  end.

(** The error-handling middleware registered after the routes. *)
Definition error_handler (t : thrown) : response :=
  json_error 500 "Internal server error".

(** A handler body inside [try { ... } catch (err) { ... }]. *)
Definition try_catch (m : IO response) (catch : thrown -> response)
    (d : database) : database * response :=
  match m d with
  | (d', inr r) => (d', r)
  | (d', inl t) => (d', catch t)
  end.

(** ** The application *)

Section App.

Context `{JwtLib} `{Bcrypt} `{PgInput}.

(** Process-wide configuration: the token-signing secret. *)
Variable JWT_SECRET : string.

Variable role_check : option string -> bool.

Definition authenticateToken (e : env) (c : context) : step :=
  let token := bearer_token (authorization (ctx_req c)) in
  if falsy_text token then Send (json_error 401 "Access token required")
  else
    match jwt_verify (default "" token) JWT_SECRET (now e) with
    | inl err => Send (json_error 403 "Invalid or expired token")
    | inr user => Next (Context (ctx_req c) (Some user) (ctx_session c))
    end.

(** [req.user] inside a handler's [try] block. *)
Definition req_user (c : context) : IO claims :=
  match ctx_user c with
  | Some user => io_ret user
  | None => io_raise TypeError
  end.

(** *** Authentication routes *)

(** [v.length < n]: only a string has a length. *)
Definition length_lt (v : option jsval) (n : Z) : bool :=
  match v with
  | Some (JStr s) => Z.of_nat (String.length s) <? n
  | _ => false
  end.

Definition register (e : env) (b : gmap string jsval) : IO response :=
  let username := b !! "username" in
  let email := b !! "email" in
  let password := b !! "password" in
  let role := b !! "role" in
  let examinerId := b !! "examinerId" in
  let schoolId := b !! "schoolId" in
  if negb (truthy username) || negb (truthy email) || negb (truthy password)
  then io_ret (json_error 400 "Username, email, and password are required")
  else if length_lt password 6
  then io_ret (json_error 400 "Password must be at least 6 characters long")
  else
    let* existingUser := getUserByUsername username in
    if bool_decide (is_Some existingUser)
    then io_ret (json_error 400 "Username already exists")
    else
      let* existingEmail := getUserByEmail email in
      if bool_decide (is_Some existingEmail)
      then io_ret (json_error 400 "Email already registered")
      else
        let* finalExaminerId :=
          if strict_eq_str role "examiner" && negb (truthy examinerId)
          then
            let* newExaminer :=
              addExaminer
                (mkExaminerData username (js_or schoolId (JNum 1))
                   (Some (JStr "Not specified")) (Some (JNum 1))
                   (Some JNull) email (Some (JNum 0))) in
            io_ret (Some (JNum (ex_examiner_id newExaminer)))
          else io_ret examinerId in
        let* user :=
          createUser role_check e username email password
            (js_or role (JStr "examiner")) finalExaminerId schoolId in
        io_ret (json_ok 201
                  (registered (u_user_id user) (u_username user)
                     (u_email user) (u_role user))).

Definition post_auth_register (e : env) (c : context) (s : server)
    : server * response :=
  let '(d, r) :=
    try_catch (register e (body (ctx_req c)))
      (fun t => Response 500 (Some (Text "Registration failed"))
                  (Some (MessageOf t)) no_data)
      (db s) in
  (Server d (sessions s), r).

(** The body of the login handler; a successful login also yields the
    fields written to [req.session]. *)
Definition login (e : env) (b : gmap string jsval)
    : IO (response * option session_record) :=
  let username := b !! "username" in
  let password := b !! "password" in
  if negb (truthy username) || negb (truthy password)
  then io_ret (json_error 400 "Username and password are required", None)
  else
    let* found := getUserByUsername username in
    match found with
    | None => io_ret (json_error 401 "Invalid credentials", None)
    | Some user =>
        let* isValidPassword :=
          match password with
          | Some (JStr p) => io_ret (bcrypt_compare p (u_password_hash user))
          | _ => io_raise IllegalArguments
          end in
        if negb isValidPassword
        then io_ret (json_error 401 "Invalid credentials", None)
        else
          let* _ := updateLastLogin e (u_user_id user) in
          let token :=
            jwt_sign
              (Claims (u_user_id user) (u_username user) (u_role user)
                 (u_examiner_id user) (u_school_id user))
              JWT_SECRET (now e) 86400 in
          io_ret (json_ok 200
                    (logged_in token (u_user_id user) (u_username user)
                       (u_email user) (u_role user) (u_examiner_id user)
                       (u_school_id user)),
                  Some (SessionRecord (u_user_id user) (u_username user)
                          (u_role user)))
    end.

Definition post_auth_login (e : env) (c : context) (s : server)
    : server * response :=
  match login e (body (ctx_req c)) (db s) with
  | (d, inr (r, Some record)) =>
      (Server d (<[sessionID e s (ctx_req c) := record]> (sessions s)), r)
  | (d, inr (r, None)) => (Server d (sessions s), r)
  | (d, inl t) => (Server d (sessions s), json_error 500 "Login failed")
  end.

Definition post_auth_logout (e : env) (c : context) (s : server)
    : server * response :=
  match store_destroy (sessionID e s (ctx_req c)) (sessions s) with
  | (Some err, m) => (Server (db s) m, json_error 500 "Logout failed")
  | (None, m) => (Server (db s) m, json_ok 200 no_data)
  end.

Definition get_auth_verify (e : env) (c : context) (s : server)
    : server * response :=
  match ctx_user c with
  | Some user =>
      (s, json_ok 200 (verified (c_userId user) (c_username user) (c_role user)))
  | None => (s, error_handler TypeError)
  end.

(** *** Answer sheets *)

Definition get_answer_sheets (c : context) : IO response :=
  let* user := req_user c in
  if bool_decide (c_role user = Some "examiner")
  then
    if negb (truthy (JNum <$> c_examinerId user))
    then io_ret (json_error 400 "Examiner ID not associated with this user")
    else
      let* answerSheets := getAnswerSheetsByExaminer (JNum <$> c_examinerId user) in
      io_ret (json_ok 200 (sheets answerSheets))
  else
    let* answerSheets := getAllAnswerSheets in
    io_ret (json_ok 200 (sheets answerSheets)).

Definition get_answer_sheets_examiner (examinerId : string) : IO response :=
  let* answerSheets := getAnswerSheetsByExaminer (Some (JStr examinerId)) in
  io_ret (json_ok 200 (sheets answerSheets)).

(** *** Invigilation *)

Definition post_invigilation (b : gmap string jsval) : IO response :=
  let assignmentData :=
    mkAssignmentData (b !! "examinerId") (b !! "schoolId") (b !! "examDate")
      (b !! "examSession") (b !! "subjectId") in
  let* assignment := addInvigilationAssignment assignmentData in
  io_ret (json_ok 201 (assignment_data assignment)).

(** [isValidDate(examDate)]: the format test fails on the text of anything
    that is not a string. *)
Definition isValidDate_js (v : option jsval) : bool :=
  match v with
  | Some (JStr s) => isValidDate s
  | _ => false
  end.

(** [SELECT 1 FROM t WHERE key = $1], then [rows.length === 0]. *)
Definition no_row (keys : database -> list Z) (v : option jsval) : IO bool :=
  let* k := lift_pg (int_param v) in
  io_read (fun d => match k with
                    | Some n => negb (bool_decide (n ∈ keys d))
                    | None => true
                    end).

Definition update_assignment (id : string) (b : gmap string jsval)
    : IO (list assignment_row) :=
  let* examiner := lift_pg (int_param (b !! "examinerId")) in
  let* school := lift_pg (int_param (b !! "schoolId")) in
  let* date := lift_pg (date_param (b !! "examDate")) in
  let* subject := lift_pg (int_param (b !! "subjectId")) in
  let* key := lift_pg (int_param (Some (JStr id))) in
  let* session := lift_pg (varchar_param 20 (b !! "examSession")) in
  let* rows := io_read invigilation_assignments in
  let hit := fun r => bool_decide (Some (ia_assignment_id r) = key) in
  match select_where hit rows with
  | [] => io_ret []
  | old :: _ =>
      let* day := not_null "exam_date" date in
      let* session := not_null "exam_session" session in
      let* eids := io_read examiner_ids in
      let* _ := references "invigilation_assignments_examiner_id_fkey" eids examiner in
      let* sids := io_read school_ids in
      let* _ := references "invigilation_assignments_school_id_fkey" sids school in
      let* subs := io_read subject_ids in
      let* _ := references "invigilation_assignments_subject_id_fkey" subs subject in
      let new := AssignmentRow (ia_assignment_id old) examiner school day session subject in
      let* _ := io_write (with_assignments (update_where hit (fun _ => new))) in
      io_ret [new]
  end.

Definition put_invigilation (id : string) (b : gmap string jsval) : IO response :=
  if negb (isValidDate_js (b !! "examDate"))
  then io_ret (json_error 400 "Invalid exam date format. Use YYYY-MM-DD.")
  else
    let* noExaminer := no_row examiner_ids (b !! "examinerId") in
    if noExaminer then io_ret (json_error 400 "Invalid examiner ID")
    else
      let* noSchool := no_row school_ids (b !! "schoolId") in
      if noSchool then io_ret (json_error 400 "Invalid school ID")
      else
        let* noSubject := no_row subject_ids (b !! "subjectId") in
        if noSubject then io_ret (json_error 400 "Invalid subject ID")
        else
          let* rows := update_assignment id b in
          match rows with
          | [] => io_ret (json_error 404 "Assignment not found")
          | row :: _ => io_ret (json_ok 200 (assignment_data row))
          end.

Definition delete_invigilation (id : string) : IO response :=
  let* key := lift_pg (int_param (Some (JStr id))) in
  let* rows := io_read invigilation_assignments in
  let hit := fun r => bool_decide (Some (ia_assignment_id r) = key) in
  match select_where hit rows with
  | [] => io_ret (json_error 404 "Assignment not found")
  | _ :: _ =>
      let* _ := io_write (with_assignments (delete_where hit)) in
      io_ret (json_ok 200 no_data)
  end.

(** *** Schools *)

Definition insert_school (b : gmap string jsval) : IO school_row :=
  let* name := lift_pg (varchar_param 255 (b !! "school_name")) in
  let* location := lift_pg (varchar_param 255 (b !! "location")) in
  let* contact := lift_pg (varchar_param 15 (b !! "contact_number")) in
  let* email := lift_pg (varchar_param 255 (b !! "email")) in
  let* principal := lift_pg (varchar_param 100 (b !! "principal_name")) in
  let* id := nextval_schools in
  let* name := not_null "school_name" name in
  let* location := not_null "location" location in
  let* rows := io_read schools in
  let* _ := require (negb (bool_decide (id ∈ map sc_school_id rows)))
              (unique_violation "schools_pkey") in
  let* _ := require (negb (bool_decide (name ∈ map sc_school_name rows)))
              (unique_violation "schools_school_name_key") in
  let row := SchoolRow id name location contact email principal in
  let* _ := io_write (with_schools (fun l => (l ++ [row])%list)) in
  io_ret row.

Definition post_schools (b : gmap string jsval) : IO response :=
  let* row := insert_school b in
  io_ret (json_ok 201 (school_data row)).

Definition update_school (id : string) (b : gmap string jsval) : IO (list school_row) :=
  let* key := lift_pg (int_param (Some (JStr id))) in
  let* name := lift_pg (varchar_param 255 (b !! "school_name")) in
  let* location := lift_pg (varchar_param 255 (b !! "location")) in
  let* contact := lift_pg (varchar_param 15 (b !! "contact_number")) in
  let* email := lift_pg (varchar_param 255 (b !! "email")) in
  let* principal := lift_pg (varchar_param 100 (b !! "principal_name")) in
  let* rows := io_read schools in
  let hit := fun r => bool_decide (Some (sc_school_id r) = key) in
  match select_where hit rows with
  | [] => io_ret []
  | old :: _ =>
      let* name := not_null "school_name" name in
      let* location := not_null "location" location in
      let* _ := require
                  (negb (bool_decide
                           (name ∈ map sc_school_name (delete_where hit rows))))
                  (unique_violation "schools_school_name_key") in
      let new := SchoolRow (sc_school_id old) name location contact email
                   principal in
      let* _ := io_write (with_schools (update_where hit (fun _ => new))) in
      io_ret [new]
  end.

Definition put_schools (id : string) (b : gmap string jsval) : IO response :=
  let* rows := update_school id b in
  match rows with
  | [] => io_ret (json_error 404 "School not found")
  | row :: _ => io_ret (json_ok 200 (school_data row))
  end.

Definition delete_schools (id : string) : IO response :=
  let* key := lift_pg (int_param (Some (JStr id))) in
  let* d := io_read (fun d => d) in
  let hit := fun r => bool_decide (Some (sc_school_id r) = key) in
  match select_where hit (schools d) with
  | [] => io_ret (json_error 404 "School not found")
  | _ :: _ =>
      let* _ := require (negb (bool_decide (key ∈ map ex_school_id (examiners d))))
                  (foreign_key_violation "examiners_school_id_fkey") in
      let* _ := require (negb (bool_decide (key ∈ map st_school_id (students d))))
                  (foreign_key_violation "students_school_id_fkey") in
      let* _ := require
                  (negb (bool_decide
                           (key ∈ map ia_school_id (invigilation_assignments d))))
                  (foreign_key_violation "invigilation_assignments_school_id_fkey") in
      let* _ := require (negb (bool_decide (key ∈ map u_school_id (users d))))
                  (foreign_key_violation "users_school_id_fkey") in
      let* _ := io_write (with_schools (delete_where hit)) in
      io_ret (json_ok 200 no_data)
  end.

(** *** Examiners *)

Definition post_examiners (b : gmap string jsval) : IO response :=
  let examinerData :=
    mkExaminerData (b !! "examinerName") (b !! "schoolId") (b !! "qualification")
      (b !! "subjectId") (b !! "contactNumber") (b !! "email")
      (b !! "experienceYears") in
  let* examiner := addExaminer examinerData in
  io_ret (json_ok 201 (examiner_data examiner)).

Definition update_examiner (id : string) (b : gmap string jsval)
    : IO (list examiner_row) :=
  let* school := lift_pg (int_param (b !! "schoolId")) in
  let* subject := lift_pg (int_param (b !! "subjectId")) in
  let* years := lift_pg (int_param (b !! "experienceYears")) in
  let* key := lift_pg (int_param (Some (JStr id))) in
  let* name := lift_pg (varchar_param 255 (b !! "examinerName")) in
  let* qualification := lift_pg (varchar_param 255 (b !! "qualification")) in
  let* contact := lift_pg (varchar_param 15 (b !! "contactNumber")) in
  let* email := lift_pg (varchar_param 255 (b !! "email")) in
  let* rows := io_read examiners in
  let hit := fun r => bool_decide (Some (ex_examiner_id r) = key) in
  match select_where hit rows with
  | [] => io_ret []
  | old :: _ =>
      let* name := not_null "examiner_name" name in
      let* sids := io_read school_ids in
      let* _ := references "examiners_school_id_fkey" sids school in
      let* subs := io_read subject_ids in
      let* _ := references "examiners_subject_id_fkey" subs subject in
      let new := ExaminerRow (ex_examiner_id old) name school qualification
                   subject contact email years in
      let* _ := io_write (with_examiners (update_where hit (fun _ => new))) in
      io_ret [new]
  end.

Definition put_examiners (id : string) (b : gmap string jsval) : IO response :=
  let* rows := update_examiner id b in
  match rows with
  | [] => io_ret (json_error 404 "Examiner not found")
  | row :: _ => io_ret (json_ok 200 (examiner_data row))
  end.

Definition delete_examiners (id : string) : IO response :=
  let* key := lift_pg (int_param (Some (JStr id))) in
  let* d := io_read (fun d => d) in
  let hit := fun r => bool_decide (Some (ex_examiner_id r) = key) in
  match select_where hit (examiners d) with
  | [] => io_ret (json_error 404 "Examiner not found")
  | _ :: _ =>
      let* _ := require
                  (negb (bool_decide (key ∈ map as_examiner_id (answer_sheets d))))
                  (foreign_key_violation "answer_sheets_examiner_id_fkey") in
      let* _ := require
                  (negb (bool_decide
                           (key ∈ map ia_examiner_id (invigilation_assignments d))))
                  (foreign_key_violation "invigilation_assignments_examiner_id_fkey") in
      let* _ := require (negb (bool_decide (key ∈ map u_examiner_id (users d))))
                  (foreign_key_violation "users_examiner_id_fkey") in
      let* _ := io_write (with_examiners (delete_where hit)) in
      io_ret (json_ok 200 no_data)
  end.

(** *** Students *)

Definition post_students (b : gmap string jsval) : IO response :=
  let studentData :=
    mkStudentData (b !! "studentRollNumber") (b !! "studentName") (b !! "schoolId")
      (js_or (b !! "classStandard") (JNum 10)) in
  let* student := addStudent studentData in
  io_ret (json_ok 201 (student_data student)).

Definition post_students_catch (t : thrown) : response :=
  match t with
  | PgError e =>
      if String.eqb (pg_code e) "23505"
      then json_error 400 "Student roll number already exists"
      else json_caught 500 t
  | _ => json_caught 500 t
  end.

Definition update_student (rollNumber : string) (b : gmap string jsval)
    : IO (list student_row) :=
  let* school := lift_pg (int_param (b !! "schoolId")) in
  let* class := lift_pg (int_param (b !! "classStandard")) in
  let* name := lift_pg (varchar_param 255 (b !! "studentName")) in
  let* rows := io_read students in
  let hit := fun r => String.eqb (st_student_roll_number r) rollNumber in
  match select_where hit rows with
  | [] => io_ret []
  | old :: _ =>
      let* name := not_null "student_name" name in
      let* sids := io_read school_ids in
      let* _ := references "students_school_id_fkey" sids school in
      let* _ := io_write
                  (with_students
                     (update_where hit
                        (fun r => StudentRow (st_student_id r)
                                    (st_student_roll_number r) name school class))) in
      io_ret [StudentRow (st_student_id old) (st_student_roll_number old)
                name school class]
  end.

Definition put_students (rollNumber : string) (b : gmap string jsval) : IO response :=
  let* rows := update_student rollNumber b in
  match rows with
  | [] => io_ret (json_error 404 "Student not found")
  | row :: _ => io_ret (json_ok 200 (student_data row))
  end.

Definition delete_students (rollNumber : string) : IO response :=
  let* d := io_read (fun d => d) in
  let hit := fun r => String.eqb (st_student_roll_number r) rollNumber in
  match select_where hit (students d) with
  | [] => io_ret (json_error 404 "Student not found")
  | _ :: _ =>
      let* _ := require
                  (negb (bool_decide
                           (Some rollNumber ∈ map as_student_roll_number
                                                (answer_sheets d))))
                  (foreign_key_violation "answer_sheets_student_roll_number_fkey") in
      let* _ := io_write (with_students (delete_where hit)) in
      io_ret (json_ok 200 no_data)
  end.

(** *** The route table *)

Definition write_roles : list string := ["admin"; "coordinator"].

(** The middleware each route registers before its handler. *)
Definition chain (e : env) (t : endpoint) : list (context -> step) :=
  match t with
  | POST_auth_register | POST_auth_login => []
  | POST_auth_logout | GET_auth_verify => [authenticateToken e]
  | POST_schools =>
      [authenticateToken e; authorizeRole write_roles;
       validateRequest ["school_name"; "location"]]
  | PUT_schools _ | DELETE_schools _ => [authorizeRole write_roles]
  | POST_examiners =>
      [authenticateToken e; authorizeRole write_roles;
       validateRequest ["examinerName"; "schoolId"; "subjectId"]]
  | PUT_examiners _ | DELETE_examiners _ =>
      [authenticateToken e; authorizeRole write_roles]
  | POST_students =>
      [authenticateToken e; authorizeRole write_roles;
       validateRequest ["studentRollNumber"; "studentName"; "schoolId"]]
  | PUT_students _ | DELETE_students _ =>
      [authenticateToken e; authorizeRole write_roles]
  | GET_answer_sheets => [authenticateToken e]
  | GET_answer_sheets_examiner _ => []
  | POST_invigilation =>
      [authenticateToken e; authorizeRole write_roles;
       validateRequest ["examinerId"; "schoolId"; "examDate"; "examSession"]]
  | PUT_invigilation _ =>
      [authenticateToken e; authorizeRole write_roles;
       validateRequest
         ["examinerId"; "schoolId"; "examDate"; "examSession"; "subjectId"]]
  | DELETE_invigilation _ => [authenticateToken e; authorizeRole write_roles]
  end.

(** A handler that only talks to the store. *)
Definition on_store (m : IO response) (catch : thrown -> response) (s : server)
    : server * response :=
  let '(d, r) := try_catch m catch (db s) in
  (Server d (sessions s), r).

Definition handler (e : env) (c : context) (s : server) : server * response :=
  let b := body (ctx_req c) in
  match target (ctx_req c) with
  | POST_auth_register => post_auth_register e c s
  | POST_auth_login => post_auth_login e c s
  | POST_auth_logout => post_auth_logout e c s
  | GET_auth_verify => get_auth_verify e c s
  | POST_schools =>
      on_store (post_schools b)
        (fun t => Response 500 (Some (Text "Failed to add school"))
                    (Some (MessageOf t)) no_data) s
  | PUT_schools id => on_store (put_schools id b) (json_caught 500) s
  | DELETE_schools id => on_store (delete_schools id) (json_caught 500) s
  | POST_examiners => on_store (post_examiners b) (json_caught 500) s
  | PUT_examiners id => on_store (put_examiners id b) (json_caught 500) s
  | DELETE_examiners id => on_store (delete_examiners id) (json_caught 500) s
  | POST_students => on_store (post_students b) post_students_catch s
  | PUT_students roll => on_store (put_students roll b) (json_caught 500) s
  | DELETE_students roll => on_store (delete_students roll) (json_caught 500) s
  | GET_answer_sheets =>
      on_store (get_answer_sheets c)
        (fun t => Response 500 (Some (Text "Failed to fetch answer sheets"))
                    (Some (MessageOf t)) no_data) s
  | GET_answer_sheets_examiner examinerId =>
      on_store (get_answer_sheets_examiner examinerId) (json_caught 500) s
  | POST_invigilation => on_store (post_invigilation b) (json_caught 500) s
  | PUT_invigilation id => on_store (put_invigilation id b) (json_caught 500) s
  | DELETE_invigilation id => on_store (delete_invigilation id) (json_caught 500) s
  end.

(** One request against the server. *)
Definition handle (e : env) (s : server) (r : request) : server * response :=
  match run_chain (chain e (target r)) (Context r None (load_session s r)) with
  | Next c => handler e c s
  | Send resp => (s, resp)
  | Throw t => (s, error_handler t)
  end.

End App.

(** *** Bulk insertion of students ([POST /api/bulk/students])

    The route registers no middleware.  [students] is what the loop ranges
    over: [None] when [req.body.students] cannot be iterated, else its
    elements in order, an element being [None] when it is [null] or
    [undefined] and otherwise read through its properties.  Each insertion
    has its own [try]; reading the roll number of a [null] element inside
    that [catch] raises again and leaves the loop.  What returns is the
    [results] array of the 200 answer; what is raised reaches the outer
    [catch], which answers 500. *)

Inductive bulk_result : Type :=
| bulk_added (data : student_row)
| bulk_failed (error : thrown) (rollNumber : option jsval).

Section Bulk.

Context `{PgInput}.

Definition student_of (o : gmap string jsval) : StudentData :=
  mkStudentData (o !! "studentRollNumber") (o !! "studentName") (o !! "schoolId")
    (o !! "classStandard").

Fixpoint bulk_loop (students : list (option (gmap string jsval)))
    (results : list bulk_result) : IO (list bulk_result) :=
  match students with
  | [] => io_ret results
  | None :: _ => io_raise TypeError
  | Some studentData :: rest =>
      fun d =>
        match addStudent (student_of studentData) d with
        | (d', inr student) => bulk_loop rest (results ++ [bulk_added student]) d'
        | (d', inl err) =>
            bulk_loop rest
              (results ++ [bulk_failed err (studentData !! "studentRollNumber")]) d'
        end
  end.

Definition post_bulk_students
    (students : option (list (option (gmap string jsval))))
    : IO (list bulk_result) :=
  match students with
  | Some l => bulk_loop l []
  | None => io_raise TypeError
  end.

End Bulk.

(** ** A reference instance of the outside libraries

    The laws of [JwtLib], [Bcrypt] and [PgInput] are satisfiable: the
    instance below keeps the key, the expiry and the claims readable inside
    the token and stores passwords in clear.  It serves to run the embedding
    on concrete requests; no theorem about the application depends on it. *)

Module Reference.

Definition bit (b : bool) : ascii := if b then "1"%char else "0"%char.
Definition unbit (c : ascii) : bool := Ascii.eqb c "1"%char.

Fixpoint enc_pos (p : positive) : list ascii :=
  match p with
  | xH => ["."%char]
  | xO q => "0"%char :: enc_pos q
  | xI q => "1"%char :: enc_pos q
  end.

Fixpoint dec_pos (l : list ascii) : option (positive * list ascii) :=
  match l with
  | [] => None
  | c :: l' =>
      if Ascii.eqb c "."%char then Some (xH, l')
      else
        match dec_pos l' with
        | Some (q, r) => Some (if unbit c then xI q else xO q, r)
        | None => None
        end
  end.

Definition enc_Z (z : Z) : list ascii :=
  match z with
  | Z0 => ["z"%char]
  | Zpos p => "p"%char :: enc_pos p
  | Zneg p => "n"%char :: enc_pos p
  end.

Definition dec_Z (l : list ascii) : option (Z * list ascii) :=
  match l with
  | [] => None
  | c :: l' =>
      if Ascii.eqb c "z"%char then Some (0, l')
      else
        match dec_pos l' with
        | Some (p, r) => Some (if Ascii.eqb c "p"%char then Zpos p else Zneg p, r)
        | None => None
        end
  end.

Definition enc_char (c : ascii) : list ascii :=
  match c with
  | Ascii b0 b1 b2 b3 b4 b5 b6 b7 =>
      [bit b0; bit b1; bit b2; bit b3; bit b4; bit b5; bit b6; bit b7]
  end.

Fixpoint enc_str (s : string) : list ascii :=
  match s with
  | EmptyString => ["e"%char]
  | String c s' => ("c"%char :: enc_char c) ++ enc_str s'
  end.

Fixpoint dec_str (l : list ascii) : option (string * list ascii) :=
  match l with
  | m :: b0 :: b1 :: b2 :: b3 :: b4 :: b5 :: b6 :: b7 :: r =>
      if Ascii.eqb m "e"%char
      then Some (EmptyString, b0 :: b1 :: b2 :: b3 :: b4 :: b5 :: b6 :: b7 :: r)
      else
        match dec_str r with
        | Some (s, r') =>
            Some (String (Ascii (unbit b0) (unbit b1) (unbit b2) (unbit b3)
                            (unbit b4) (unbit b5) (unbit b6) (unbit b7)) s, r')
        | None => None
        end
  | m :: r => if Ascii.eqb m "e"%char then Some (EmptyString, r) else None
  | [] => None
  end.

Definition enc_opt {A} (enc : A -> list ascii) (o : option A) : list ascii :=
  match o with
  | None => ["N"%char]
  | Some a => "S"%char :: enc a
  end.

Definition dec_opt {A} (dec : list ascii -> option (A * list ascii))
    (l : list ascii) : option (option A * list ascii) :=
  match l with
  | [] => None
  | c :: l' =>
      if Ascii.eqb c "N"%char then Some (None, l')
      else match dec l' with
           | Some (a, r) => Some (Some a, r)
           | None => None
           end
  end.

Definition enc_token (key : string) (exp : Z) (c : claims) : list ascii :=
  enc_str key ++ enc_Z exp ++ enc_Z (c_userId c) ++ enc_str (c_username c)
    ++ enc_opt enc_str (c_role c) ++ enc_opt enc_Z (c_examinerId c)
    ++ enc_opt enc_Z (c_schoolId c).

Definition dec_token (l : list ascii) : option (string * Z * claims) :=
  match dec_str l with
  | Some (key, l1) =>
      match dec_Z l1 with
      | Some (exp, l2) =>
          match dec_Z l2 with
          | Some (uid, l3) =>
              match dec_str l3 with
              | Some (uname, l4) =>
                  match dec_opt dec_str l4 with
                  | Some (role, l5) =>
                      match dec_opt dec_Z l5 with
                      | Some (ex, l6) =>
                          match dec_opt dec_Z l6 with
                          | Some (sch, _) => Some (key, exp, Claims uid uname role ex sch)
                          | None => None
                          end
                      | None => None
                      end
                  | None => None
                  end
              | None => None
              end
          | None => None
          end
      | None => None
      end
  | None => None
  end.

Definition sign (c : claims) (key : string) (iat ttl : Z) : string :=
  string_of_list_ascii (enc_token key (iat + ttl) c).

Definition verify (tok key : string) (t : Z) : jwt_error + claims :=
  match dec_token (list_ascii_of_string tok) with
  | Some (k, exp, c) =>
      if negb (String.eqb k key) then inl JsonWebTokenError
      else if t <? exp then inr c
      else inl TokenExpiredError
  | None => inl JsonWebTokenError
  end.

(** Decimal text of an integer in [0, 10^9], enough for identifiers. *)
Fixpoint digits (fuel : nat) (n : Z) (acc : string) : string :=
  match fuel with
  | O => acc
  | S fuel' =>
      let acc' := String (JSDate.digit_char (n mod 10)) acc in
      if n <? 10 then acc' else digits fuel' (n / 10) acc'
  end.

Definition decimal (n : Z) : string :=
  if n <? 0 then "-" +:+ digits 10 (- n) "" else digits 10 n "".

Fixpoint number (s : list ascii) (acc : Z) : option Z :=
  match s with
  | [] => Some acc
  | c :: s' =>
      if JSDate.is_digit c then number s' (10 * acc + JSDate.digit_val c) else None
  end.

Definition integer (s : string) : option Z :=
  match list_ascii_of_string s with
  | [] => None
  | (c :: s') as l =>
      if Ascii.eqb c "-"%char
      then match s' with [] => None | _ => Z.opp <$> number s' 0 end
      else number l 0
  end.

Definition int4 (s : string) : option Z :=
  match integer s with
  | Some n => if is_int4 n then Some n else None
  | None => None
  end.

Definition int4_too_large (s : string) : bool :=
  match integer s with
  | Some n => negb (is_int4 n)
  | None => false
  end.

(** Dates are accepted in ISO form only, as day numbers. *)
Definition iso_date (s : string) : option Z :=
  if isValidDate s then JSDate.parse_date (list_ascii_of_string s) else None.

Definition iso_date_too_large (s : string) : bool :=
  JSDate.regex_test (list_ascii_of_string s) && negb (isValidDate s).

(** A password is kept as it is, up to the 72 characters [bcrypt] reads. *)
Definition hash (p : string) : string := take_chars 72 p.

Definition compare (p h : string) : bool := String.eqb (hash p) h.

End Reference.

(** The store after [initializeDatabase] on empty tables, with the reference
    libraries: the sample rows and the default administrator. *)
Definition sample_db : database :=
  Database
    [UserRow 1 "admin" "admin@cbse.edu.in" "admin123" (Some "admin") None None
       (Some true) None]
    [SchoolRow 1 "Delhi Public School" "New Delhi" None None None;
     SchoolRow 2 "Kendriya Vidyalaya" "Mumbai" None None None;
     SchoolRow 3 "St. Xavier School" "Kolkata" None None None]
    [SubjectRow 1 "Mathematics" "MATH001";
     SubjectRow 2 "Physics" "PHY001";
     SubjectRow 3 "Chemistry" "CHEM001";
     SubjectRow 4 "Biology" "BIO001";
     SubjectRow 5 "English" "ENG001"]
    [ExaminerRow 1 "Dr. Rajesh Kumar" (Some 1) (Some "M.Sc Mathematics, Ph.D")
       (Some 1) (Some "9876543210") (Some "rajesh.kumar@email.com") (Some 15);
     ExaminerRow 2 "Mrs. Priya Sharma" (Some 2) (Some "M.Sc Physics")
       (Some 2) (Some "9876543211") (Some "priya.sharma@email.com") (Some 12);
     ExaminerRow 3 "Dr. Amit Singh" (Some 3) (Some "M.Sc Chemistry, Ph.D")
       (Some 3) (Some "9876543212") (Some "amit.singh@email.com") (Some 18)]
    [StudentRow 1 "2024001001" "Amit Patel" (Some 1) (Some 10);
     StudentRow 2 "2024001002" "Sneha" (Some 2) (Some 10)]
    [AnswerSheetRow 1 "AB2024001" (Some "2024001001") (Some 1) (Some 1) (Some 45)
       (Some (JSDate.MakeDay 2024 4 20)) (Some "Good performance");
     AnswerSheetRow 2 "AB2024002" (Some "2024001002") (Some 2) (Some 2) (Some 48)
       (Some (JSDate.MakeDay 2024 4 30)) (Some "Excellent")]
    []
    1 3 3 2 0.

Definition sample_server : server := Server sample_db ∅.

(** The error kinds of the assignment validator, and the response the update
    route sends for each. *)
Inductive validation_error : Type :=
| InvalidDate
| UnknownExaminer
| UnknownSchool
| UnknownSubject.

Definition validation_response (k : validation_error) : response :=
  match k with
  | InvalidDate => json_error 400 "Invalid exam date format. Use YYYY-MM-DD."
  | UnknownExaminer => json_error 400 "Invalid examiner ID"
  | UnknownSchool => json_error 400 "Invalid school ID"
  | UnknownSubject => json_error 400 "Invalid subject ID"
  end.

(** The text [YYYY-MM-DD] of a calendar date. *)
Definition date_text (y m d : Z) : string :=
  string_of_list_ascii
    (JSDate.pad4 y ++ [JSDate.dash] ++ JSDate.pad2 m ++ [JSDate.dash] ++ JSDate.pad2 d).

(** The validator as the specification words it: the date has the form
    [YYYY-MM-DD] and names a real calendar date, then the examiner, the
    school and the subject exist, in this order; the first failure is the
    result. *)
Definition spec_date_ok (examDate : string) : Prop :=
  exists y m d : Z,
    0 <= y <= 9999 /\ 0 <= m <= 99 /\ 0 <= d <= 99
    /\ examDate = date_text y m d /\ real_date y m d = true.

Inductive spec_validate (d : database) (examinerRef schoolRef subjectRef : Z)
    (examDate : string) : option validation_error -> Prop :=
| sv_date :
    ~ spec_date_ok examDate ->
    spec_validate d examinerRef schoolRef subjectRef examDate (Some InvalidDate)
| sv_examiner :
    spec_date_ok examDate ->
    examinerRef ∉ examiner_ids d ->
    spec_validate d examinerRef schoolRef subjectRef examDate (Some UnknownExaminer)
| sv_school :
    spec_date_ok examDate ->
    examinerRef ∈ examiner_ids d ->
    schoolRef ∉ school_ids d ->
    spec_validate d examinerRef schoolRef subjectRef examDate (Some UnknownSchool)
| sv_subject :
    spec_date_ok examDate ->
    examinerRef ∈ examiner_ids d ->
    schoolRef ∈ school_ids d ->
    subjectRef ∉ subject_ids d ->
    spec_validate d examinerRef schoolRef subjectRef examDate (Some UnknownSubject)
| sv_ok :
    spec_date_ok examDate ->
    examinerRef ∈ examiner_ids d ->
    schoolRef ∈ school_ids d ->
    subjectRef ∈ subject_ids d ->
    spec_validate d examinerRef schoolRef subjectRef examDate None.

(** The endpoints whose chain starts with [authenticateToken]. *)
Definition protected (t : endpoint) : bool :=
  match t with
  | POST_auth_register | POST_auth_login => false
  | PUT_schools _ | DELETE_schools _ => false
  | GET_answer_sheets_examiner _ => false
  | _ => true
  end.

(** The writes on [/schools], [/examiners], [/students] and [/invigilation]. *)
Definition is_write (t : endpoint) : bool :=
  match t with
  | POST_schools | PUT_schools _ | DELETE_schools _
  | POST_examiners | PUT_examiners _ | DELETE_examiners _
  | POST_students | PUT_students _ | DELETE_students _
  | POST_invigilation | PUT_invigilation _ | DELETE_invigilation _ => true
  | _ => false
  end.

(** The header a client sends to present a token. *)
Definition bearer (tok : string) : string := "Bearer " +:+ tok.

(** * Properties *)

(** ** The reference libraries satisfy the laws *)

(** ** Texts in [VARCHAR] columns *)

Lemma take_chars_length n s : (String.length (take_chars n s) <= n)%nat.
Proof.
  revert s. induction n as [|n IH]; intros [|c s]; simpl; try lia.
  specialize (IH s). lia.
Qed.

Lemma varchar_fits n s : (String.length s <= n)%nat -> varchar n s = inr s.
Proof. intros Hl. unfold varchar. by rewrite (proj2 (Nat.leb_le _ _) Hl). Qed.

Lemma varchar_length n s s' :
  varchar n s = inr s' -> (String.length s' <= n)%nat.
Proof.
  unfold varchar. destruct (String.length s <=? n)%nat eqn:E.
  - intros [= <-]. by apply Nat.leb_le.
  - destruct (blank (drop_chars n s)); [|done]. intros [= <-].
    apply take_chars_length.
Qed.

Lemma varchar_short n s s' :
  varchar n s = inr s' -> (String.length s <= n)%nat -> s' = s.
Proof. intros E Hl. rewrite (varchar_fits n s Hl) in E. by injection E. Qed.

Section Columns.

Context `{PgInput}.

Lemma varchar_param_fits n v s :
  text_param v = Some s -> (String.length s <= n)%nat ->
  varchar_param n v = inr (Some s).
Proof.
  intros Hv Hl. unfold varchar_param. by rewrite Hv, (varchar_fits n s Hl).
Qed.

Lemma varchar_param_some n v s' :
  varchar_param n v = inr (Some s') ->
  exists s, text_param v = Some s /\ varchar n s = inr s'.
Proof.
  unfold varchar_param. destruct (text_param v) as [s|]; [|done].
  destruct (varchar n s) as [e|s1] eqn:E; [done|]. intros [= <-]. by exists s.
Qed.

Lemma varchar_param_none n v :
  varchar_param n v = inr None <-> text_param v = None.
Proof.
  unfold varchar_param. destruct (text_param v) as [s|]; [|done].
  by destruct (varchar n s).
Qed.

(** What [int_param] lets through is within the range of [INTEGER]. *)
Lemma int_param_range v n : int_param v = inr (Some n) -> is_int4 n = true.
Proof.
  destruct v as [[|b|m|s]|]; simpl; try done.
  - destruct (is_int4 m) eqn:E; [by intros [= <-]|]. by destruct (Z.abs m <? _).
  - destruct (int4_in s) as [m|] eqn:E; [|done]. intros [= <-].
    by eapply int4_in_range.
Qed.

Lemma int_param_num n : is_int4 n = true -> int_param (Some (JNum n)) = inr (Some n).
Proof. intros Hn. simpl. by rewrite Hn. Qed.

End Columns.

Module ReferenceLaws.
Import Reference.

Lemma unbit_bit b : unbit (bit b) = b.
Proof. by destruct b. Qed.

Lemma dec_enc_pos p r : dec_pos (enc_pos p ++ r) = Some (p, r).
Proof.
  induction p as [q IH|q IH|]; simpl; [rewrite IH|rewrite IH|]; reflexivity.
Qed.

Lemma dec_enc_Z z r : dec_Z (enc_Z z ++ r) = Some (z, r).
Proof. destruct z; simpl; [done|by rewrite dec_enc_pos..]. Qed.

Lemma dec_enc_str s r : dec_str (enc_str s ++ r) = Some (s, r).
Proof.
  induction s as [|c s IH]; simpl.
  - by destruct r as [|? [|? [|? [|? [|? [|? [|? [|? ?]]]]]]]].
  - destruct c as [b0 b1 b2 b3 b4 b5 b6 b7]. simpl.
    rewrite IH, !unbit_bit. reflexivity.
Qed.

Lemma dec_enc_opt {A} (enc : A -> list ascii) dec (o : option A) r :
  (forall a r', dec (enc a ++ r') = Some (a, r')) ->
  dec_opt dec (enc_opt enc o ++ r) = Some (o, r).
Proof. intros Hd. destruct o as [a|]; simpl; [by rewrite Hd|done]. Qed.

Lemma dec_enc_token key exp c :
  dec_token (enc_token key exp c) = Some (key, exp, c).
Proof.
  destruct c as [uid uname role ex sch]. unfold dec_token, enc_token. simpl.
  rewrite dec_enc_str, dec_enc_Z, dec_enc_Z, dec_enc_str.
  rewrite (dec_enc_opt enc_str dec_str) by apply dec_enc_str.
  rewrite (dec_enc_opt enc_Z dec_Z) by apply dec_enc_Z.
  rewrite <- (app_nil_r (enc_opt enc_Z sch)).
  rewrite (dec_enc_opt enc_Z dec_Z) by apply dec_enc_Z.
  reflexivity.
Qed.

Definition plain (c : ascii) : Prop := c <> " "%char.

Lemma plain_pos p : Forall plain (enc_pos p).
Proof. induction p; simpl; constructor; done. Qed.

Lemma plain_Z z : Forall plain (enc_Z z).
Proof. destruct z; simpl; constructor; (done || apply plain_pos). Qed.

Lemma plain_bit b : plain (bit b).
Proof. by destruct b. Qed.

Lemma plain_str s : Forall plain (enc_str s).
Proof.
  induction s as [|c s IH]; simpl; [by constructor|].
  destruct c; simpl. repeat (constructor; [done || apply plain_bit|]). exact IH.
Qed.

Lemma plain_opt {A} (enc : A -> list ascii) o :
  (forall a, Forall plain (enc a)) -> Forall plain (enc_opt enc o).
Proof. intros He. destruct o; simpl; constructor; (done || apply He). Qed.

Lemma plain_token key exp c : Forall plain (enc_token key exp c).
Proof.
  unfold enc_token. rewrite !Forall_app.
  repeat split;
    first [ apply plain_str | apply plain_Z
          | apply plain_opt; intros; first [apply plain_str | apply plain_Z] ].
Qed.

Lemma list_of_string_of l : list_ascii_of_string (string_of_list_ascii l) = l.
Proof. induction l; simpl; congruence. Qed.

Lemma verify_sign_fresh c key iat ttl t :
  t < iat + ttl -> verify (sign c key iat ttl) key t = inr c.
Proof.
  intros Ht. unfold verify, sign.
  rewrite list_of_string_of, dec_enc_token, String.eqb_refl. simpl.
  destruct (Z.ltb_spec t (iat + ttl)); [done|lia].
Qed.

Lemma verify_sign_expired c key iat ttl t :
  iat + ttl <= t -> verify (sign c key iat ttl) key t = inl TokenExpiredError.
Proof.
  intros Ht. unfold verify, sign.
  rewrite list_of_string_of, dec_enc_token, String.eqb_refl. simpl.
  destruct (Z.ltb_spec t (iat + ttl)); [lia|done].
Qed.

Lemma sign_word c key iat ttl :
  sign c key iat ttl <> "" /\ no_space (sign c key iat ttl).
Proof.
  unfold sign, no_space. rewrite list_of_string_of. split.
  - unfold enc_token. destruct key; discriminate.
  - intros Hin. pose proof (plain_token key (iat + ttl) c) as Hp.
    rewrite Forall_forall in Hp. apply list_elem_of_In in Hin.
    apply (Hp _ Hin). reflexivity.
Qed.

Lemma int4_range s n : Reference.int4 s = Some n -> is_int4 n = true.
Proof.
  unfold Reference.int4. destruct (Reference.integer s) as [m|]; [|done].
  destruct (is_int4 m) eqn:E; [|done]. by intros [= <-].
Qed.

Lemma compare_hash p (salt : string) :
  Reference.compare p (Reference.hash p) = true.
Proof. apply String.eqb_refl. Qed.

Lemma hash_fits p (salt : string) :
  (String.length (Reference.hash p) <= 255)%nat.
Proof. pose proof (take_chars_length 72 p). unfold Reference.hash. lia. Qed.

End ReferenceLaws.

Definition reference_jwt : JwtLib :=
  {| jwt_sign := Reference.sign;
     jwt_verify := Reference.verify;
     jwt_verify_fresh := ReferenceLaws.verify_sign_fresh;
     jwt_verify_expired := ReferenceLaws.verify_sign_expired;
     jwt_sign_word := ReferenceLaws.sign_word |}.

Definition reference_bcrypt : Bcrypt :=
  {| bcrypt_hash := fun p _ => Reference.hash p;
     bcrypt_compare := Reference.compare;
     bcrypt_compare_hash := ReferenceLaws.compare_hash;
     bcrypt_hash_fits := ReferenceLaws.hash_fits |}.

Definition reference_pg : PgInput :=
  {| num_to_text := Reference.decimal;
     int4_in := Reference.int4;
     int4_overflow := Reference.int4_too_large;
     date_in := Reference.iso_date;
     date_overflow := Reference.iso_date_too_large;
     int4_in_range := ReferenceLaws.int4_range |}.

(** ** Day arithmetic of [Date] *)

Module JSDateFacts.
Import JSDate.

Lemma DayFromYear_succ y : DayFromYear (y + 1) = DayFromYear y + DaysInYear y.
Proof.
  unfold DayFromYear, DaysInYear.
  repeat case Z.eqb_spec; simpl; intros; Z.div_mod_to_equations; lia.
Qed.

Lemma DayFromYear_lt y1 y2 : y1 < y2 -> DayFromYear y1 < DayFromYear y2.
Proof. unfold DayFromYear. intros. Z.div_mod_to_equations. lia. Qed.

Lemma DayFromYear_period y c :
  DayFromYear (y + 400 * c) = DayFromYear y + period_days * c.
Proof. unfold DayFromYear, period_days. Z.div_mod_to_equations. lia. Qed.

Lemma year_down_spec r :
  0 <= r < period_days ->
  DayFromYear (year_down 4 r (r / 365)) - day_of_year0 <= r
  /\ r < DayFromYear (year_down 4 r (r / 365) + 1) - day_of_year0.
Proof.
  intros Hr. unfold period_days in Hr.
  assert (Hk : 0 <= r / 365 <= 400) by (Z.div_mod_to_equations; lia).
  assert (Hk2 : 365 * (r / 365) <= r < 365 * (r / 365) + 365)
    by (Z.div_mod_to_equations; lia).
  set (k := r / 365) in *. clearbody k.
  unfold year_down.
  repeat (case Z.leb_spec; intros); unfold DayFromYear, day_of_year0 in *;
    (Z.div_mod_to_equations; lia).
Qed.

(** [YearFromDay] is the year the day falls in, for every day number. *)
Lemma YearFromDay_spec day :
  DayFromYear (YearFromDay day) <= day < DayFromYear (YearFromDay day + 1).
Proof.
  unfold YearFromDay.
  set (n := day - day_of_year0).
  assert (Hr : 0 <= n mod period_days < period_days)
    by (apply Z.mod_pos_bound; reflexivity).
  pose proof (year_down_spec _ Hr) as [Hlo Hhi].
  set (k := year_down 4 (n mod period_days) (n mod period_days / 365)) in *.
  replace (400 * (n / period_days) + k) with (k + 400 * (n / period_days)) by lia.
  replace (k + 400 * (n / period_days) + 1)
    with ((k + 1) + 400 * (n / period_days)) by lia.
  rewrite !DayFromYear_period.
  pose proof (Z.div_mod n period_days ltac:(discriminate)) as Hdm.
  unfold n in *. lia.
Qed.

Lemma DayFromYear_le y1 y2 : y1 <= y2 -> DayFromYear y1 <= DayFromYear y2.
Proof. unfold DayFromYear. intros. Z.div_mod_to_equations. lia. Qed.

Lemma YearFromDay_unique y day :
  DayFromYear y <= day < DayFromYear (y + 1) -> YearFromDay day = y.
Proof.
  intros [Hlo Hhi]. pose proof (YearFromDay_spec day) as [Hlo' Hhi'].
  destruct (Z.lt_trichotomy (YearFromDay day) y) as [Hlt|[Heq|Hgt]]; [|done|].
  - pose proof (DayFromYear_le (YearFromDay day + 1) y ltac:(lia)). lia.
  - pose proof (DayFromYear_le (y + 1) (YearFromDay day) ltac:(lia)). lia.
Qed.

Lemma InLeapYear_leap y : InLeapYear y = leap_year y.
Proof.
  unfold InLeapYear, DaysInYear, leap_year.
  repeat case Z.eqb_spec; simpl; intros; try reflexivity; exfalso;
    Z.div_mod_to_equations; lia.
Qed.

Lemma DaysInYear_leap y : DaysInYear y = if leap_year y then 366 else 365.
Proof.
  unfold DaysInYear, leap_year.
  repeat case Z.eqb_spec; simpl; intros; try reflexivity; exfalso;
    Z.div_mod_to_equations; lia.
Qed.

(** The month and date text of [toISOString], from the leap flag and the
    day within the year. *)
Definition month_date (leap : bool) (w : Z) : list ascii :=
  pad2 (month_scan 11 leap w 0 + 1) ++ [dash]
    ++ pad2 (w - month_start leap (month_scan 11 leap w 0) + 1).

Lemma toISOString_parts day :
  toISOString day =
  iso_year (YearFromDay day) ++ [dash]
    ++ month_date (InLeapYear (YearFromDay day)) (DayWithinYear day)
    ++ list_ascii_of_string "T00:00:00.000Z".
Proof.
  unfold toISOString, month_date, DateFromDay, MonthFromDay.
  rewrite <- !app_assoc. reflexivity.
Qed.

Lemma startsWith_app a l p : startsWith (a ++ l) (a ++ p) = startsWith l p.
Proof.
  induction a as [|c a IH]; simpl; [done|].
  rewrite bool_decide_eq_true_2 by done. exact IH.
Qed.

Lemma startsWith_refl_app p l : startsWith (p ++ l) p = true.
Proof.
  induction p as [|c p IH]; simpl; [by destruct l|].
  rewrite bool_decide_eq_true_2 by done. exact IH.
Qed.

Definition dim (leap : bool) (m : Z) : Z :=
  match m with
  | 1 | 3 | 5 | 7 | 8 | 10 | 12 => 31
  | 4 | 6 | 9 | 11 => 30
  | 2 => if leap then 29 else 28
  | _ => 0
  end.

Lemma days_in_month_dim y m : days_in_month y m = dim (leap_year y) m.
Proof. reflexivity. Qed.

(** The finite part of the round trip: for each leap flag, month and day
    the printed month and date repeat the input exactly when the day exists
    in the month. *)
Definition month_date_agrees (leap : bool) (m d : Z) : bool :=
  Bool.eqb
    (startsWith
       (month_date leap (month_start leap (m - 1) + d - 1)
          ++ list_ascii_of_string "T00:00:00.000Z")
       (pad2 m ++ [dash] ++ pad2 d))
    (d <=? dim leap m).

Lemma month_date_table :
  forallb (fun leap =>
    forallb (fun m => forallb (month_date_agrees leap m) (seqZ 1 31)) (seqZ 1 12))
    [true; false] = true.
Proof. vm_compute. reflexivity. Qed.

Lemma month_date_ok leap m d :
  1 <= m <= 12 -> 1 <= d <= 31 -> month_date_agrees leap m d = true.
Proof.
  intros Hm Hd. pose proof month_date_table as Ht.
  rewrite forallb_forall in Ht.
  specialize (Ht leap ltac:(destruct leap; simpl; tauto)).
  rewrite forallb_forall in Ht.
  specialize (Ht m ltac:(apply list_elem_of_In, elem_of_seqZ; lia)).
  rewrite forallb_forall in Ht.
  apply Ht. apply list_elem_of_In, elem_of_seqZ. lia.
Qed.

Lemma day_within_year_bound leap m d :
  1 <= m <= 12 -> 1 <= d <= 31 ->
  0 <= month_start leap (m - 1) + d - 1 < (if leap then 366 else 365).
Proof.
  intros Hm Hd.
  assert (m = 1 \/ m = 2 \/ m = 3 \/ m = 4 \/ m = 5 \/ m = 6 \/ m = 7 \/ m = 8
          \/ m = 9 \/ m = 10 \/ m = 11 \/ m = 12) as Hc by lia.
  destruct leap; repeat (destruct Hc as [->|Hc]; [simpl; lia|]); subst; simpl; lia.
Qed.

(** The round trip on numbers: parsing year, month and day and printing the
    day number gives the same text exactly for the days of the calendar. *)
Lemma roundtrip_real y m d :
  0 <= y <= 9999 -> 1 <= m <= 12 -> 1 <= d <= 31 ->
  startsWith (toISOString (MakeDay y (m - 1) d))
    (pad4 y ++ [dash] ++ pad2 m ++ [dash] ++ pad2 d)
  = (d <=? days_in_month y m).
Proof.
  intros Hy Hm Hd.
  assert (Hmake : MakeDay y (m - 1) d
                  = DayFromYear y + (month_start (leap_year y) (m - 1) + d - 1)).
  { unfold MakeDay.
    replace ((m - 1) / 12) with 0 by (Z.div_mod_to_equations; lia).
    replace ((m - 1) mod 12) with (m - 1) by (Z.div_mod_to_equations; lia).
    rewrite Z.add_0_r, InLeapYear_leap. lia. }
  pose proof (day_within_year_bound (leap_year y) m d Hm Hd) as Hw.
  set (w := month_start (leap_year y) (m - 1) + d - 1) in *.
  assert (Hyear : YearFromDay (MakeDay y (m - 1) d) = y).
  { apply YearFromDay_unique. rewrite Hmake, DayFromYear_succ, DaysInYear_leap.
    destruct (leap_year y); lia. }
  rewrite toISOString_parts, Hyear, InLeapYear_leap.
  unfold DayWithinYear. rewrite Hyear, Hmake.
  replace (DayFromYear y + w - DayFromYear y) with w by lia.
  unfold iso_year.
  replace ((0 <=? y) && (y <=? 9999)) with true
    by (symmetry; apply andb_true_iff; split; apply Z.leb_le; lia).
  rewrite !(app_assoc (pad4 y) [dash]), startsWith_app.
  pose proof (month_date_ok (leap_year y) m d Hm Hd) as Hok.
  unfold month_date_agrees in Hok. apply Bool.eqb_prop in Hok.
  rewrite days_in_month_dim. exact Hok.
Qed.

(** Digits. *)

Lemma is_digit_inv_bool c :
  is_digit c = true ->
  (0 <=? digit_val c) && (digit_val c <=? 9)
  && bool_decide (digit_char (digit_val c) = c) = true.
Proof.
  destruct c as [[] [] [] [] [] [] [] []]; vm_compute; intros E;
    first [reflexivity | discriminate E].
Qed.

Lemma is_digit_inv c :
  is_digit c = true ->
  0 <= digit_val c <= 9 /\ digit_char (digit_val c) = c.
Proof.
  intros E%is_digit_inv_bool.
  apply andb_true_iff in E as [[E1 E2]%andb_true_iff E3].
  apply Z.leb_le in E1, E2. apply bool_decide_eq_true in E3. done.
Qed.

Lemma digit_char_ok v :
  0 <= v <= 9 -> is_digit (digit_char v) = true /\ digit_val (digit_char v) = v.
Proof.
  intros Hv.
  assert (v = 0 \/ v = 1 \/ v = 2 \/ v = 3 \/ v = 4 \/ v = 5 \/ v = 6 \/ v = 7
          \/ v = 8 \/ v = 9) as Hc by lia.
  repeat (destruct Hc as [->|Hc]; [by vm_compute|]). subst. by vm_compute.
Qed.

Lemma pad2_num2 a b :
  is_digit a = true -> is_digit b = true ->
  pad2 (num2 a b) = [a; b] /\ 0 <= num2 a b <= 99.
Proof.
  intros [Ha Ha']%is_digit_inv [Hb Hb']%is_digit_inv. unfold pad2, num2.
  replace ((10 * digit_val a + digit_val b) / 10 mod 10) with (digit_val a)
    by (Z.div_mod_to_equations; lia).
  replace ((10 * digit_val a + digit_val b) mod 10) with (digit_val b)
    by (Z.div_mod_to_equations; lia).
  rewrite Ha', Hb'. split; [done|lia].
Qed.

Lemma pad4_num4 a b c d :
  is_digit a = true -> is_digit b = true -> is_digit c = true ->
  is_digit d = true ->
  pad4 (num4 a b c d) = [a; b; c; d] /\ 0 <= num4 a b c d <= 9999.
Proof.
  intros [Ha Ha']%is_digit_inv [Hb Hb']%is_digit_inv
         [Hc Hc']%is_digit_inv [Hd Hd']%is_digit_inv.
  unfold pad4, num4.
  set (n := 1000 * digit_val a + 100 * digit_val b + 10 * digit_val c + digit_val d).
  replace (n / 1000 mod 10) with (digit_val a)
    by (unfold n; Z.div_mod_to_equations; lia).
  replace (n / 100 mod 10) with (digit_val b)
    by (unfold n; Z.div_mod_to_equations; lia).
  replace (n / 10 mod 10) with (digit_val c)
    by (unfold n; Z.div_mod_to_equations; lia).
  replace (n mod 10) with (digit_val d)
    by (unfold n; Z.div_mod_to_equations; lia).
  rewrite Ha', Hb', Hc', Hd'. split; [done|unfold n; lia].
Qed.

Lemma num2_pad2 n :
  0 <= n <= 99 ->
  exists a b, pad2 n = [a; b] /\ is_digit a = true /\ is_digit b = true
              /\ num2 a b = n.
Proof.
  intros Hn. unfold pad2. eexists _, _. split; [reflexivity|].
  assert (0 <= n / 10 mod 10 <= 9) as H1 by (Z.div_mod_to_equations; lia).
  assert (0 <= n mod 10 <= 9) as H2 by (Z.div_mod_to_equations; lia).
  destruct (digit_char_ok _ H1) as [? E1], (digit_char_ok _ H2) as [? E2].
  repeat split; [done..|]. unfold num2. rewrite E1, E2.
  Z.div_mod_to_equations; lia.
Qed.

Lemma num4_pad4 n :
  0 <= n <= 9999 ->
  exists a b c d, pad4 n = [a; b; c; d]
    /\ is_digit a = true /\ is_digit b = true /\ is_digit c = true
    /\ is_digit d = true /\ num4 a b c d = n.
Proof.
  intros Hn. unfold pad4. eexists _, _, _, _. split; [reflexivity|].
  assert (0 <= n / 1000 mod 10 <= 9) as H1 by (Z.div_mod_to_equations; lia).
  assert (0 <= n / 100 mod 10 <= 9) as H2 by (Z.div_mod_to_equations; lia).
  assert (0 <= n / 10 mod 10 <= 9) as H3 by (Z.div_mod_to_equations; lia).
  assert (0 <= n mod 10 <= 9) as H4 by (Z.div_mod_to_equations; lia).
  destruct (digit_char_ok _ H1) as [? E1], (digit_char_ok _ H2) as [? E2],
           (digit_char_ok _ H3) as [? E3], (digit_char_ok _ H4) as [? E4].
  repeat split; [done..|]. unfold num4. rewrite E1, E2, E3, E4.
  Z.div_mod_to_equations; lia.
Qed.

End JSDateFacts.

(** ** [isValidDate] accepts exactly the calendar dates in ISO form *)

Lemma regex_test_inv l :
  JSDate.regex_test l = true ->
  exists y1 y2 y3 y4 m1 m2 d1 d2,
    l = [y1; y2; y3; y4; JSDate.dash; m1; m2; JSDate.dash; d1; d2]
    /\ JSDate.is_digit y1 = true /\ JSDate.is_digit y2 = true
    /\ JSDate.is_digit y3 = true /\ JSDate.is_digit y4 = true
    /\ JSDate.is_digit m1 = true /\ JSDate.is_digit m2 = true
    /\ JSDate.is_digit d1 = true /\ JSDate.is_digit d2 = true.
Proof.
  destruct l as [|y1 [|y2 [|y3 [|y4 [|s1 [|m1 [|m2 [|s2 [|d1 [|d2 [|? ?]]]]]]]]]]];
    try discriminate.
  unfold JSDate.regex_test. rewrite !andb_true_iff, !bool_decide_eq_true.
  intros [[[[[[[[[? ?] ?] ?] ->] ?] ?] ->] ?] ?].
  by eexists _, _, _, _, _, _, _, _.
Qed.

Lemma date_text_list y m d :
  list_ascii_of_string (date_text y m d)
  = JSDate.pad4 y ++ [JSDate.dash] ++ JSDate.pad2 m ++ [JSDate.dash] ++ JSDate.pad2 d.
Proof. unfold date_text. apply ReferenceLaws.list_of_string_of. Qed.

Lemma real_date_bounds y m d :
  real_date y m d = true -> 1 <= m <= 12 /\ 1 <= d <= 31 /\ d <= days_in_month y m.
Proof.
  unfold real_date. rewrite !andb_true_iff, !Z.leb_le. intros [[[? ?] ?] Hd].
  repeat split; try lia.
  assert (days_in_month y m <= 31); [|lia].
  unfold days_in_month.
  assert (m = 1 \/ m = 2 \/ m = 3 \/ m = 4 \/ m = 5 \/ m = 6 \/ m = 7 \/ m = 8
          \/ m = 9 \/ m = 10 \/ m = 11 \/ m = 12) as Hc by lia.
  repeat (destruct Hc as [->|Hc]; [try destruct (leap_year y); lia|]).
  subst. lia.
Qed.

Lemma isValidDate_iff examDate : isValidDate examDate = true <-> spec_date_ok examDate.
Proof.
  unfold isValidDate, spec_date_ok. split.
  - destruct (JSDate.regex_test (list_ascii_of_string examDate)) eqn:Hre;
      [simpl|discriminate].
    apply regex_test_inv in Hre
      as (y1 & y2 & y3 & y4 & m1 & m2 & d1 & d2 & Hl & ? & ? & ? & ? & ? & ? & ? & ?).
    rewrite Hl. unfold JSDate.parse_date.
    destruct (JSDateFacts.pad4_num4 y1 y2 y3 y4) as [Ey Hy]; [done..|].
    destruct (JSDateFacts.pad2_num2 m1 m2) as [Em Hm]; [done..|].
    destruct (JSDateFacts.pad2_num2 d1 d2) as [Ed Hd]; [done..|].
    set (y := JSDate.num4 y1 y2 y3 y4) in *.
    set (m := JSDate.num2 m1 m2) in *. set (d := JSDate.num2 d1 d2) in *.
    destruct ((1 <=? m) && (m <=? 12) && (1 <=? d) && (d <=? 31)) eqn:Hrange;
      [|discriminate].
    apply andb_true_iff in Hrange as [[[? ?]%andb_true_iff ?]%andb_true_iff ?].
    intros Hsw. exists y, m, d. repeat split; try lia.
    + rewrite <- (string_of_list_ascii_of_string examDate), Hl.
      unfold date_text. rewrite Ey, Em, Ed. reflexivity.
    + replace [y1; y2; y3; y4; JSDate.dash; m1; m2; JSDate.dash; d1; d2]
        with (JSDate.pad4 y ++ [JSDate.dash] ++ JSDate.pad2 m ++ [JSDate.dash]
                ++ JSDate.pad2 d) in Hsw by (rewrite Ey, Em, Ed; reflexivity).
      rewrite JSDateFacts.roundtrip_real in Hsw by lia.
      unfold real_date. rewrite !andb_true_iff. repeat split; try done.
  - intros (y & m & d & Hy & Hm & Hd & -> & Hreal).
    apply real_date_bounds in Hreal as (Hm' & Hd' & Hdim).
    rewrite date_text_list.
    destruct (JSDateFacts.num4_pad4 y Hy)
      as (y1 & y2 & y3 & y4 & Ey & ? & ? & ? & ? & Ny).
    destruct (JSDateFacts.num2_pad2 m Hm) as (m1 & m2 & Em & ? & ? & Nm).
    destruct (JSDateFacts.num2_pad2 d Hd) as (d1 & d2 & Ed & ? & ? & Nd).
    assert (Hre : JSDate.regex_test
                    (JSDate.pad4 y ++ [JSDate.dash] ++ JSDate.pad2 m
                       ++ [JSDate.dash] ++ JSDate.pad2 d) = true).
    { rewrite Ey, Em, Ed. simpl. unfold JSDate.regex_test.
      rewrite !andb_true_iff.
      repeat split; first [done | by apply bool_decide_eq_true]. }
    rewrite Hre. simpl negb. cbv iota.
    assert (Hparse : JSDate.parse_date
                       (JSDate.pad4 y ++ [JSDate.dash] ++ JSDate.pad2 m
                          ++ [JSDate.dash] ++ JSDate.pad2 d)
                     = Some (JSDate.MakeDay y (m - 1) d)).
    { rewrite Ey, Em, Ed. simpl. unfold JSDate.parse_date. rewrite Ny, Nm, Nd.
      replace ((1 <=? m) && (m <=? 12) && (1 <=? d) && (d <=? 31)) with true; [done|].
      symmetry. rewrite !andb_true_iff, !Z.leb_le. lia. }
    rewrite Hparse, JSDateFacts.roundtrip_real by lia. apply Z.leb_le. lia.
Qed.

#[global] Instance spec_date_ok_dec examDate : Decision (spec_date_ok examDate).
Proof.
  destruct (isValidDate examDate) eqn:E.
  - left. by apply isValidDate_iff.
  - right. intros Hs%isValidDate_iff. congruence.
Defined.

(** ** The authentication gateway *)

Lemma append_empty_r s : s +:+ "" = s.
Proof.
  induction s as [|c s IH]; [done|].
  change (String c (s +:+ "") = String c s). by rewrite IH.
Qed.

Lemma append_snoc cur c s : (cur +:+ String c "") +:+ s = cur +:+ String c s.
Proof.
  induction cur as [|c' cur IH]; [done|].
  change (String c' ((cur +:+ String c "") +:+ s) = String c' (cur +:+ String c s)).
  by rewrite IH.
Qed.

Lemma split_space_aux_word cur s :
  no_space s -> split_space_aux cur s = [cur +:+ s].
Proof.
  revert cur. induction s as [|c s IH]; intros cur Hs; simpl.
  - by rewrite append_empty_r.
  - destruct (Ascii.eqb_spec c " "%char) as [->|Hc].
    + exfalso. apply Hs. simpl. by left.
    + rewrite IH by (intros Hin; apply Hs; simpl; by right).
      by rewrite append_snoc.
Qed.

(** The header [Bearer tok] yields [tok]. *)
Lemma bearer_token_bearer tok :
  no_space tok -> bearer_token (Some (bearer tok)) = Some tok.
Proof.
  intros Hs. unfold bearer_token, bearer, split_space.
  change ("Bearer " +:+ tok)
    with (String "B" (String "e" (String "a" (String "r" (String "e"
            (String "r" (String " " tok))))))).
  simpl. by rewrite split_space_aux_word.
Qed.

Section Gateway.

Context `{JwtLib} `{Bcrypt} `{PgInput}.
Variable JWT_SECRET : string.
Variable role_check : option string -> bool.

Lemma authenticateToken_missing e c :
  falsy_text (bearer_token (authorization (ctx_req c))) = true ->
  authenticateToken JWT_SECRET e c = Send (json_error 401 "Access token required").
Proof. intros Hf. unfold authenticateToken. by rewrite Hf. Qed.

Lemma authenticateToken_rejected e c tok err :
  bearer_token (authorization (ctx_req c)) = Some tok -> tok <> "" ->
  jwt_verify tok JWT_SECRET (now e) = inl err ->
  authenticateToken JWT_SECRET e c = Send (json_error 403 "Invalid or expired token").
Proof.
  intros Ht Hne Hv. unfold authenticateToken. rewrite Ht. simpl.
  destruct (String.eqb_spec tok ""); [done|]. by rewrite Hv.
Qed.

Lemma authenticateToken_accepted e c tok user :
  bearer_token (authorization (ctx_req c)) = Some tok -> tok <> "" ->
  jwt_verify tok JWT_SECRET (now e) = inr user ->
  authenticateToken JWT_SECRET e c
  = Next (Context (ctx_req c) (Some user) (ctx_session c)).
Proof.
  intros Ht Hne Hv. unfold authenticateToken. rewrite Ht. simpl.
  destruct (String.eqb_spec tok ""); [done|]. by rewrite Hv.
Qed.

(** The chain of a protected endpoint starts with the gateway. *)
Lemma protected_chain e t :
  protected t = true ->
  exists rest, chain JWT_SECRET e t = authenticateToken JWT_SECRET e :: rest.
Proof. destruct t; try discriminate; intros _; eexists; reflexivity. Qed.

Lemma handle_gateway_send e s r resp :
  protected (target r) = true ->
  authenticateToken JWT_SECRET e (Context r None (load_session s r)) = Send resp ->
  handle JWT_SECRET role_check e s r = (s, resp).
Proof.
  intros Hp Ha. destruct (protected_chain e _ Hp) as [rest Hc].
  unfold handle. rewrite Hc. simpl. by rewrite Ha.
Qed.

(** C1, as the code has it: on every protected endpoint a request without a
    bearer token is answered 401 "Access token required", and a request
    whose token fails verification is answered 403 with the one message
    "Invalid or expired token", whatever the failure was (malformed, bad
    signature or expired); the server state is left as it was. *)
Theorem C1_gateway_401_then_403 e s r :
  protected (target r) = true ->
  (falsy_text (bearer_token (authorization r)) = true ->
   handle JWT_SECRET role_check e s r
   = (s, json_error 401 "Access token required"))
  /\ (forall tok err,
        bearer_token (authorization r) = Some tok -> tok <> "" ->
        jwt_verify tok JWT_SECRET (now e) = inl err ->
        handle JWT_SECRET role_check e s r
        = (s, json_error 403 "Invalid or expired token")).
Proof.
  intros Hp. split.
  - intros Hf. apply handle_gateway_send; [done|].
    by apply authenticateToken_missing.
  - intros tok err Ht Hne Hv. apply handle_gateway_send; [done|].
    by eapply authenticateToken_rejected.
Qed.

(** C2, at the failing routes: [PUT /api/schools/:id] and
    [DELETE /api/schools/:id] register [authorizeRole] without
    [authenticateToken], so [req.user] is undefined, the role check throws
    and every request, whatever its token, role and body, is answered 500
    "Internal server error" by the error handler, not 403. *)
Theorem C2_schools_update_delete_answer_500 e s id auth cookie b :
  handle JWT_SECRET role_check e s (Request (PUT_schools id) auth cookie b)
  = (s, json_error 500 "Internal server error")
  /\ handle JWT_SECRET role_check e s (Request (DELETE_schools id) auth cookie b)
     = (s, json_error 500 "Internal server error").
Proof. split; reflexivity. Qed.

(** On the ten other write routes of [/schools], [/examiners], [/students]
    and [/invigilation] an identity with role [examiner] is answered 403
    "Insufficient permissions" and nothing is written. *)
Lemma examiner_write_denied e s r tok user :
  is_write (target r) = true -> protected (target r) = true ->
  bearer_token (authorization r) = Some tok -> tok <> "" ->
  jwt_verify tok JWT_SECRET (now e) = inr user ->
  c_role user = Some "examiner" ->
  handle JWT_SECRET role_check e s r
  = (s, json_error 403 "Insufficient permissions").
Proof.
  intros Hw Hp Ht Hne Hv Hrole. unfold handle.
  destruct (target r) eqn:Et; try discriminate; simpl;
    (erewrite authenticateToken_accepted by done);
    simpl; unfold authorizeRole; simpl; rewrite Hrole; reflexivity.
Qed.

End Gateway.

(** ** Running statements *)

Lemma io_bind_ok {A B} (m : IO A) (k : A -> IO B) d d' a :
  m d = (d', inr a) -> io_bind m k d = k a d'.
Proof. intros E. unfold io_bind. by rewrite E. Qed.

Lemma io_bind_raised {A B} (m : IO A) (k : A -> IO B) d d' t :
  m d = (d', inl t) -> io_bind m k d = (d', inl t).
Proof. intros E. unfold io_bind. by rewrite E. Qed.

Lemma io_bind_inv {A B} (m : IO A) (k : A -> IO B) d d2 b :
  io_bind m k d = (d2, inr b) ->
  exists d1 a, m d = (d1, inr a) /\ k a d1 = (d2, inr b).
Proof.
  unfold io_bind. destruct (m d) as [d1 [t|a]]; [done|]. intros E. by exists d1, a.
Qed.

(** ** Inverting a statement that returned *)

Lemma io_ret_inv {A} (a a' : A) d d' : io_ret a d = (d', inr a') -> d' = d /\ a' = a.
Proof. unfold io_ret. intros E. by simplify_eq. Qed.

Lemma io_read_inv {A} (f : database -> A) a d d' :
  io_read f d = (d', inr a) -> d' = d /\ a = f d.
Proof. unfold io_read. intros E. by simplify_eq. Qed.

Lemma io_write_inv f u d d' : io_write f d = (d', inr u) -> d' = f d.
Proof. unfold io_write. intros E. by simplify_eq. Qed.

Lemma lift_pg_inv {A} (r : pg_error + A) a d d' :
  lift_pg r d = (d', inr a) -> d' = d /\ r = inr a.
Proof. destruct r; unfold lift_pg, io_ret, io_raise; intros E; by simplify_eq. Qed.

Lemma not_null_inv {A} c (v : option A) a d d' :
  not_null c v d = (d', inr a) -> d' = d /\ v = Some a.
Proof. destruct v; unfold not_null, io_ret, io_raise; intros E; by simplify_eq. Qed.

Lemma require_inv b e u d d' : require b e d = (d', inr u) -> d' = d /\ b = true.
Proof. destruct b; unfold require, io_ret, io_raise; intros E; by simplify_eq. Qed.

Lemma references_inv c keys v u d d' :
  references c keys v d = (d', inr u) ->
  d' = d /\ forall k, v = Some k -> k ∈ keys.
Proof.
  destruct v as [k|]; unfold references.
  - intros [-> Hb]%require_inv. apply bool_decide_eq_true in Hb.
    split; [done|]. by intros ? [= <-].
  - intros [-> _]%io_ret_inv. done.
Qed.

Lemma io_raise_inv {A} t (a : A) d d' : io_raise t d = (d', inr a) -> False.
Proof. unfold io_raise. intros E. by simplify_eq. Qed.

(** Peel the binds of a statement that returned, one primitive at a time. *)
Ltac io_prim S :=
  lazymatch type of S with
  | io_ret _ _ = _ => apply io_ret_inv in S as [-> ->]
  | io_read _ _ = _ => apply io_read_inv in S as [-> ->]
  | io_write _ _ = _ => apply io_write_inv in S as ->
  | lift_pg _ _ = _ => apply lift_pg_inv in S as [-> S]
  | not_null _ _ _ = _ => apply not_null_inv in S as [-> S]
  | require _ _ _ = _ => apply require_inv in S as [-> S]
  | references _ _ _ _ = _ => apply references_inv in S as [-> S]
  | io_raise _ _ = _ => by apply io_raise_inv in S
  | nextval_users _ = _ =>
      let Hseq := fresh "Hseq" in
      unfold nextval_users in S; destruct (_ <=? _) eqn:Hseq; simplify_eq
  | nextval_schools _ = _ =>
      let Hseq := fresh "Hseq" in
      unfold nextval_schools in S; destruct (_ <=? _) eqn:Hseq; simplify_eq
  | nextval_examiners _ = _ =>
      let Hseq := fresh "Hseq" in
      unfold nextval_examiners in S; destruct (_ <=? _) eqn:Hseq; simplify_eq
  | nextval_students _ = _ =>
      let Hseq := fresh "Hseq" in
      unfold nextval_students in S; destruct (_ <=? _) eqn:Hseq; simplify_eq
  | nextval_invigilation _ = _ =>
      let Hseq := fresh "Hseq" in
      unfold nextval_invigilation in S; destruct (_ <=? _) eqn:Hseq; simplify_eq
  | _ => idtac
  end.

Ltac io_peel E :=
  repeat
    match type of E with
    | io_bind _ _ _ = (_, inr _) =>
        let d := fresh "d" in
        let a := fresh "a" in
        let S := fresh "S" in
        apply io_bind_inv in E as (d & a & S & E); io_prim S
    end;
  io_prim E.

(** The tables of the store after a sequence was drawn from. *)
Ltac after_nextval :=
  unfold nextval_users, nextval_schools, nextval_examiners, nextval_students,
    nextval_invigilation;
  repeat match goal with
         | |- context [if ?c then _ else _] => destruct c
         end;
  simpl.

(** ** The checks of the assignment update *)

Lemma spec_validate_functional d x s j t k1 k2 :
  spec_validate d x s j t k1 -> spec_validate d x s j t k2 -> k1 = k2.
Proof. intros [] []; done. Qed.

Lemma validation_response_status k : status (validation_response k) = 400.
Proof. by destruct k. Qed.

Lemma sample_examiner_999 : 999 ∉ examiner_ids sample_db.
Proof.
  intros Hin. unfold examiner_ids in Hin. simpl in Hin.
  repeat (apply elem_of_cons in Hin as [Hin|Hin]; [discriminate|]).
  by apply elem_of_nil in Hin.
Qed.

Section Validation.

Context `{JwtLib} `{Bcrypt} `{PgInput}.

Lemma no_row_eval keys v n d :
  int_param v = inr (Some n) ->
  no_row keys v d = (d, inr (negb (bool_decide (n ∈ keys d)))).
Proof. intros Hv. unfold no_row, io_bind, lift_pg, io_ret, io_read. by rewrite Hv. Qed.

(** The update route after its checks have passed: whatever it answers is
    none of the four validation responses. *)
Lemma after_checks_not_validation id b d err :
  snd (io_bind (update_assignment id b)
         (fun rows =>
            match rows with
            | [] => io_ret (json_error 404 "Assignment not found")
            | row :: _ => io_ret (json_ok 200 (assignment_data row))
            end) d)
  <> inr (validation_response err).
Proof.
  unfold io_bind. destruct (update_assignment id b d) as [d' [t|[|row rows]]];
    simpl; [done|by destruct err..].
Qed.

Lemma put_invigilation_eval id (b : gmap string jsval) d x s j t :
  b !! "examDate" = Some (JStr t) ->
  int_param (b !! "examinerId") = inr (Some x) ->
  int_param (b !! "schoolId") = inr (Some s) ->
  int_param (b !! "subjectId") = inr (Some j) ->
  put_invigilation id b d =
  if negb (isValidDate t) then (d, inr (validation_response InvalidDate))
  else if negb (bool_decide (x ∈ examiner_ids d))
  then (d, inr (validation_response UnknownExaminer))
  else if negb (bool_decide (s ∈ school_ids d))
  then (d, inr (validation_response UnknownSchool))
  else if negb (bool_decide (j ∈ subject_ids d))
  then (d, inr (validation_response UnknownSubject))
  else io_bind (update_assignment id b)
         (fun rows =>
            match rows with
            | [] => io_ret (json_error 404 "Assignment not found")
            | row :: _ => io_ret (json_ok 200 (assignment_data row))
            end) d.
Proof.
  intros Hdate Hx Hs Hj. unfold put_invigilation. rewrite Hdate.
  change (isValidDate_js (Some (JStr t))) with (isValidDate t).
  destruct (isValidDate t); [|reflexivity]. cbn [negb].
  rewrite (io_bind_ok _ _ _ _ _ (no_row_eval _ _ _ d Hx)).
  destruct (bool_decide (x ∈ examiner_ids d)); [|reflexivity]. cbn [negb].
  rewrite (io_bind_ok _ _ _ _ _ (no_row_eval _ _ _ d Hs)).
  destruct (bool_decide (s ∈ school_ids d)); [|reflexivity]. cbn [negb].
  rewrite (io_bind_ok _ _ _ _ _ (no_row_eval _ _ _ d Hj)).
  destruct (bool_decide (j ∈ subject_ids d)); reflexivity.
Qed.

(** C3: the update of an invigilation assignment checks, in this order, that
    the date has the form YYYY-MM-DD and names a real calendar date, that
    the examiner exists, that the school exists and that the subject
    exists; it answers with the response of the first check that fails and
    leaves the store as it was; when all four pass, its answer is none of
    the four validation responses.  The examiner 999 with a good date gives
    UnknownExaminer, the date 2025-02-30 gives InvalidDate, and 2024-13-01
    is no date either.  The references are those the store reads as
    integers of its range.  That a failing check stops the validation shows
    in what comes after it not being looked at: a bad date is answered
    InvalidDate whatever the references are, an unknown examiner
    UnknownExaminer whatever school and subject are, an unknown school
    UnknownSchool whatever the subject is; an examiner reference the store
    cannot read (3000000000, say) is answered by the store's error and not
    by a validation response. *)
Theorem C3_validation_order :
  (forall id (b : gmap string jsval) d examinerRef schoolRef subjectRef examDate,
     b !! "examDate" = Some (JStr examDate) ->
     int_param (b !! "examinerId") = inr (Some examinerRef) ->
     int_param (b !! "schoolId") = inr (Some schoolRef) ->
     int_param (b !! "subjectId") = inr (Some subjectRef) ->
     exists k,
       spec_validate d examinerRef schoolRef subjectRef examDate k
       /\ match k with
          | Some err => put_invigilation id b d = (d, inr (validation_response err))
          | None => forall err,
              snd (put_invigilation id b d) <> inr (validation_response err)
          end)
  /\ (spec_validate sample_db 999 1 1 "2025-06-01" (Some UnknownExaminer)
      /\ put_invigilation "1"
           {[ "examinerId" := JNum 999; "schoolId" := JNum 1;
              "subjectId" := JNum 1; "examDate" := JStr "2025-06-01";
              "examSession" := JStr "Morning" ]} sample_db
         = (sample_db, inr (validation_response UnknownExaminer)))
  /\ (spec_validate sample_db 1 1 1 "2025-02-30" (Some InvalidDate)
      /\ put_invigilation "1"
           {[ "examinerId" := JNum 1; "schoolId" := JNum 1;
              "subjectId" := JNum 1; "examDate" := JStr "2025-02-30";
              "examSession" := JStr "Morning" ]} sample_db
         = (sample_db, inr (validation_response InvalidDate)))
  /\ isValidDate "2024-13-01" = false
  /\ (forall id (b : gmap string jsval) d,
        ((forall t, b !! "examDate" = Some (JStr t) -> ~ spec_date_ok t) ->
         put_invigilation id b d
         = (d, inr (validation_response InvalidDate)))
        /\ (forall t,
              b !! "examDate" = Some (JStr t) -> spec_date_ok t ->
              (forall e,
                 int_param (b !! "examinerId") = inl e ->
                 put_invigilation id b d = (d, inl (PgError e)))
              /\ (forall x,
                    int_param (b !! "examinerId") = inr (Some x) ->
                    x ∉ examiner_ids d ->
                    put_invigilation id b d
                    = (d, inr (validation_response UnknownExaminer)))
              /\ (forall x s,
                    int_param (b !! "examinerId") = inr (Some x) ->
                    x ∈ examiner_ids d ->
                    int_param (b !! "schoolId") = inr (Some s) ->
                    s ∉ school_ids d ->
                    put_invigilation id b d
                    = (d, inr (validation_response UnknownSchool)))))
  /\ int_param (Some (JNum 3000000000)) = inl numeric_value_out_of_range.
Proof.
  split; [|split; [|split; [|split; [|split]]]].
  - intros id b d x s j t Hdate Hx Hs Hj.
    rewrite (put_invigilation_eval id b d x s j t) by done.
    destruct (isValidDate t) eqn:Hvalid; cbn [negb].
    2:{ exists (Some InvalidDate). split; [|done].
        apply sv_date. intros Hok%isValidDate_iff. congruence. }
    assert (spec_date_ok t) as Hok by by apply isValidDate_iff.
    destruct (decide (x ∈ examiner_ids d)) as [Hxin|Hxin].
    2:{ exists (Some UnknownExaminer). split; [by apply sv_examiner|].
        by rewrite bool_decide_eq_false_2. }
    rewrite (bool_decide_eq_true_2 _ Hxin). cbn [negb].
    destruct (decide (s ∈ school_ids d)) as [Hsin|Hsin].
    2:{ exists (Some UnknownSchool). split; [by apply sv_school|].
        by rewrite bool_decide_eq_false_2. }
    rewrite (bool_decide_eq_true_2 _ Hsin). cbn [negb].
    destruct (decide (j ∈ subject_ids d)) as [Hjin|Hjin].
    2:{ exists (Some UnknownSubject). split; [by apply sv_subject|].
        by rewrite bool_decide_eq_false_2. }
    rewrite (bool_decide_eq_true_2 _ Hjin). cbn [negb].
    exists None. split; [by apply sv_ok|].
    intros err. apply after_checks_not_validation.
  - split; [|by vm_compute].
    apply sv_examiner; [by apply isValidDate_iff; vm_compute|].
    apply sample_examiner_999.
  - split; [|by vm_compute].
    apply sv_date. intros Hok%isValidDate_iff. by vm_compute in Hok.
  - by vm_compute.
  - intros id b d. split.
    + intros Hbad. unfold put_invigilation.
      destruct (b !! "examDate") as [[| | |t]|] eqn:Hdate; try reflexivity.
      change (isValidDate_js (Some (JStr t))) with (isValidDate t).
      destruct (isValidDate t) eqn:Hvalid; [|reflexivity].
      exfalso. by eapply Hbad, isValidDate_iff.
    + intros t Hdate Hok. unfold put_invigilation. rewrite Hdate.
      change (isValidDate_js (Some (JStr t))) with (isValidDate t).
      rewrite (proj2 (isValidDate_iff t) Hok). cbn [negb].
      split; [|split].
      * intros err Herr. unfold no_row, io_bind, lift_pg, io_raise.
        by rewrite Herr.
      * intros x Hx Hnot.
        rewrite (io_bind_ok _ _ _ _ _ (no_row_eval _ _ _ d Hx)).
        by rewrite bool_decide_eq_false_2.
      * intros x sch Hx Hin Hs Hnot.
        rewrite (io_bind_ok _ _ _ _ _ (no_row_eval _ _ _ d Hx)).
        rewrite (bool_decide_eq_true_2 _ Hin). cbn [negb].
        rewrite (io_bind_ok _ _ _ _ _ (no_row_eval _ _ _ d Hs)).
        by rewrite bool_decide_eq_false_2.
  - reflexivity.
Qed.

End Validation.

(** ** Accounts: registration and login *)

Lemma NoDup_map_inj {A B} (f : A -> B) (l : list A) x y :
  NoDup (map f l) -> x ∈ l -> y ∈ l -> f x = f y -> x = y.
Proof.
  induction l as [|a l IH]; simpl; intros Hnd Hx Hy Hf.
  - by apply elem_of_nil in Hx.
  - apply NoDup_cons in Hnd as [Ha Hnd].
    apply elem_of_cons in Hx as [->|Hx]; apply elem_of_cons in Hy as [->|Hy].
    + done.
    + exfalso. apply Ha. rewrite Hf. apply list_elem_of_In, in_map.
      by apply list_elem_of_In.
    + exfalso. apply Ha. rewrite <- Hf. apply list_elem_of_In, in_map.
      by apply list_elem_of_In.
    + by apply IH.
Qed.

Lemma filter_none {A} (p : A -> bool) (l : list A) :
  (forall x, x ∈ l -> p x = false) -> List.filter p l = [].
Proof.
  induction l as [|a l IH]; simpl; intros Hp; [done|].
  rewrite (Hp a) by apply list_elem_of_here.
  apply IH. intros x Hx. apply Hp. by apply list_elem_of_further.
Qed.

Section Accounts.

Context `{JwtLib} `{Bcrypt} `{PgInput}.
Variable JWT_SECRET : string.
Variable role_check : option string -> bool.

Lemma createUser_inv e un em pw role exid schid d d' u :
  createUser role_check e un em pw role exid schid d = (d', inr u) ->
  exists p uname mail,
    pw = Some (JStr p)
    /\ int_param exid = inr (u_examiner_id u)
    /\ int_param schid = inr (u_school_id u)
    /\ varchar_param 50 un = inr (Some uname)
    /\ varchar_param 100 em = inr (Some mail)
    /\ u = UserRow (users_seq d + 1) uname mail (bcrypt_hash p (salt e))
             (u_role u) (u_examiner_id u) (u_school_id u) (Some true) None
    /\ d' = with_users (fun l => l ++ [u]) (fst (nextval_users d))
    /\ (varchar_param 20 role = inr (u_role u) /\ role_check (u_role u) = true)
    /\ ((users_seq d + 1) ∉ map u_user_id (users d))
    /\ (uname ∉ map u_username (users d))
    /\ (mail ∉ map u_email (users d))
    /\ (forall k, u_examiner_id u = Some k -> k ∈ examiner_ids d)
    /\ (forall k, u_school_id u = Some k -> k ∈ school_ids d).
Proof.
  intros E. unfold createUser in E.
  apply io_bind_inv in E as (d1 & hashed & S & E).
  destruct pw as [[| | |p]|]; try (by apply io_raise_inv in S).
  io_prim S. io_peel E.
  repeat match goal with
         | Hn : negb _ = true |- _ =>
             apply negb_true_iff, bool_decide_eq_false in Hn
         | Hv : varchar 255 (bcrypt_hash _ _) = inr _ |- _ =>
             rewrite (varchar_fits _ _ (bcrypt_hash_fits _ _)) in Hv;
             injection Hv as <-
         end.
  subst. eexists p, _, _. unfold nextval_users. rewrite Hseq.
  simpl in *. repeat split; done.
Qed.

Lemma addExaminer_inv dta d d' row :
  addExaminer dta d = (d', inr row) ->
  exists name,
    varchar_param 255 (ed_examinerName dta) = inr (Some name)
    /\ int_param (ed_schoolId dta) = inr (ex_school_id row)
    /\ int_param (ed_subjectId dta) = inr (ex_subject_id row)
    /\ int_param (ed_experienceYears dta) = inr (ex_experience_years row)
    /\ (row = ExaminerRow (examiners_seq d + 1) name (ex_school_id row)
                (ex_qualification row) (ex_subject_id row)
                (ex_contact_number row) (ex_email row)
                (ex_experience_years row)
        /\ varchar_param 255 (ed_qualification dta) = inr (ex_qualification row)
        /\ varchar_param 15 (ed_contactNumber dta) = inr (ex_contact_number row)
        /\ varchar_param 255 (ed_email dta) = inr (ex_email row))
    /\ d' = with_examiners (fun l => l ++ [row]) (fst (nextval_examiners d))
    /\ ((examiners_seq d + 1) ∉ examiner_ids d)
    /\ (forall k, ex_school_id row = Some k -> k ∈ school_ids d)
    /\ (forall k, ex_subject_id row = Some k -> k ∈ subject_ids d).
Proof.
  intros E. unfold addExaminer in E. io_peel E.
  repeat match goal with
         | Hn : negb _ = true |- _ =>
             apply negb_true_iff, bool_decide_eq_false in Hn
         end.
  subst. eexists. unfold nextval_examiners. rewrite Hseq.
  simpl in *. repeat split; done.
Qed.

(** The lookup by username finds nobody when every user of that name is
    inactive, and finds the user just appended when the name was free. *)
Lemma getUserByUsername_none un d :
  (forall v, v ∈ users d -> text_param un = Some (u_username v) ->
             u_is_active v <> Some true) ->
  getUserByUsername un d = (d, inr None).
Proof.
  intros Hv. unfold getUserByUsername, io_read, select_where.
  rewrite filter_none; [done|].
  intros v Hin. apply andb_false_iff.
  destruct (decide (text_param un = Some (u_username v))) as [E|E].
  - right. apply bool_decide_eq_false. by apply Hv.
  - left. by apply bool_decide_eq_false.
Qed.


Lemma getUserByUsername_state un d d' r :
  getUserByUsername un d = (d', inr r) -> d' = d.
Proof. unfold getUserByUsername. by intros [-> _]%io_read_inv. Qed.

Lemma getUserByEmail_state em d d' r :
  getUserByEmail em d = (d', inr r) -> d' = d.
Proof. unfold getUserByEmail. by intros [-> _]%io_read_inv. Qed.

(** The examiner row a registration with role [examiner] and no examiner
    reference asks for. *)
Definition new_examiner_data (b : gmap string jsval) : ExaminerData :=
  mkExaminerData (b !! "username") (js_or (b !! "schoolId") (JNum 1))
    (Some (JStr "Not specified")) (Some (JNum 1)) (Some JNull) (b !! "email")
    (Some (JNum 0)).

(** What a registration answered with 201 has done. *)
Lemma register_created e (b : gmap string jsval) d d' id uname mail role :
  register role_check e b d
  = (d', inr (json_ok 201 (registered id uname mail role))) ->
  exists u p dx,
    b !! "password" = Some (JStr p)
    /\ truthy (b !! "username") = true
    /\ truthy (b !! "password") = true
    /\ varchar_param 50 (b !! "username") = inr (Some uname)
    /\ varchar_param 100 (b !! "email") = inr (Some mail)
    /\ varchar_param 20 (js_or (b !! "role") (JStr "examiner")) = inr role
    /\ u = UserRow id uname mail (bcrypt_hash p (salt e)) role
             (u_examiner_id u) (u_school_id u) (Some true) None
    /\ users d' = users d ++ [u]
    /\ (uname ∉ map u_username (users d))
    /\ examiners d' = examiners dx
    /\ (forall k, u_examiner_id u = Some k -> k ∈ examiner_ids dx)
    /\ ((strict_eq_str (b !! "role") "examiner"
           && negb (truthy (b !! "examinerId")) = true
         /\ exists row,
             addExaminer (new_examiner_data b) d = (dx, inr row)
             /\ u_examiner_id u = Some (ex_examiner_id row))
        \/ (strict_eq_str (b !! "role") "examiner"
              && negb (truthy (b !! "examinerId")) = false
            /\ dx = d
            /\ int_param (b !! "examinerId") = inr (u_examiner_id u))).
Proof.
  intros E. unfold register in E.
  destruct (negb (truthy (b !! "username")) || negb (truthy (b !! "email"))
            || negb (truthy (b !! "password"))) eqn:Htruthy;
    [by apply io_ret_inv in E as [_ E]|].
  apply orb_false_iff in Htruthy as [[Htu _]%orb_false_iff Htp].
  apply negb_false_iff in Htu, Htp.
  destruct (length_lt (b !! "password") 6); [by apply io_ret_inv in E as [_ E]|].
  apply io_bind_inv in E as (d1 & eu & S1 & E).
  apply getUserByUsername_state in S1 as ->.
  destruct (bool_decide (is_Some eu)); [by apply io_ret_inv in E as [_ E]|].
  apply io_bind_inv in E as (d2 & ee & S2 & E).
  apply getUserByEmail_state in S2 as ->.
  destruct (bool_decide (is_Some ee)); [by apply io_ret_inv in E as [_ E]|].
  apply io_bind_inv in E as (dx & fin & SF & E).
  apply io_bind_inv in E as (d3 & user & SC & E).
  apply io_ret_inv in E as [-> E]. injection E as -> -> -> ->.
  apply createUser_inv in SC
    as (p & un & em & Hp & Hex & Hsch & Hun & Hem & Hu & Hd & [Hrole _] & _
        & Hfree & _ & Hfk & _).
  assert (Hupd : users d3 = users dx ++ [user] /\ examiners d3 = examiners dx)
    by (rewrite Hd; by after_nextval).
  destruct Hupd as [Husers Hexam].
  assert (Hfields : u_user_id user = users_seq dx + 1 /\ u_username user = un
                    /\ u_email user = em)
    by (by rewrite Hu).
  destruct Hfields as (Hid & Hname & Hmail).
  exists user, p, dx.
  destruct (strict_eq_str (b !! "role") "examiner"
            && negb (truthy (b !! "examinerId"))) eqn:Hc.
  - apply io_bind_inv in SF as (d4 & row & SA & SF).
    apply io_ret_inv in SF as [-> ->].
    pose proof SA as SA'.
    apply addExaminer_inv in SA' as (name & _ & _ & _ & _ & _ & Hdx & _).
    assert (users d4 = users d) as Hsame by (rewrite Hdx; by after_nextval).
    rewrite Hsame in Husers, Hfree.
    rewrite Hname, Hmail.
    repeat split; try done.
    + rewrite Hu at 1. simpl. rewrite Hid.
      by rewrite <- Hname, <- Hmail, Hu.
    + left. split; [done|]. exists row. split; [done|].
      simpl in Hex.
      destruct (is_int4 (ex_examiner_id row)); [by injection Hex as <-|].
      by destruct (Z.abs _ <? _).
  - apply io_ret_inv in SF as [-> ->].
    rewrite Hname, Hmail.
    repeat split; try done.
    + rewrite Hu at 1. simpl. rewrite Hid.
      by rewrite <- Hname, <- Hmail, Hu.
    + right. done.
Qed.

Lemma truthy_int_param v o :
  truthy v = true -> int_param v = inr o -> exists n, o = Some n.
Proof.
  destruct v as [[|b|n|s]|]; simpl; try discriminate; intros _.
  - destruct (is_int4 n); [by intros [= <-]; eexists|].
    by destruct (Z.abs n <? _).
  - destruct (int4_in s); [|done]. by intros [= <-]; eexists.
Qed.

(** A login with a known active user and the right password. *)
Lemma login_success e (b : gmap string jsval) d u p :
  truthy (b !! "username") = true ->
  b !! "password" = Some (JStr p) -> p <> "" ->
  getUserByUsername (b !! "username") d = (d, inr (Some u)) ->
  bcrypt_compare p (u_password_hash u) = true ->
  login JWT_SECRET e b d
  = (with_users
       (update_where (fun v => u_user_id v =? u_user_id u) (touch (now e))) d,
     inr (json_ok 200
            (logged_in
               (jwt_sign
                  (Claims (u_user_id u) (u_username u) (u_role u)
                     (u_examiner_id u) (u_school_id u))
                  JWT_SECRET (now e) 86400)
               (u_user_id u) (u_username u) (u_email u) (u_role u)
               (u_examiner_id u) (u_school_id u)),
          Some (SessionRecord (u_user_id u) (u_username u) (u_role u)))).
Proof.
  intros Hu Hp Hne Hfind Hcmp. unfold login. rewrite Hu, Hp. simpl.
  destruct (String.eqb_spec p ""); [done|]. simpl.
  rewrite (io_bind_ok _ _ _ _ _ Hfind). simpl.
  unfold io_bind at 1. unfold io_ret at 1. rewrite Hcmp. simpl.
  reflexivity.
Qed.

(** A login that finds no active user of that name answers 400 or 401 and
    touches nothing. *)
Lemma login_unknown e (b : gmap string jsval) d :
  getUserByUsername (b !! "username") d = (d, inr None) ->
  login JWT_SECRET e b d
  = (d, inr (if truthy (b !! "username") && truthy (b !! "password")
             then json_error 401 "Invalid credentials"
             else json_error 400 "Username and password are required", None)).
Proof.
  intros Hfind. unfold login.
  destruct (truthy (b !! "username")), (truthy (b !! "password")); simpl;
    try reflexivity.
  by rewrite (io_bind_ok _ _ _ _ _ Hfind).
Qed.

(** A login answered with a token signed exactly the identity it reports. *)
Lemma login_token e (b : gmap string jsval) d d' tok id uname mail role ex sch o :
  login JWT_SECRET e b d
  = (d', inr (json_ok 200 (logged_in tok id uname mail role ex sch), o)) ->
  tok = jwt_sign (Claims id uname role ex sch) JWT_SECRET (now e) 86400.
Proof.
  unfold login. intros E.
  destruct (negb (truthy (b !! "username")) || negb (truthy (b !! "password")));
    [by apply io_ret_inv in E as [_ E]|].
  apply io_bind_inv in E as (d1 & found & S1 & E).
  destruct found as [u|]; [|by apply io_ret_inv in E as [_ E]].
  apply io_bind_inv in E as (d2 & ok & S2 & E).
  destruct ok; simpl in E; [|by apply io_ret_inv in E as [_ E]].
  apply io_bind_inv in E as (d3 & [] & S3 & E).
  apply io_ret_inv in E as [_ E]. by injection E as -> -> -> -> -> -> -> _.
Qed.

End Accounts.

Section AccountClaims.

Context `{JwtLib} `{Bcrypt} `{PgInput}.
Variable JWT_SECRET : string.
Variable role_check : option string -> bool.

Lemma handle_register e s r :
  target r = POST_auth_register ->
  handle JWT_SECRET role_check e s r
  = post_auth_register role_check e (Context r None (load_session s r)) s.
Proof. intros Ht. unfold handle, handler. rewrite Ht. simpl. by rewrite Ht. Qed.

Lemma handle_login e s r :
  target r = POST_auth_login ->
  handle JWT_SECRET role_check e s r
  = post_auth_login JWT_SECRET e (Context r None (load_session s r)) s.
Proof. intros Ht. unfold handle, handler. rewrite Ht. simpl. by rewrite Ht. Qed.

Lemma register_answered_201 e s r s1 id uname mail role :
  target r = POST_auth_register ->
  handle JWT_SECRET role_check e s r
  = (s1, json_ok 201 (registered id uname mail role)) ->
  register role_check e (body r) (db s)
  = (db s1, inr (json_ok 201 (registered id uname mail role)))
  /\ sessions s1 = sessions s.
Proof.
  intros Ht. rewrite handle_register by done.
  unfold post_auth_register, try_catch. simpl.
  destruct (register role_check e (body r) (db s)) as [d' [t|resp]];
    intros E; by simplify_eq.
Qed.


(** C6: a user whose active flag is not true cannot log in.  With the
    usernames unique, a login under that user's name is answered 401
    "Invalid credentials" whatever non-empty password is sent; with an
    empty or missing password it is answered 400; in every case no token
    is issued and the server state is unchanged. *)
Theorem C6_inactive_user_cannot_login e s r u :
  target r = POST_auth_login ->
  u ∈ users (db s) ->
  u_is_active u <> Some true ->
  NoDup (map u_username (users (db s))) ->
  text_param (body r !! "username") = Some (u_username u) ->
  (truthy (body r !! "username") = true -> truthy (body r !! "password") = true ->
   handle JWT_SECRET role_check e s r = (s, json_error 401 "Invalid credentials"))
  /\ status (snd (handle JWT_SECRET role_check e s r)) <> 200
  /\ fst (handle JWT_SECRET role_check e s r) = s.
Proof.
  intros Ht Hin Hinactive Hnd Hname.
  assert (Hfind : getUserByUsername (body r !! "username") (db s) = (db s, inr None)).
  { apply getUserByUsername_none. intros v Hv Hvn.
    assert (v = u) as ->; [|done].
    apply (NoDup_map_inj u_username (users (db s))); try done. congruence. }
  rewrite handle_login by done. unfold post_auth_login. simpl.
  rewrite (login_unknown JWT_SECRET e (body r) (db s) Hfind).
  destruct s as [d m]. simpl.
  split; [by intros -> ->|].
  by destruct (truthy (body r !! "username") && truthy (body r !! "password")).
Qed.

(** C10, as the code has it: a registration whose body names the role
    [examiner] and that is answered 201 stores a user with role [examiner]
    and a non-null examiner reference that exists; when the body carries no
    examiner reference, the reference is to a brand-new examiner row named
    after the username as sent (which is the user's recorded name whenever
    it has at most 50 characters), with subject 1 and with the school of the
    body or school 1 when the body has none. *)
Theorem C10_examiner_registration_links_examiner e s r s1 id uname mail role :
  target r = POST_auth_register ->
  body r !! "role" = Some (JStr "examiner") ->
  handle JWT_SECRET role_check e s r
  = (s1, json_ok 201 (registered id uname mail role)) ->
  role = Some "examiner"
  /\ exists u x,
       users (db s1) = users (db s) ++ [u]
       /\ u_user_id u = id /\ u_username u = uname /\ u_role u = Some "examiner"
       /\ u_examiner_id u = Some x /\ x ∈ examiner_ids (db s1)
       /\ (truthy (body r !! "examinerId") = false ->
           exists row,
             examiners (db s1) = examiners (db s) ++ [row]
             /\ ex_examiner_id row = x /\ (x ∉ examiner_ids (db s))
             /\ varchar_param 255 (body r !! "username")
                = inr (Some (ex_examiner_name row))
             /\ (forall sent,
                   text_param (body r !! "username") = Some sent ->
                   (String.length sent <= 50)%nat ->
                   ex_examiner_name row = uname)
             /\ ex_subject_id row = Some 1
             /\ int_param (js_or (body r !! "schoolId") (JNum 1))
                = inr (ex_school_id row)
             /\ (truthy (body r !! "schoolId") = false ->
                 ex_school_id row = Some 1)).
Proof.
  intros Ht Hrole Hreg.
  apply register_answered_201 in Hreg as [Hreg _]; [|done].
  apply register_created in Hreg
    as (u & p & dx & Hp & Htu & Htp & Hun & _ & Hr & Hu & Husers & Hfree & Hexam
        & Hfk & Hcase).
  rewrite Hrole in Hr. vm_compute in Hr. injection Hr as <-. split; [done|].
  assert (Hfields : u_user_id u = id /\ u_username u = uname
                    /\ u_role u = Some "examiner")
    by (by rewrite Hu).
  destruct Hfields as (Hid & Hnm & Hrl).
  rewrite Hrole in Hcase. simpl in Hcase.
  destruct Hcase as [[Hno (row & Hadd & Hlink)]|(Hyes & -> & Hint)].
  - apply negb_true_iff in Hno.
    apply addExaminer_inv in Hadd
      as (name & Hname & Hsch & Hsub & _ & [Hrow _] & Hdx & Hnew & _).
    assert (Hex : examiners dx = examiners (db s) ++ [row])
      by (rewrite Hdx; by after_nextval).
    assert (Hrf : ex_examiner_id row = examiners_seq (db s) + 1
                  /\ ex_examiner_name row = name) by (by rewrite Hrow).
    destruct Hrf as [Hrid Hrname].
    exists u, (ex_examiner_id row). repeat split; try done; try congruence.
    + unfold examiner_ids. rewrite Hexam, Hex, map_app. simpl.
      apply elem_of_app. right. apply list_elem_of_here.
    + intros _. exists row. rewrite Hexam. repeat split; try done.
      * by rewrite Hrid.
      * simpl in Hname. congruence.
      * intros sent Hsent Hlen. simpl in Hname.
        rewrite (varchar_param_fits 50 _ sent Hsent Hlen) in Hun.
        rewrite (varchar_param_fits 255 _ sent Hsent) in Hname by lia.
        congruence.
      * simpl in Hsub. by injection Hsub as <-.
      * intros Hns. simpl in Hsch. unfold js_or in Hsch. rewrite Hns in Hsch.
        simpl in Hsch. by injection Hsch as <-.
  - apply negb_false_iff in Hyes.
    destruct (truthy_int_param _ _ Hyes Hint) as [x Hx].
    exists u, x. repeat split; try done; try congruence.
    unfold examiner_ids. rewrite Hexam. by apply Hfk.
Qed.

End AccountClaims.

(** ** What a raising statement raises *)

(** A statement that can only raise errors of the store. *)
Definition pg_only {A} (m : IO A) : Prop :=
  forall d d' t, m d = (d', inl t) -> exists e, t = PgError e.

Lemma pg_only_bind {A B} (m : IO A) (k : A -> IO B) :
  pg_only m -> (forall a, pg_only (k a)) -> pg_only (io_bind m k).
Proof.
  intros Hm Hk d d' t. unfold io_bind.
  destruct (m d) as [d1 [t1|a]] eqn:E.
  - intros [= <- <-]. by eapply Hm.
  - intros E'. by eapply Hk.
Qed.

Lemma pg_only_ret {A} (a : A) : pg_only (io_ret a).
Proof. intros d d' t. unfold io_ret. done. Qed.

Lemma pg_only_read {A} (f : database -> A) : pg_only (io_read f).
Proof. intros d d' t. unfold io_read. done. Qed.

Lemma pg_only_write f : pg_only (io_write f).
Proof. intros d d' t. unfold io_write. done. Qed.

Lemma pg_only_lift {A} (r : pg_error + A) : pg_only (lift_pg r).
Proof.
  intros d d' t. destruct r; unfold lift_pg, io_raise, io_ret; intros [= <- <-].
  by eexists.
Qed.

Lemma pg_only_not_null {A} c (v : option A) : pg_only (not_null c v).
Proof.
  intros d d' t. destruct v; unfold not_null, io_raise, io_ret; intros [= <- <-].
  by eexists.
Qed.

Lemma pg_only_require b e : pg_only (require b e).
Proof.
  intros d d' t. destruct b; unfold require, io_raise, io_ret; intros [= <- <-].
  by eexists.
Qed.

Lemma pg_only_references c keys v : pg_only (references c keys v).
Proof. destruct v; unfold references; [apply pg_only_require|apply pg_only_ret]. Qed.

Lemma pg_only_nextval_invigilation : pg_only nextval_invigilation.
Proof.
  intros d d' t. unfold nextval_invigilation. destruct (_ <=? _); [done|].
  intros [= <- <-]. by eexists.
Qed.

Ltac pg_only_tac :=
  repeat first
    [ apply pg_only_ret | apply pg_only_read | apply pg_only_write
    | apply pg_only_lift | apply pg_only_not_null | apply pg_only_require
    | apply pg_only_references | apply pg_only_nextval_invigilation
    | apply pg_only_bind; [|intros ?] ].

Section Sessions.

Context `{JwtLib} `{Bcrypt} `{PgInput}.
Variable JWT_SECRET : string.
Variable role_check : option string -> bool.

Lemma handle_logout e s r :
  target r = POST_auth_logout ->
  handle JWT_SECRET role_check e s r
  = match authenticateToken JWT_SECRET e (Context r None (load_session s r)) with
    | Next c =>
        (Server (db s) (delete (sessionID e s (ctx_req c)) (sessions s)),
         json_ok 200 no_data)
    | Send resp => (s, resp)
    | Throw t => (s, error_handler t)
    end.
Proof.
  intros Ht. unfold handle. rewrite Ht. simpl.
  destruct (authenticateToken _ _ _) as [c|resp|t] eqn:E; try done.
  unfold handler. unfold authenticateToken in E.
  destruct (falsy_text _); [done|]. destruct (jwt_verify _ _ _); [done|].
  injection E as <-. simpl. by rewrite Ht.
Qed.

Lemma handle_verify e s r :
  target r = GET_auth_verify ->
  handle JWT_SECRET role_check e s r
  = match authenticateToken JWT_SECRET e (Context r None (load_session s r)) with
    | Next c => get_auth_verify e c s
    | Send resp => (s, resp)
    | Throw t => (s, error_handler t)
    end.
Proof.
  intros Ht. unfold handle. rewrite Ht. simpl.
  destruct (authenticateToken _ _ _) as [c|resp|t] eqn:E; try done.
  unfold handler. unfold authenticateToken in E.
  destruct (falsy_text _); [done|]. destruct (jwt_verify _ _ _); [done|].
  injection E as <-. simpl. by rewrite Ht.
Qed.

Lemma login_answered_200 e s r s1 tok id uname mail role ex sch :
  target r = POST_auth_login ->
  handle JWT_SECRET role_check e s r
  = (s1, json_ok 200 (logged_in tok id uname mail role ex sch)) ->
  tok = jwt_sign (Claims id uname role ex sch) JWT_SECRET (now e) 86400.
Proof.
  intros Ht. rewrite handle_login by done. unfold post_auth_login. simpl.
  destruct (login JWT_SECRET e (body r) (db s)) as [d [t|[resp [rec|]]]] eqn:E;
    intros E'; simplify_eq; by eapply login_token.
Qed.

(** C4: logout changes nothing but the session store, where it drops the
    request's session record; the gateway accepts a token issued at login
    at any time before its expiry, whatever the session attached to the
    request, so after a logout the token still opens protected routes. *)
Theorem C4_logout_leaves_token_valid e0 s0 r0 s1 tok id uname mail role ex sch :
  target r0 = POST_auth_login ->
  handle JWT_SECRET role_check e0 s0 r0
  = (s1, json_ok 200 (logged_in tok id uname mail role ex sch)) ->
  forall e1 s r1,
    target r1 = POST_auth_logout ->
    db (fst (handle JWT_SECRET role_check e1 s r1)) = db s
    /\ (authorization r1 = Some (bearer tok) -> now e1 < now e0 + 86400 ->
        handle JWT_SECRET role_check e1 s r1
        = (Server (db s) (delete (sessionID e1 s r1) (sessions s)),
           json_ok 200 no_data))
    /\ forall e2 r2,
         authorization r2 = Some (bearer tok) -> now e2 < now e0 + 86400 ->
         (forall user sess,
            authenticateToken JWT_SECRET e2 (Context r2 user sess)
            = Next (Context r2 (Some (Claims id uname role ex sch)) sess))
         /\ (target r2 = GET_auth_verify ->
             handle JWT_SECRET role_check e2
               (fst (handle JWT_SECRET role_check e1 s r1)) r2
             = (fst (handle JWT_SECRET role_check e1 s r1),
                json_ok 200 (verified id uname role))).
Proof.
  intros Ht0 Hlogin e1 s r1 Ht1.
  apply login_answered_200 in Hlogin; [|done].
  destruct (jwt_sign_word (Claims id uname role ex sch) JWT_SECRET (now e0) 86400)
    as [Hne Hword].
  rewrite <- Hlogin in Hne, Hword.
  assert (Hgate : forall e2 r2 user sess,
            authorization r2 = Some (bearer tok) -> now e2 < now e0 + 86400 ->
            authenticateToken JWT_SECRET e2 (Context r2 user sess)
            = Next (Context r2 (Some (Claims id uname role ex sch)) sess)).
  { intros e2 r2 user sess Hauth Hlt.
    apply (authenticateToken_accepted JWT_SECRET e2 (Context r2 user sess) tok);
      [simpl; rewrite Hauth; by apply bearer_token_bearer|done|].
    rewrite Hlogin. by apply jwt_verify_fresh. }
  split; [|split].
  - rewrite handle_logout by done. by destruct (authenticateToken _ _ _).
  - intros Hauth Hlt. rewrite handle_logout by done. by rewrite Hgate.
  - intros e2 r2 Hauth Hlt. split; [intros; by apply Hgate|].
    intros Ht2. rewrite (handle_verify e2 _ r2) by done. by rewrite Hgate.
Qed.

End Sessions.

(** ** Creating an assignment; reading answer sheets *)

Section Records.

Context `{JwtLib} `{Bcrypt} `{PgInput}.
Variable JWT_SECRET : string.
Variable role_check : option string -> bool.

(** What the store demands of a new assignment: the parameters convert
    (the references within the range of [INTEGER]), the session fits the 20
    characters of its column, the sequence of keys is not exhausted, the
    date and the session are not null, the key is new and the references
    that are not null exist. *)
Definition store_accepts_assignment (b : gmap string jsval) (d : database)
    (row : assignment_row) : Prop :=
  int_param (b !! "examinerId") = inr (ia_examiner_id row)
  /\ int_param (b !! "schoolId") = inr (ia_school_id row)
  /\ date_param (b !! "examDate") = inr (Some (ia_exam_date row))
  /\ int_param (b !! "subjectId") = inr (ia_subject_id row)
  /\ varchar_param 20 (b !! "examSession") = inr (Some (ia_exam_session row))
  /\ ia_assignment_id row = invigilation_seq d + 1
  /\ ia_assignment_id row <= 2147483647
  /\ (ia_assignment_id row ∉ map ia_assignment_id (invigilation_assignments d))
  /\ (forall k, ia_examiner_id row = Some k -> k ∈ examiner_ids d)
  /\ (forall k, ia_school_id row = Some k -> k ∈ school_ids d)
  /\ (forall k, ia_subject_id row = Some k -> k ∈ subject_ids d).

Lemma addInvigilationAssignment_inv dta d d' row :
  addInvigilationAssignment dta d = (d', inr row) ->
  int_param (ad_examinerId dta) = inr (ia_examiner_id row)
  /\ int_param (ad_schoolId dta) = inr (ia_school_id row)
  /\ date_param (ad_examDate dta) = inr (Some (ia_exam_date row))
  /\ int_param (ad_subjectId dta) = inr (ia_subject_id row)
  /\ varchar_param 20 (ad_examSession dta) = inr (Some (ia_exam_session row))
  /\ ia_assignment_id row = invigilation_seq d + 1
  /\ ia_assignment_id row <= 2147483647
  /\ (ia_assignment_id row ∉ map ia_assignment_id (invigilation_assignments d))
  /\ (forall k, ia_examiner_id row = Some k -> k ∈ examiner_ids d)
  /\ (forall k, ia_school_id row = Some k -> k ∈ school_ids d)
  /\ (forall k, ia_subject_id row = Some k -> k ∈ subject_ids d)
  /\ d' = with_assignments (fun l => l ++ [row]) (fst (nextval_invigilation d)).
Proof.
  intros E. unfold addInvigilationAssignment in E. io_peel E.
  repeat match goal with
         | Hn : negb _ = true |- _ =>
             apply negb_true_iff, bool_decide_eq_false in Hn
         end.
  subst. unfold nextval_invigilation. rewrite Hseq. apply Z.leb_le in Hseq.
  simpl in *. repeat split; try done; congruence.
Qed.

Lemma references_ok c keys v d :
  (forall k, v = Some k -> k ∈ keys) -> references c keys v d = (d, inr tt).
Proof.
  intros Hk. destruct v as [k|]; unfold references; [|done].
  unfold require. by rewrite bool_decide_eq_true_2 by by apply Hk.
Qed.

Lemma addInvigilationAssignment_ok dta d row :
  int_param (ad_examinerId dta) = inr (ia_examiner_id row) ->
  int_param (ad_schoolId dta) = inr (ia_school_id row) ->
  date_param (ad_examDate dta) = inr (Some (ia_exam_date row)) ->
  int_param (ad_subjectId dta) = inr (ia_subject_id row) ->
  varchar_param 20 (ad_examSession dta) = inr (Some (ia_exam_session row)) ->
  ia_assignment_id row = invigilation_seq d + 1 ->
  ia_assignment_id row <= 2147483647 ->
  ia_assignment_id row ∉ map ia_assignment_id (invigilation_assignments d) ->
  (forall k, ia_examiner_id row = Some k -> k ∈ examiner_ids d) ->
  (forall k, ia_school_id row = Some k -> k ∈ school_ids d) ->
  (forall k, ia_subject_id row = Some k -> k ∈ subject_ids d) ->
  addInvigilationAssignment dta d
  = (with_assignments (fun l => l ++ [row]) (fst (nextval_invigilation d)),
     inr row).
Proof.
  intros Hex Hsch Hdate Hsub Hses Hid Hmax Hnew Hfe Hfs Hfj.
  assert ((invigilation_seq d + 1 <=? 2147483647) = true) as Hseq
    by (apply Z.leb_le; by rewrite <- Hid).
  unfold addInvigilationAssignment.
  rewrite Hex, Hsch, Hdate, Hsub, Hses.
  unfold io_bind at 1. simpl.
  unfold io_bind at 1. simpl. unfold io_bind at 1. simpl.
  unfold io_bind at 1. simpl. unfold io_bind at 1. simpl.
  unfold io_bind at 1. unfold nextval_invigilation at 1. rewrite Hseq.
  unfold nextval_invigilation. rewrite Hseq. simpl.
  unfold io_bind at 1. simpl.
  unfold io_bind at 1. simpl. unfold io_bind at 1. simpl.
  rewrite <- Hid. unfold require at 1.
  rewrite (bool_decide_eq_false_2 _ Hnew). simpl.
  unfold io_bind at 1. simpl. unfold io_bind at 1. simpl.
  rewrite (io_bind_ok _ _ _ _ _ (references_ok _ _ _ _ Hfe)).
  unfold io_bind at 1. simpl.
  rewrite (io_bind_ok _ _ _ _ _ (references_ok _ _ _ _ Hfs)).
  unfold io_bind at 1. simpl.
  rewrite (io_bind_ok _ _ _ _ _ (references_ok _ _ _ _ Hfj)).
  destruct row; simpl in *. reflexivity.
Qed.

Lemma addInvigilationAssignment_pg_only dta :
  pg_only (addInvigilationAssignment dta).
Proof. unfold addInvigilationAssignment. pg_only_tac. Qed.

(** C7: the create route runs no check of its own.  It answers 201 exactly
    when the store accepts the row (whether or not [isValidDate] would
    accept the date): its parameters convert, the session fits its column
    and the constraints hold; otherwise it answers 500 with the store's own
    error; it never answers with one of the validation responses of the
    update route. *)
Theorem C7_create_relies_on_store (b : gmap string jsval) (d : database) :
  let out := try_catch (post_invigilation b) (json_caught 500) d in
  (forall row,
     store_accepts_assignment b d row <->
     out = (with_assignments (fun l => l ++ [row]) (fst (nextval_invigilation d)),
            json_ok 201 (assignment_data row)))
  /\ ((exists row, snd out = json_ok 201 (assignment_data row))
      \/ (exists e, snd out = json_caught 500 (PgError e)))
  /\ (forall k, snd out <> validation_response k).
Proof.
  unfold try_catch, post_invigilation.
  set (dta := mkAssignmentData _ _ _ _ _).
  split; [|split].
  - intros row. split.
    + intros (? & ? & ? & ? & ? & ? & ? & ? & ? & ? & ?).
      by rewrite (io_bind_ok _ _ _ _ _
                    (addInvigilationAssignment_ok dta d row ltac:(done)
                       ltac:(done) ltac:(done) ltac:(done) ltac:(done)
                       ltac:(done) ltac:(done) ltac:(done) ltac:(done)
                       ltac:(done) ltac:(done))).
    + unfold io_bind.
      destruct (addInvigilationAssignment dta d) as [d' [t|row']] eqn:E;
        [done|].
      unfold io_ret. intros [= -> <-].
      apply addInvigilationAssignment_inv in E.
      unfold store_accepts_assignment. tauto.
  - unfold io_bind.
    destruct (addInvigilationAssignment dta d) as [d' [t|row']] eqn:E; simpl.
    + right. apply addInvigilationAssignment_pg_only in E as [e ->]. by exists e.
    + left. by exists row'.
  - intros k. unfold io_bind.
    destruct (addInvigilationAssignment dta d) as [d' [t|row']]; simpl;
      by destruct k.
Qed.

Lemma handle_answer_sheets e s r tok user :
  target r = GET_answer_sheets ->
  bearer_token (authorization r) = Some tok -> tok <> "" ->
  jwt_verify tok JWT_SECRET (now e) = inr user ->
  handle JWT_SECRET role_check e s r
  = on_store (get_answer_sheets (Context r (Some user) (load_session s r)))
      (fun t => Response 500 (Some (Text "Failed to fetch answer sheets"))
                  (Some (MessageOf t)) no_data) s.
Proof.
  intros Ht Htok Hne Hv. unfold handle. rewrite Ht. simpl.
  erewrite authenticateToken_accepted by done. simpl.
  unfold handler. simpl. by rewrite Ht.
Qed.

Definition sheets_of (n : Z) (d : database) : list evaluation_row :=
  select_where (fun row => bool_decide (ev_examiner_id row = Some n))
    (evaluation_summary d).

Lemma get_answer_sheets_examiner_role c user n d :
  ctx_user c = Some user -> c_role user = Some "examiner" ->
  c_examinerId user = Some n -> n <> 0 -> is_int4 n = true ->
  get_answer_sheets c d = (d, inr (json_ok 200 (sheets (sheets_of n d)))).
Proof.
  intros Hu Hrole Hid Hn Hrange. unfold get_answer_sheets, req_user. rewrite Hu.
  unfold io_bind at 1. unfold io_ret at 1.
  rewrite Hrole, bool_decide_eq_true_2, Hid by done. simpl.
  destruct (Z.eqb_spec n 0); [done|]. simpl.
  unfold getAnswerSheetsByExaminer. rewrite (int_param_num n Hrange).
  reflexivity.
Qed.

(** C8: on [GET /answer-sheets] an identity with role [examiner] receives
    only rows of the evaluation view whose examiner is its own (exactly
    those rows when its examiner reference is set and within the range of
    the store's integers, and no list at all when it is not set); an
    identity with any other role receives every row of the view, ordered by
    evaluation date. *)
Theorem C8_answer_sheets_scoped_to_examiner e s r tok user :
  target r = GET_answer_sheets ->
  bearer_token (authorization r) = Some tok -> tok <> "" ->
  jwt_verify tok JWT_SECRET (now e) = inr user ->
  (c_role user = Some "examiner" ->
   (forall rows,
      data (snd (handle JWT_SECRET role_check e s r)) = sheets rows ->
      forall row, row ∈ rows ->
        ev_examiner_id row = c_examinerId user
        /\ row ∈ evaluation_summary (db s))
   /\ (forall n, c_examinerId user = Some n -> n <> 0 -> is_int4 n = true ->
         handle JWT_SECRET role_check e s r
         = (s, json_ok 200 (sheets (sheets_of n (db s))))))
  /\ (c_role user <> Some "examiner" ->
      exists rows,
        handle JWT_SECRET role_check e s r = (s, json_ok 200 (sheets rows))
        /\ rows ≡ₚ evaluation_summary (db s)).
Proof.
  intros Ht Htok Hne Hv.
  rewrite (handle_answer_sheets e s r tok user) by done.
  unfold on_store, try_catch. split.
  - intros Hrole.
    assert (Hsome : forall n, c_examinerId user = Some n -> n <> 0 ->
              is_int4 n = true ->
              get_answer_sheets (Context r (Some user) (load_session s r)) (db s)
              = (db s, inr (json_ok 200 (sheets (sheets_of n (db s)))))).
    { intros n Hid Hn Hrange. by eapply get_answer_sheets_examiner_role. }
    split.
    + destruct (c_examinerId user) as [n|] eqn:Hid.
      * destruct (decide (n = 0)) as [->|Hn].
        -- unfold get_answer_sheets, req_user. simpl.
           unfold io_bind at 1. unfold io_ret at 1.
           rewrite Hrole, bool_decide_eq_true_2, Hid by done. simpl.
           intros rows Hrows. discriminate Hrows.
        -- destruct (is_int4 n) eqn:Hrange.
           ++ rewrite (Hsome n) by done. simpl. intros rows [= <-] row Hrow.
              apply list_elem_of_In, filter_In in Hrow as [Hin Hb].
              apply bool_decide_eq_true in Hb. split; [done|].
              by apply list_elem_of_In.
           ++ unfold get_answer_sheets, req_user. simpl.
              unfold io_bind at 1. unfold io_ret at 1.
              rewrite Hrole, bool_decide_eq_true_2, Hid by done. simpl.
              destruct (Z.eqb_spec n 0); [done|]. simpl.
              unfold getAnswerSheetsByExaminer, io_bind, lift_pg, io_raise.
              simpl. rewrite Hrange.
              destruct (Z.abs n <? _); simpl; intros rows Hrows;
                discriminate Hrows.
      * unfold get_answer_sheets, req_user. simpl.
        unfold io_bind at 1. unfold io_ret at 1.
        rewrite Hrole, bool_decide_eq_true_2, Hid by done. simpl.
        intros rows Hrows. discriminate Hrows.
    + intros n Hid Hn Hrange. rewrite (Hsome n) by done. by destruct s.
  - intros Hrole. unfold get_answer_sheets, req_user. simpl.
    unfold io_bind at 1. unfold io_ret at 1.
    rewrite bool_decide_eq_false_2 by done. simpl.
    eexists. split; [by destruct s|]. apply merge_sort_Permutation.
Qed.

(** C9: [GET /answer-sheets/examiner/:examinerId] has no gateway: whatever
    the authorization header, the cookie and the body, with or without a
    token, it answers 200 with every row of the evaluation view of the
    examiner the path names; this is the very list an examiner identity
    with that reference is given on [GET /answer-sheets]. *)
Theorem C9_examiner_sheets_need_no_token e s auth cookie b examinerId n :
  int4_in examinerId = Some n ->
  handle JWT_SECRET role_check e s
    (Request (GET_answer_sheets_examiner examinerId) auth cookie b)
  = (s, json_ok 200 (sheets (sheets_of n (db s))))
  /\ forall r tok user,
       target r = GET_answer_sheets ->
       bearer_token (authorization r) = Some tok -> tok <> "" ->
       jwt_verify tok JWT_SECRET (now e) = inr user ->
       c_role user = Some "examiner" -> c_examinerId user = Some n -> n <> 0 ->
       handle JWT_SECRET role_check e s r
       = handle JWT_SECRET role_check e s
           (Request (GET_answer_sheets_examiner examinerId) auth cookie b).
Proof.
  intros Hid.
  assert (Hopen : handle JWT_SECRET role_check e s
                    (Request (GET_answer_sheets_examiner examinerId) auth cookie b)
                  = (s, json_ok 200 (sheets (sheets_of n (db s))))).
  { unfold handle, handler, on_store, try_catch. simpl.
    unfold get_answer_sheets_examiner, getAnswerSheetsByExaminer. simpl.
    rewrite Hid. simpl. by destruct s. }
  split; [done|].
  intros r tok user Ht Htok Hne Hv Hrole Huid Hn. rewrite Hopen.
  rewrite (handle_answer_sheets e s r tok user) by done.
  unfold on_store, try_catch.
  rewrite (get_answer_sheets_examiner_role _ user n)
    by (try done; by eapply int4_in_range).
  by destruct s.
Qed.

End Records.

(** * Further properties of the server *)

(** ** Dates *)

(** [isValidDate] accepts exactly the texts YYYY-MM-DD that name a day of the
    Gregorian calendar: four, two and two decimal digits separated by dashes,
    month 1 to 12, and a day the month has in that year. *)
Theorem isValidDate_accepts_calendar_dates examDate :
  isValidDate examDate = true <-> spec_date_ok examDate.
Proof. apply isValidDate_iff. Qed.

Lemma spec_date_ok_text y m d :
  0 <= y <= 9999 -> 0 <= m <= 99 -> 0 <= d <= 99 ->
  spec_date_ok (date_text y m d) <-> real_date y m d = true.
Proof.
  intros Hy Hm Hd. split.
  - intros (y' & m' & d' & Hy' & Hm' & Hd' & Htext & Hreal).
    assert (Hl : list_ascii_of_string (date_text y m d)
                 = list_ascii_of_string (date_text y' m' d')) by congruence.
    rewrite !date_text_list in Hl.
    destruct (JSDateFacts.num4_pad4 y Hy) as (a1 & a2 & a3 & a4 & Ey & _ & _ & _ & _ & Ny).
    destruct (JSDateFacts.num4_pad4 y' Hy')
      as (b1 & b2 & b3 & b4 & Ey' & _ & _ & _ & _ & Ny').
    destruct (JSDateFacts.num2_pad2 m Hm) as (c1 & c2 & Em & _ & _ & Nm).
    destruct (JSDateFacts.num2_pad2 m' Hm') as (e1 & e2 & Em' & _ & _ & Nm').
    destruct (JSDateFacts.num2_pad2 d Hd) as (f1 & f2 & Ed & _ & _ & Nd).
    destruct (JSDateFacts.num2_pad2 d' Hd') as (g1 & g2 & Ed' & _ & _ & Nd').
    rewrite Ey, Ey', Em, Em', Ed, Ed' in Hl. simpl in Hl.
    injection Hl as -> -> -> -> -> -> -> ->. congruence.
  - intros Hreal. by exists y, m, d.
Qed.

(** The 29th of February is accepted exactly in leap years, the century rule
    included. *)
Theorem isValidDate_leap_day y :
  0 <= y <= 9999 -> isValidDate (date_text y 2 29) = leap_year y.
Proof.
  intros Hy.
  destruct (isValidDate (date_text y 2 29)) eqn:E.
  - apply isValidDate_iff, spec_date_ok_text in E; [|lia..].
    unfold real_date, days_in_month in E. simpl in E.
    destruct (leap_year y); [done|]. discriminate E.
  - destruct (leap_year y) eqn:L; [|done].
    assert (isValidDate (date_text y 2 29) = true); [|congruence].
    apply isValidDate_iff, spec_date_ok_text; [lia..|].
    unfold real_date, days_in_month. by rewrite L.
Qed.

(** ** Required fields *)

Lemma filter_nil_iff {A} (p : A -> bool) (l : list A) :
  List.filter p l = [] <-> Forall (fun x => p x = false) l.
Proof.
  induction l as [|a l IH]; simpl.
  - split; [constructor|done].
  - destruct (p a) eqn:E.
    + split; [done|]. intros Hf. apply Forall_cons in Hf as [Ha _]. congruence.
    + rewrite IH. split; [by constructor|]. by intros [_ ?]%Forall_cons.
Qed.

(** [validateRequest] lets a request through exactly when every required
    field is truthy; otherwise it answers 400 and names the missing fields in
    the order they were required.  A field sent as 0, as the empty string, as
    false or as null counts as missing. *)
Theorem validateRequest_passes_iff_all_truthy requiredFields c :
  (validateRequest requiredFields c = Next c
   <-> Forall (fun f => truthy (body (ctx_req c) !! f) = true) requiredFields)
  /\ (validateRequest requiredFields c <> Next c ->
      validateRequest requiredFields c
      = Send (json_error 400
                ("Missing required fields: "
                 +:+ join_comma
                       (List.filter
                          (fun f => negb (truthy (body (ctx_req c) !! f)))
                          requiredFields))))
  /\ (forall f v,
        f ∈ requiredFields -> body (ctx_req c) !! f = Some v ->
        v = JNum 0 \/ v = JStr "" \/ v = JBool false \/ v = JNull ->
        validateRequest requiredFields c <> Next c).
Proof.
  unfold validateRequest.
  set (missing := List.filter _ requiredFields).
  assert (Hiff : missing = []
                 <-> Forall (fun f => truthy (body (ctx_req c) !! f) = true)
                       requiredFields).
  { unfold missing. rewrite filter_nil_iff. apply Forall_iff. intros f.
    by rewrite negb_false_iff. }
  split; [|split].
  - rewrite <- Hiff. destruct missing; simpl; [done|]. split; done.
  - destruct missing; simpl; done.
  - intros f v Hin Hv Hfalsy Hnext.
    assert (missing = []) as Hm by (destruct missing; simpl in Hnext; done).
    apply Hiff in Hm. rewrite Forall_forall in Hm. specialize (Hm f Hin).
    rewrite Hv in Hm. by destruct Hfalsy as [-> | [-> | [-> | ->]]].
Qed.

(** ** The gateway and the role gate *)

Lemma split_space_aux_cons cur w rest :
  no_space w ->
  split_space_aux cur (w +:+ String " " rest)
  = (cur +:+ w) :: split_space_aux "" rest.
Proof.
  revert cur. induction w as [|c w IH]; intros cur Hw.
  - change ("" +:+ String " " rest) with (String " " rest). simpl.
    by rewrite append_empty_r.
  - change (String c w +:+ String " " rest) with (String c (w +:+ String " " rest)).
    simpl. destruct (Ascii.eqb_spec c " "%char) as [->|Hc].
    + exfalso. apply Hw. simpl. by left.
    + rewrite IH by (intros Hin; apply Hw; simpl; by right).
      by rewrite append_snoc.
Qed.

Lemma append_not_empty w rest : w +:+ String " " rest <> "".
Proof. destruct w; discriminate. Qed.

(** The scheme word of the authorization header is not looked at, and what
    follows the token is dropped: the token is the second space-separated
    piece of the header.  A header with no space in it has no token. *)
Theorem bearer_token_is_second_piece :
  (forall w tok,
     no_space w -> no_space tok ->
     bearer_token (Some (w +:+ String " " tok)) = Some tok)
  /\ (forall w tok extra,
        no_space w -> no_space tok ->
        bearer_token (Some (w +:+ String " " (tok +:+ String " " extra))) = Some tok)
  /\ (forall h, no_space h -> falsy_text (bearer_token (Some h)) = true).
Proof.
  split; [|split].
  - intros w tok Hw Htok. unfold bearer_token.
    destruct (String.eqb_spec (w +:+ String " " tok) "") as [E|_];
      [by apply append_not_empty in E|].
    unfold split_space. rewrite split_space_aux_cons by done.
    by rewrite split_space_aux_word.
  - intros w tok extra Hw Htok. unfold bearer_token.
    destruct (String.eqb_spec (w +:+ String " " (tok +:+ String " " extra)) "")
      as [E|_]; [by apply append_not_empty in E|].
    unfold split_space. by rewrite !split_space_aux_cons.
  - intros h Hh. unfold bearer_token.
    destruct (String.eqb_spec h "") as [->|_]; [done|].
    unfold split_space. by rewrite split_space_aux_word.
Qed.

Section GatewayMore.

Context `{JwtLib} `{Bcrypt} `{PgInput}.
Variable JWT_SECRET : string.
Variable role_check : option string -> bool.

(** On the ten write routes that have the gateway, an identity whose role is
    neither [admin] nor [coordinator] (a null role included) is answered 403
    "Insufficient permissions" before the body is looked at, and nothing is
    written. *)
Theorem write_routes_deny_other_roles e s r tok user :
  is_write (target r) = true -> protected (target r) = true ->
  bearer_token (authorization r) = Some tok -> tok <> "" ->
  jwt_verify tok JWT_SECRET (now e) = inr user ->
  includes write_roles (c_role user) = false ->
  handle JWT_SECRET role_check e s r
  = (s, json_error 403 "Insufficient permissions").
Proof.
  intros Hw Hp Ht Hne Hv Hrole. unfold handle.
  destruct (target r) eqn:Et; try discriminate; simpl;
    (erewrite authenticateToken_accepted by done);
    simpl; unfold authorizeRole; simpl; rewrite Hrole; reflexivity.
Qed.

(** A token issued at login is refused from the 24th hour on: every
    protected route answers 403 "Invalid or expired token" and leaves the
    server as it was. *)
Theorem login_token_expires_after_24h e0 s0 r0 s1 tok id uname mail role ex sch :
  target r0 = POST_auth_login ->
  handle JWT_SECRET role_check e0 s0 r0
  = (s1, json_ok 200 (logged_in tok id uname mail role ex sch)) ->
  forall e s r,
    protected (target r) = true ->
    authorization r = Some (bearer tok) ->
    now e0 + 86400 <= now e ->
    handle JWT_SECRET role_check e s r
    = (s, json_error 403 "Invalid or expired token").
Proof.
  intros Ht0 Hlogin e s r Hp Hauth Hlate.
  apply login_answered_200 in Hlogin; [|done].
  destruct (jwt_sign_word (Claims id uname role ex sch) JWT_SECRET (now e0) 86400)
    as [Hne Hword].
  rewrite <- Hlogin in Hne, Hword.
  apply handle_gateway_send; [done|].
  eapply authenticateToken_rejected;
    [simpl; rewrite Hauth; by apply bearer_token_bearer|done|].
  rewrite Hlogin. by apply jwt_verify_expired.
Qed.

End GatewayMore.

(** ** Registration and login: inputs, passwords, sessions *)

Lemma head_filter_unique {A} (p : A -> bool) (l : list A) u :
  u ∈ l -> p u = true -> (forall v, v ∈ l -> p v = true -> v = u) ->
  head (List.filter p l) = Some u.
Proof.
  induction l as [|a l IH]; intros Hin Hp Huniq; [by apply elem_of_nil in Hin|].
  simpl. destruct (p a) eqn:Ea.
  - simpl. f_equal. apply Huniq; [apply list_elem_of_here|done].
  - apply IH; [|done|].
    + apply elem_of_cons in Hin as [->|Hin]; [congruence|done].
    + intros v Hv. apply Huniq. by apply list_elem_of_further.
Qed.

Lemma head_filter_some {A} (p : A -> bool) (l : list A) u :
  u ∈ l -> p u = true -> is_Some (head (List.filter p l)).
Proof.
  induction l as [|a l IH]; intros Hin Hp; [by apply elem_of_nil in Hin|].
  simpl. destruct (p a) eqn:Ea; [by eexists|].
  apply IH; [|done]. apply elem_of_cons in Hin as [->|Hin]; [congruence|done].
Qed.

Section AccountsMore.

Context `{JwtLib} `{Bcrypt} `{PgInput}.
Variable JWT_SECRET : string.
Variable role_check : option string -> bool.

Lemma getUserByUsername_found un d u :
  u ∈ users d -> u_is_active u = Some true ->
  text_param un = Some (u_username u) ->
  NoDup (map u_username (users d)) ->
  getUserByUsername un d = (d, inr (Some u)).
Proof.
  intros Hin Hact Hun Hnd. unfold getUserByUsername, io_read, select_where.
  rewrite (head_filter_unique _ _ u); [done|done| |].
  - by rewrite Hun, Hact, !bool_decide_eq_true_2.
  - intros v Hv [Hn _]%andb_true_iff. apply bool_decide_eq_true in Hn.
    apply (NoDup_map_inj u_username (users d)); try done. congruence.
Qed.

(** Registration refuses a body without a truthy username, email and
    password, and a password string shorter than six characters, with 400,
    before it touches the store. *)
Theorem register_rejects_incomplete_input e s r :
  target r = POST_auth_register ->
  (truthy (body r !! "username") = false \/ truthy (body r !! "email") = false
   \/ truthy (body r !! "password") = false ->
   handle JWT_SECRET role_check e s r
   = (s, json_error 400 "Username, email, and password are required"))
  /\ (forall p,
        truthy (body r !! "username") = true ->
        truthy (body r !! "email") = true ->
        body r !! "password" = Some (JStr p) -> p <> "" ->
        (String.length p < 6)%nat ->
        handle JWT_SECRET role_check e s r
        = (s, json_error 400 "Password must be at least 6 characters long")).
Proof.
  intros Ht. rewrite handle_register by done.
  unfold post_auth_register, try_catch, register. simpl. split.
  - intros Hmiss.
    replace (negb (truthy (body r !! "username"))
             || negb (truthy (body r !! "email"))
             || negb (truthy (body r !! "password"))) with true.
    + by destruct s.
    + symmetry. rewrite !orb_true_iff, !negb_true_iff. tauto.
  - intros p Hu He Hp Hne Hshort. rewrite Hu, He, Hp. simpl.
    destruct (String.eqb_spec p ""); [done|]. simpl.
    replace (Z.of_nat (String.length p) <? 6) with true
      by (symmetry; apply Z.ltb_lt; lia).
    by destruct s.
Qed.

(** Registration refuses a username or an email that an active user holds,
    with 400, and leaves the server as it was. *)
Theorem register_rejects_taken_name_or_email e s r u :
  target r = POST_auth_register ->
  truthy (body r !! "username") = true ->
  truthy (body r !! "email") = true ->
  truthy (body r !! "password") = true ->
  length_lt (body r !! "password") 6 = false ->
  u ∈ users (db s) -> u_is_active u = Some true ->
  (text_param (body r !! "username") = Some (u_username u) ->
   handle JWT_SECRET role_check e s r
   = (s, json_error 400 "Username already exists"))
  /\ (text_param (body r !! "email") = Some (u_email u) ->
      getUserByUsername (body r !! "username") (db s) = (db s, inr None) ->
      handle JWT_SECRET role_check e s r
      = (s, json_error 400 "Email already registered")).
Proof.
  intros Ht Hu He Hp Hlen Hin Hact. rewrite handle_register by done.
  unfold post_auth_register, try_catch, register. simpl.
  rewrite Hu, He, Hp, Hlen. simpl. split.
  - intros Hname. unfold getUserByUsername at 1.
    unfold io_bind at 1. unfold io_read at 1.
    rewrite bool_decide_eq_true_2; [by destruct s|].
    apply (head_filter_some _ _ u); [done|].
    by rewrite Hname, Hact, !bool_decide_eq_true_2.
  - intros Hmail Hfree. rewrite (io_bind_ok _ _ _ _ _ Hfree).
    rewrite bool_decide_eq_false_2 by (by intros [? ?]).
    unfold getUserByEmail at 1. unfold io_bind at 1. unfold io_read at 1.
    rewrite bool_decide_eq_true_2; [by destruct s|].
    apply (head_filter_some _ _ u); [done|].
    by rewrite Hmail, Hact, !bool_decide_eq_true_2.
Qed.

(** A wrong password for an existing active user and a username nobody
    holds get the same answer, 401 "Invalid credentials", and neither
    touches the server: no last-login stamp, no session. *)
Theorem login_failures_look_alike e s r :
  target r = POST_auth_login ->
  truthy (body r !! "username") = true ->
  (forall u p,
     getUserByUsername (body r !! "username") (db s) = (db s, inr (Some u)) ->
     body r !! "password" = Some (JStr p) -> p <> "" ->
     bcrypt_compare p (u_password_hash u) = false ->
     handle JWT_SECRET role_check e s r
     = (s, json_error 401 "Invalid credentials"))
  /\ (getUserByUsername (body r !! "username") (db s) = (db s, inr None) ->
      truthy (body r !! "password") = true ->
      handle JWT_SECRET role_check e s r
      = (s, json_error 401 "Invalid credentials")).
Proof.
  intros Ht Hu. rewrite handle_login by done. unfold post_auth_login. simpl. split.
  - intros u p Hfind Hp Hne Hcmp. unfold login. rewrite Hu, Hp. simpl.
    destruct (String.eqb_spec p ""); [done|]. simpl.
    rewrite (io_bind_ok _ _ _ _ _ Hfind). simpl.
    unfold io_bind at 1. unfold io_ret at 1. rewrite Hcmp. simpl. by destruct s.
  - intros Hfind Hp. rewrite (login_unknown JWT_SECRET e (body r) (db s) Hfind).
    rewrite Hu, Hp. by destruct s.
Qed.

(** A login with the right password stamps the user's last login with the
    clock, leaves every other column and row of the users table alone,
    stores the session record under the request's session, and answers with
    a token signed over the user's id, name, role, examiner and school. *)
Theorem login_stamps_and_records_session e s r u p :
  target r = POST_auth_login ->
  u ∈ users (db s) -> u_is_active u = Some true ->
  NoDup (map u_username (users (db s))) ->
  truthy (body r !! "username") = true ->
  text_param (body r !! "username") = Some (u_username u) ->
  body r !! "password" = Some (JStr p) -> p <> "" ->
  bcrypt_compare p (u_password_hash u) = true ->
  handle JWT_SECRET role_check e s r
  = (Server
       (with_users
          (update_where (fun v => u_user_id v =? u_user_id u) (touch (now e)))
          (db s))
       (<[sessionID e s r :=
            SessionRecord (u_user_id u) (u_username u) (u_role u)]> (sessions s)),
     json_ok 200
       (logged_in
          (jwt_sign
             (Claims (u_user_id u) (u_username u) (u_role u) (u_examiner_id u)
                (u_school_id u)) JWT_SECRET (now e) 86400)
          (u_user_id u) (u_username u) (u_email u) (u_role u) (u_examiner_id u)
          (u_school_id u))).
Proof.
  intros Ht Hin Hact Hnd Hu Hname Hp Hne Hcmp.
  rewrite handle_login by done. unfold post_auth_login. simpl.
  rewrite (login_success JWT_SECRET e (body r) (db s) u p); try done.
  by apply getUserByUsername_found.
Qed.

Lemma login_session e (b : gmap string jsval) d d' tok id uname mail role ex sch o :
  login JWT_SECRET e b d
  = (d', inr (json_ok 200 (logged_in tok id uname mail role ex sch), o)) ->
  o = Some (SessionRecord id uname role).
Proof.
  unfold login. intros E.
  destruct (negb (truthy (b !! "username")) || negb (truthy (b !! "password")));
    [by apply io_ret_inv in E as [_ E]|].
  apply io_bind_inv in E as (d1 & found & S1 & E).
  destruct found as [u|]; [|by apply io_ret_inv in E as [_ E]].
  apply io_bind_inv in E as (d2 & ok & S2 & E).
  destruct ok; simpl in E; [|by apply io_ret_inv in E as [_ E]].
  apply io_bind_inv in E as (d3 & [] & S3 & E).
  apply io_ret_inv in E as [_ E]. by injection E as -> -> -> -> -> -> -> ->.
Qed.

(** Login and logout on the session store: after a login answered 200 the
    store holds the identity under the request's session id; a logout that
    presents the token with the same session cookie removes exactly that
    record; a logout without a token is answered 401 and removes nothing. *)
Theorem login_then_logout_session e0 s0 r0 s1 tok id uname mail role ex sch :
  target r0 = POST_auth_login ->
  handle JWT_SECRET role_check e0 s0 r0
  = (s1, json_ok 200 (logged_in tok id uname mail role ex sch)) ->
  sessions s1
  = <[sessionID e0 s0 r0 := SessionRecord id uname role]> (sessions s0)
  /\ forall e1 r1,
       target r1 = POST_auth_logout ->
       session_cookie r1 = Some (sessionID e0 s0 r0) ->
       (authorization r1 = Some (bearer tok) -> now e1 < now e0 + 86400 ->
        handle JWT_SECRET role_check e1 s1 r1
        = (Server (db s1) (delete (sessionID e0 s0 r0) (sessions s1)),
           json_ok 200 no_data))
       /\ (authorization r1 = None ->
           handle JWT_SECRET role_check e1 s1 r1
           = (s1, json_error 401 "Access token required")).
Proof.
  intros Ht0 Hlogin.
  assert (Htok : tok = jwt_sign (Claims id uname role ex sch) JWT_SECRET (now e0) 86400)
    by (by eapply login_answered_200).
  rewrite handle_login in Hlogin by done. unfold post_auth_login in Hlogin.
  simpl in Hlogin.
  destruct (login JWT_SECRET e0 (body r0) (db s0)) as [d [t|[resp o]]] eqn:E;
    [by destruct s1; simplify_eq|].
  assert (resp = json_ok 200 (logged_in tok id uname mail role ex sch)) as ->
    by (destruct o; by simplify_eq).
  pose proof (login_session _ _ _ _ _ _ _ _ _ _ _ _ E) as ->.
  injection Hlogin as <-. split; [done|].
  intros e1 r1 Ht1 Hcookie.
  set (s1 := Server d _).
  assert (Hsid : sessionID e1 s1 r1 = sessionID e0 s0 r0).
  { unfold sessionID at 1. rewrite Hcookie.
    rewrite bool_decide_eq_true_2; [done|].
    unfold s1. simpl. rewrite lookup_insert_eq. by eexists. }
  destruct (jwt_sign_word (Claims id uname role ex sch) JWT_SECRET (now e0) 86400)
    as [Hne Hword].
  rewrite <- Htok in Hne, Hword.
  split.
  - intros Hauth Hlt. rewrite handle_logout by done.
    rewrite (authenticateToken_accepted JWT_SECRET e1 _ tok
               (Claims id uname role ex sch));
      [|simpl; rewrite Hauth; by apply bearer_token_bearer|done
       |rewrite Htok; by apply jwt_verify_fresh].
    simpl. by rewrite Hsid.
  - intros Hauth. rewrite handle_logout by done.
    rewrite authenticateToken_missing; [done|]. simpl. by rewrite Hauth.
Qed.

End AccountsMore.

(** ** What a statement leaves alone *)

(** The uniqueness the users table declares: ids, usernames and emails. *)
Definition users_unique (d : database) : Prop :=
  NoDup (map u_user_id (users d))
  /\ NoDup (map u_username (users d))
  /\ NoDup (map u_email (users d)).

(** A view of the store that does not depend on the sequences. *)
Definition seq_blind {X} (view : database -> X) : Prop :=
  forall u s j x t a i q1 q2 q3 q4 q5 p1 p2 p3 p4 p5,
    view (Database u s j x t a i q1 q2 q3 q4 q5)
    = view (Database u s j x t a i p1 p2 p3 p4 p5).

(** A statement that leaves a view of the store as it found it, whatever it
    returns or raises; and one that does so at least when it raises. *)
Definition untouched {X A} (view : database -> X) (m : IO A) : Prop :=
  forall d d' r, m d = (d', r) -> view d' = view d.

Definition raise_untouched {X A} (view : database -> X) (m : IO A) : Prop :=
  forall d d' t, m d = (d', inl t) -> view d' = view d.

Section Untouched.

Context {X : Type} (view : database -> X) (Hblind : seq_blind view).

Lemma untouched_bind {A B} (m : IO A) (k : A -> IO B) :
  untouched view m -> (forall a, untouched view (k a)) ->
  untouched view (io_bind m k).
Proof.
  intros Hm Hk d d' r. unfold io_bind.
  destruct (m d) as [d1 [t|a]] eqn:E.
  - intros [= <- <-]. by eapply Hm.
  - intros E'. rewrite (Hk a _ _ _ E'). by eapply Hm.
Qed.

Lemma untouched_ret {A} (a : A) : untouched view (io_ret a).
Proof. intros d d' r. unfold io_ret. by intros [= <- <-]. Qed.

Lemma untouched_raise {A} t : untouched view (@io_raise A t).
Proof. intros d d' r. unfold io_raise. by intros [= <- <-]. Qed.

Lemma untouched_read {A} (f : database -> A) : untouched view (io_read f).
Proof. intros d d' r. unfold io_read. by intros [= <- <-]. Qed.

Lemma untouched_write f :
  (forall d, view (f d) = view d) -> untouched view (io_write f).
Proof. intros Hf d d' r. unfold io_write. intros [= <- <-]. apply Hf. Qed.

Lemma untouched_lift {A} (r : pg_error + A) : untouched view (lift_pg r).
Proof. destruct r; [apply untouched_raise|apply untouched_ret]. Qed.

Lemma untouched_not_null {A} c (v : option A) : untouched view (not_null c v).
Proof. destruct v; [apply untouched_ret|apply untouched_raise]. Qed.

Lemma untouched_require b e : untouched view (require b e).
Proof. destruct b; [apply untouched_ret|apply untouched_raise]. Qed.

Lemma untouched_references c keys v : untouched view (references c keys v).
Proof. destruct v; [apply untouched_require|apply untouched_ret]. Qed.

Lemma untouched_nextval_users : untouched view nextval_users.
Proof.
  intros d d' r. unfold nextval_users. destruct (_ <=? _);
    intros [= <- <-]; [|done]. destruct d. apply Hblind.
Qed.

Lemma untouched_nextval_schools : untouched view nextval_schools.
Proof.
  intros d d' r. unfold nextval_schools. destruct (_ <=? _);
    intros [= <- <-]; [|done]. destruct d. apply Hblind.
Qed.

Lemma untouched_nextval_examiners : untouched view nextval_examiners.
Proof.
  intros d d' r. unfold nextval_examiners. destruct (_ <=? _);
    intros [= <- <-]; [|done]. destruct d.
  apply Hblind.
Qed.

Lemma untouched_nextval_students : untouched view nextval_students.
Proof.
  intros d d' r. unfold nextval_students. destruct (_ <=? _);
    intros [= <- <-]; [|done]. destruct d.
  apply Hblind.
Qed.

Lemma untouched_nextval_invigilation : untouched view nextval_invigilation.
Proof.
  intros d d' r. unfold nextval_invigilation. destruct (_ <=? _);
    intros [= <- <-]; [|done]. destruct d.
  apply Hblind.
Qed.

Lemma raise_untouched_bind {A B} (m : IO A) (k : A -> IO B) :
  untouched view m -> (forall a, raise_untouched view (k a)) ->
  raise_untouched view (io_bind m k).
Proof.
  intros Hm Hk d d' t. unfold io_bind.
  destruct (m d) as [d1 [t1|a]] eqn:E.
  - intros [= <- <-]. by eapply Hm.
  - intros E'. rewrite (Hk a _ _ _ E'). by eapply Hm.
Qed.

Lemma raise_untouched_write_ret {A} f (a : A) :
  raise_untouched view (io_bind (io_write f) (fun _ => io_ret a)).
Proof. intros d d' t. unfold io_bind, io_write, io_ret. done. Qed.

End Untouched.

(** Discharge [untouched view] for a statement built from the primitives;
    [blind] proves that the view ignores the sequences. *)
Ltac untouched_tac blind :=
  repeat first
    [ apply untouched_ret | apply untouched_raise | apply untouched_read
    | apply untouched_lift | apply untouched_not_null | apply untouched_require
    | apply untouched_references
    | apply untouched_nextval_users; exact blind
    | apply untouched_nextval_schools; exact blind
    | apply untouched_nextval_examiners; exact blind
    | apply untouched_nextval_students; exact blind
    | apply untouched_nextval_invigilation; exact blind
    | apply untouched_write; intros ?; reflexivity
    | apply untouched_bind; [|intros ?]
    | match goal with
      | |- untouched _ (match ?x with _ => _ end) => destruct x
      | |- untouched _ (if ?x then _ else _) => destruct x
      end ].

Lemma users_blind : seq_blind users.
Proof. by intros ?. Qed.

Lemma examiners_blind : seq_blind examiners.
Proof. by intros ?. Qed.

Section UsersTable.

Context `{JwtLib} `{Bcrypt} `{PgInput}.
Variable JWT_SECRET : string.
Variable role_check : option string -> bool.

Lemma addExaminer_untouched dta : untouched users (addExaminer dta).
Proof. unfold addExaminer. untouched_tac users_blind. Qed.

Lemma addStudent_untouched dta : untouched users (addStudent dta).
Proof. unfold addStudent. untouched_tac users_blind. Qed.

Lemma addInvigilationAssignment_untouched dta :
  untouched users (addInvigilationAssignment dta).
Proof. unfold addInvigilationAssignment. untouched_tac users_blind. Qed.

Lemma getAnswerSheetsByExaminer_untouched v :
  untouched users (getAnswerSheetsByExaminer v).
Proof. unfold getAnswerSheetsByExaminer. untouched_tac users_blind. Qed.

Lemma store_handlers_untouched (c : context) :
  match target (ctx_req c) with
  | POST_auth_register | POST_auth_login | POST_auth_logout | GET_auth_verify => True
  | POST_schools => untouched users (post_schools (body (ctx_req c)))
  | PUT_schools id => untouched users (put_schools id (body (ctx_req c)))
  | DELETE_schools id => untouched users (delete_schools id)
  | POST_examiners => untouched users (post_examiners (body (ctx_req c)))
  | PUT_examiners id => untouched users (put_examiners id (body (ctx_req c)))
  | DELETE_examiners id => untouched users (delete_examiners id)
  | POST_students => untouched users (post_students (body (ctx_req c)))
  | PUT_students roll => untouched users (put_students roll (body (ctx_req c)))
  | DELETE_students roll => untouched users (delete_students roll)
  | GET_answer_sheets => untouched users (get_answer_sheets c)
  | GET_answer_sheets_examiner x => untouched users (get_answer_sheets_examiner x)
  | POST_invigilation => untouched users (post_invigilation (body (ctx_req c)))
  | PUT_invigilation id => untouched users (put_invigilation id (body (ctx_req c)))
  | DELETE_invigilation id => untouched users (delete_invigilation id)
  end.
Proof.
  destruct (target (ctx_req c)); try exact I.
  - unfold post_schools, insert_school. untouched_tac users_blind.
  - unfold put_schools, update_school. untouched_tac users_blind.
  - unfold delete_schools. untouched_tac users_blind.
  - unfold post_examiners. apply untouched_bind; [apply addExaminer_untouched|].
    intros ?. untouched_tac users_blind.
  - unfold put_examiners, update_examiner. untouched_tac users_blind.
  - unfold delete_examiners. untouched_tac users_blind.
  - unfold post_students. apply untouched_bind; [apply addStudent_untouched|].
    intros ?. untouched_tac users_blind.
  - unfold put_students, update_student. untouched_tac users_blind.
  - unfold delete_students. untouched_tac users_blind.
  - unfold get_answer_sheets, req_user, getAllAnswerSheets.
    destruct (ctx_user c); [|untouched_tac users_blind].
    apply untouched_bind; [untouched_tac users_blind|]. intros user.
    destruct (bool_decide _); [|untouched_tac users_blind].
    destruct (negb _); [untouched_tac users_blind|].
    apply untouched_bind; [apply getAnswerSheetsByExaminer_untouched|].
    intros ?. untouched_tac users_blind.
  - unfold get_answer_sheets_examiner.
    apply untouched_bind; [apply getAnswerSheetsByExaminer_untouched|].
    intros ?. untouched_tac users_blind.
  - unfold post_invigilation.
    apply untouched_bind; [apply addInvigilationAssignment_untouched|].
    intros ?. untouched_tac users_blind.
  - unfold put_invigilation, no_row, update_assignment. untouched_tac users_blind.
  - unfold delete_invigilation. untouched_tac users_blind.
Qed.

Lemma createUser_raise_untouched {X} (view : database -> X) e un em pw role ex sch :
  seq_blind view ->
  raise_untouched view (createUser role_check e un em pw role ex sch).
Proof.
  intros Hb. unfold createUser.
  repeat (apply raise_untouched_bind; [solve [untouched_tac Hb]|intros ?]).
  apply raise_untouched_write_ret.
Qed.

End UsersTable.

Lemma io_bind_cases {A B} (m : IO A) (k : A -> IO B) d d' r :
  io_bind m k d = (d', r) ->
  (exists t, m d = (d', inl t) /\ r = inl t)
  \/ (exists d1 a, m d = (d1, inr a) /\ k a d1 = (d', r)).
Proof.
  unfold io_bind. destruct (m d) as [d1 [t|a]].
  - intros [= <- <-]. left. by exists t.
  - intros E. right. by exists d1, a.
Qed.

Lemma io_bind_read {A B} (f : database -> A) (k : A -> IO B) d :
  io_bind (io_read f) k d = k (f d) d.
Proof. reflexivity. Qed.

Lemma NoDup_map_snoc {A B} (f : A -> B) (l : list A) x :
  NoDup (map f l) -> f x ∉ map f l -> NoDup (map f (l ++ [x])).
Proof.
  intros Hnd Hx. rewrite map_app. simpl. apply NoDup_app. split; [done|].
  split; [|apply NoDup_singleton].
  intros y Hy Hy'. apply list_elem_of_singleton in Hy'. by subst.
Qed.

Lemma map_update_where_touch {B} (f : user_row -> B) p t l :
  (forall u, f (touch t u) = f u) ->
  map f (update_where p (touch t) l) = map f l.
Proof.
  intros Hf. unfold update_where. rewrite map_map. apply map_ext.
  intros u. by destruct (p u).
Qed.

Section UsersInvariant.

Context `{JwtLib} `{Bcrypt} `{PgInput}.
Variable JWT_SECRET : string.
Variable role_check : option string -> bool.

(** The step of registration that may insert an examiner row. *)
Definition examiner_step (b : gmap string jsval) : IO (option jsval) :=
  if strict_eq_str (b !! "role") "examiner" && negb (truthy (b !! "examinerId"))
  then io_bind (addExaminer (new_examiner_data b))
         (fun newExaminer => io_ret (Some (JNum (ex_examiner_id newExaminer))))
  else io_ret (b !! "examinerId").

Lemma examiner_step_untouched b : untouched users (examiner_step b).
Proof.
  unfold examiner_step. destruct (_ && _); [|apply untouched_ret].
  apply untouched_bind; [apply addExaminer_untouched|]. intros ?.
  apply untouched_ret.
Qed.

(** Registration once its own checks have passed: the examiner step, then
    the insert of the user. *)
Lemma register_past_checks e (b : gmap string jsval) d :
  truthy (b !! "username") = true -> truthy (b !! "email") = true ->
  truthy (b !! "password") = true -> length_lt (b !! "password") 6 = false ->
  getUserByUsername (b !! "username") d = (d, inr None) ->
  getUserByEmail (b !! "email") d = (d, inr None) ->
  register role_check e b d
  = io_bind (examiner_step b)
      (fun finalExaminerId =>
         io_bind
           (createUser role_check e (b !! "username") (b !! "email")
              (b !! "password") (js_or (b !! "role") (JStr "examiner"))
              finalExaminerId (b !! "schoolId"))
           (fun user =>
              io_ret (json_ok 201
                        (registered (u_user_id user) (u_username user)
                           (u_email user) (u_role user))))) d.
Proof.
  intros Hu He Hp Hl Hfu Hfe. unfold register. rewrite Hu, He, Hp, Hl. simpl.
  rewrite (io_bind_ok _ _ _ _ _ Hfu).
  rewrite bool_decide_eq_false_2 by (by intros [? ?]).
  rewrite (io_bind_ok _ _ _ _ _ Hfe).
  rewrite bool_decide_eq_false_2 by (by intros [? ?]).
  reflexivity.
Qed.

(** Every way registration can end, seen from the users table. *)
Lemma register_outcome e (b : gmap string jsval) d d' r :
  register role_check e b d = (d', r) ->
  (users d' = users d
   /\ forall id un em ro, r <> inr (json_ok 201 (registered id un em ro)))
  \/ (exists u,
        r = inr (json_ok 201
                   (registered (u_user_id u) (u_username u) (u_email u) (u_role u)))
        /\ users d' = users d ++ [u]
        /\ (u_user_id u ∉ map u_user_id (users d))
        /\ (u_username u ∉ map u_username (users d))
        /\ (u_email u ∉ map u_email (users d))).
Proof.
  intros E. unfold register in E.
  destruct (negb (truthy (b !! "username")) || negb (truthy (b !! "email"))
            || negb (truthy (b !! "password")));
    [unfold io_ret in E; injection E as <- <-; by left|].
  destruct (length_lt (b !! "password") 6);
    [unfold io_ret in E; injection E as <- <-; by left|].
  unfold getUserByUsername in E. rewrite io_bind_read in E.
  destruct (bool_decide (is_Some _));
    [unfold io_ret in E; injection E as <- <-; by left|].
  unfold getUserByEmail in E. rewrite io_bind_read in E.
  destruct (bool_decide (is_Some _));
    [unfold io_ret in E; injection E as <- <-; by left|].
  change (io_bind (examiner_step b)
            (fun fin =>
               io_bind
                 (createUser role_check e (b !! "username") (b !! "email")
                    (b !! "password") (js_or (b !! "role") (JStr "examiner"))
                    fin (b !! "schoolId"))
                 (fun user =>
                    io_ret (json_ok 201
                              (registered (u_user_id user) (u_username user)
                                 (u_email user) (u_role user))))) d
          = (d', r)) in E.
  apply io_bind_cases in E as [(t & EF & ->)|(dx & fin & EF & E)].
  { left. split; [by eapply examiner_step_untouched|done]. }
  assert (users dx = users d) as Hdx by (by eapply examiner_step_untouched).
  apply io_bind_cases in E as [(t & EC & ->)|(d2 & u & EC & E)].
  { left. split; [|done]. rewrite <- Hdx.
    by eapply (createUser_raise_untouched role_check users), EC. }
  unfold io_ret in E. injection E as <- <-.
  apply createUser_inv in EC
    as (p & un & em & _ & _ & _ & _ & _ & Hu & Hd & _ & Hid & Hname & Hmail & _).
  right. exists u. rewrite Hdx in Hid, Hname, Hmail.
  assert (u_user_id u = users_seq dx + 1 /\ u_username u = un /\ u_email u = em)
    as (-> & -> & ->) by (by rewrite Hu).
  repeat split; try done. rewrite Hd. after_nextval; by rewrite Hdx.
Qed.

Lemma login_keeps_unique e (b : gmap string jsval) d d' r :
  login JWT_SECRET e b d = (d', r) -> users_unique d -> users_unique d'.
Proof.
  unfold login. intros E Hinv.
  destruct (negb (truthy (b !! "username")) || negb (truthy (b !! "password")));
    [unfold io_ret in E; by injection E as <- <-|].
  unfold getUserByUsername in E. rewrite io_bind_read in E.
  destruct (head _) as [u|]; [|unfold io_ret in E; by injection E as <- <-].
  apply io_bind_cases in E as [(t & EC & ->)|(d1 & ok & EC & E)].
  { destruct (b !! "password") as [[| | |p]|]; unfold io_ret, io_raise in EC;
      by injection EC as <-. }
  assert (d1 = d) as ->.
  { destruct (b !! "password") as [[| | |p]|]; unfold io_ret, io_raise in EC;
      by injection EC as <-. }
  destruct (negb ok); [unfold io_ret in E; by injection E as <- <-|].
  unfold updateLastLogin in E. unfold io_bind, io_write, io_ret in E.
  injection E as <- <-. destruct Hinv as (Hi & Hn & Hm).
  unfold users_unique. simpl.
  by rewrite !map_update_where_touch.
Qed.

Lemma run_chain_request e t r sess c :
  run_chain (chain JWT_SECRET e t) (Context r None sess) = Next c -> ctx_req c = r.
Proof.
  assert (Hauth : forall c1 c2,
            authenticateToken JWT_SECRET e c1 = Next c2 -> ctx_req c2 = ctx_req c1).
  { intros c1 c2. unfold authenticateToken. destruct (falsy_text _); [done|].
    destruct (jwt_verify _ _ _); [done|]. by intros [= <-]. }
  assert (Hrole : forall roles c1 c2, authorizeRole roles c1 = Next c2 -> c2 = c1).
  { intros roles c1 c2. unfold authorizeRole. destruct (ctx_user c1); [|done].
    destruct (negb _); [done|]. by intros [= <-]. }
  assert (Hval : forall fields c1 c2, validateRequest fields c1 = Next c2 -> c2 = c1).
  { intros fields c1 c2. unfold validateRequest. destruct (_ <? _); [done|].
    by intros [= <-]. }
  destruct t; simpl;
    repeat match goal with
           | |- context [authenticateToken JWT_SECRET e ?x] =>
               let E := fresh "E" in
               destruct (authenticateToken JWT_SECRET e x) eqn:E; try done;
               apply Hauth in E
           | |- context [authorizeRole ?rs ?x] =>
               let E := fresh "E" in
               destruct (authorizeRole rs x) eqn:E; try done; apply Hrole in E;
               subst
           | |- context [validateRequest ?fs ?x] =>
               let E := fresh "E" in
               destruct (validateRequest fs x) eqn:E; try done; apply Hval in E;
               subst
           end;
    intros [= <-]; done.
Qed.

(** No request to an embedded route breaks the uniqueness of user ids,
    usernames and emails: the users table is only ever appended to by a
    registration the store accepted and stamped by a login; every other
    embedded route leaves it alone. *)
Theorem every_request_keeps_users_unique e s r :
  users_unique (db s) ->
  users_unique (db (fst (handle JWT_SECRET role_check e s r))).
Proof.
  intros Hinv. unfold handle.
  destruct (run_chain _ _) as [c|resp|t] eqn:Echain; [|done..].
  apply run_chain_request in Echain.
  pose proof (store_handlers_untouched c) as Hstore.
  unfold handler. rewrite Echain in *.
  assert (Hon : forall m catch,
            untouched users m -> users_unique (db (fst (on_store m catch s)))).
  { intros m catch Hm. unfold on_store, try_catch.
    destruct (m (db s)) as [d' [t|resp]] eqn:E; simpl;
      unfold users_unique; by rewrite (Hm _ _ _ E). }
  destruct (target r); try (by apply Hon).
  - unfold post_auth_register, try_catch. rewrite Echain.
    destruct (register role_check e (body r) (db s)) as [d' res] eqn:E.
    apply register_outcome in E as [[Hsame _]|(u & _ & Happ & Hid & Hn & Hm)].
    + destruct res; simpl; unfold users_unique; by rewrite Hsame.
    + destruct res; simpl; unfold users_unique; rewrite Happ;
        destruct Hinv as (? & ? & ?); repeat split; by apply NoDup_map_snoc.
  - unfold post_auth_login. rewrite Echain.
    destruct (login JWT_SECRET e (body r) (db s)) as [d' res] eqn:E.
    apply login_keeps_unique in E; [|done].
    by destruct res as [t|[resp [rec|]]].
  - unfold post_auth_logout. simpl. done.
  - unfold get_auth_verify. by destruct (ctx_user c).
Qed.

(** A username held by a deactivated user (a name the column holds, so
    one of at most 50 characters) passes registration's own check, which
    looks at active users only, and is then refused by the store: the
    registration is answered 500 "Registration failed" and the users table
    stays as it was. *)
Theorem register_name_of_inactive_user e s r uname :
  target r = POST_auth_register ->
  truthy (body r !! "username") = true -> truthy (body r !! "email") = true ->
  truthy (body r !! "password") = true ->
  length_lt (body r !! "password") 6 = false ->
  getUserByUsername (body r !! "username") (db s) = (db s, inr None) ->
  getUserByEmail (body r !! "email") (db s) = (db s, inr None) ->
  text_param (body r !! "username") = Some uname ->
  (String.length uname <= 50)%nat ->
  uname ∈ map u_username (users (db s)) ->
  exists t,
    snd (handle JWT_SECRET role_check e s r)
    = Response 500 (Some (Text "Registration failed")) (Some (MessageOf t)) no_data
    /\ users (db (fst (handle JWT_SECRET role_check e s r))) = users (db s).
Proof.
  intros Ht Hu He Hp Hl Hfu Hfe Hname Hlen Htaken.
  rewrite handle_register by done. unfold post_auth_register, try_catch. simpl.
  rewrite register_past_checks by done.
  destruct (io_bind (examiner_step (body r)) _ (db s)) as [d' res] eqn:E.
  apply io_bind_cases in E as [(t & EF & ->)|(dx & fin & EF & E)].
  { exists t. simpl. split; [done|]. by eapply examiner_step_untouched. }
  assert (users dx = users (db s)) as Hdx by (by eapply examiner_step_untouched).
  apply io_bind_cases in E as [(t & EC & ->)|(d2 & u & EC & E)].
  { exists t. simpl. split; [done|]. rewrite <- Hdx.
    by eapply (createUser_raise_untouched role_check users), EC. }
  exfalso. apply createUser_inv in EC
    as (p & un & em & _ & _ & _ & Hun & _ & _ & _ & _ & _ & Hfree & _).
  rewrite (varchar_param_fits 50 _ uname Hname Hlen) in Hun.
  injection Hun as <-. rewrite Hdx in Hfree. done.
Qed.

(** Registration inserts the examiner row and the user in two separate
    statements: when the first succeeds and the store refuses the second,
    the answer is 500 and the new examiner row stays behind with no user. *)
Theorem failed_registration_leaves_examiner_row e s r dx row t d2 :
  target r = POST_auth_register ->
  truthy (body r !! "username") = true -> truthy (body r !! "email") = true ->
  truthy (body r !! "password") = true ->
  length_lt (body r !! "password") 6 = false ->
  getUserByUsername (body r !! "username") (db s) = (db s, inr None) ->
  getUserByEmail (body r !! "email") (db s) = (db s, inr None) ->
  body r !! "role" = Some (JStr "examiner") ->
  truthy (body r !! "examinerId") = false ->
  addExaminer (new_examiner_data (body r)) (db s) = (dx, inr row) ->
  createUser role_check e (body r !! "username") (body r !! "email")
    (body r !! "password") (Some (JStr "examiner"))
    (Some (JNum (ex_examiner_id row))) (body r !! "schoolId") dx = (d2, inl t) ->
  snd (handle JWT_SECRET role_check e s r)
  = Response 500 (Some (Text "Registration failed")) (Some (MessageOf t)) no_data
  /\ users (db (fst (handle JWT_SECRET role_check e s r))) = users (db s)
  /\ examiners (db (fst (handle JWT_SECRET role_check e s r)))
     = examiners (db s) ++ [row].
Proof.
  intros Ht Hu He Hp Hl Hfu Hfe Hrole Hno Hadd Hcreate.
  rewrite handle_register by done. unfold post_auth_register, try_catch. simpl.
  rewrite register_past_checks by done.
  unfold examiner_step. rewrite Hrole, Hno. simpl.
  rewrite (io_bind_ok _ _ _ dx (Some (JNum (ex_examiner_id row))));
    [|by rewrite (io_bind_ok _ _ _ _ _ Hadd)].
  rewrite (io_bind_raised _ _ _ _ _ Hcreate). simpl.
  split; [done|].
  apply addExaminer_inv in Hadd as (name & _ & _ & _ & _ & _ & Hdx & _).
  split.
  - rewrite (createUser_raise_untouched role_check users _ _ _ _ _ _ _
               users_blind _ _ _ Hcreate).
    rewrite Hdx. by after_nextval.
  - rewrite (createUser_raise_untouched role_check examiners _ _ _ _ _ _ _
               examiners_blind _ _ _ Hcreate).
    rewrite Hdx. by after_nextval.
Qed.

End UsersInvariant.

(** ** What each route touches *)

Definition reads_only (t : endpoint) : bool :=
  match t with
  | POST_auth_logout | GET_auth_verify | GET_answer_sheets
  | GET_answer_sheets_examiner _ => true
  | _ => false
  end.

Lemma students_blind : seq_blind students.
Proof. by intros ?. Qed.

Lemma date_desc_total : Total date_desc.
Proof.
  intros a b. unfold date_desc.
  destruct (ev_evaluation_date a), (ev_evaluation_date b); try tauto; lia.
Qed.

Lemma date_desc_transitive : Transitive date_desc.
Proof.
  intros a b c. unfold date_desc.
  destruct (ev_evaluation_date a), (ev_evaluation_date b),
    (ev_evaluation_date c); try tauto; lia.
Qed.

Section Footprint.

Context `{JwtLib} `{Bcrypt} `{PgInput}.
Variable JWT_SECRET : string.
Variable role_check : option string -> bool.

(** Of the embedded routes, registration and login are the only ones that
    write the users table: whatever any other request carries and however
    it is answered, the table is afterwards what it was. *)
Theorem users_change_only_on_register_and_login e s r :
  target r <> POST_auth_register -> target r <> POST_auth_login ->
  users (db (fst (handle JWT_SECRET role_check e s r))) = users (db s).
Proof.
  intros Hr Hl. unfold handle.
  destruct (run_chain _ _) as [c|resp|t] eqn:Echain; [|done..].
  apply run_chain_request in Echain.
  pose proof (store_handlers_untouched c) as Hstore.
  unfold handler. rewrite Echain in *.
  assert (Hon : forall m catch,
            untouched users m ->
            users (db (fst (on_store m catch s))) = users (db s)).
  { intros m catch Hm. unfold on_store, try_catch.
    destruct (m (db s)) as [d' [t|resp]] eqn:E; simpl; exact (Hm _ _ _ E). }
  destruct (target r); try done; try (by apply Hon).
  by unfold get_auth_verify; destruct (ctx_user c).
Qed.

(** The reading routes (verify, logout, both answer-sheet listings) leave
    every table and every sequence of the store as they found it. *)
Theorem read_routes_leave_store_alone e s r :
  reads_only (target r) = true ->
  db (fst (handle JWT_SECRET role_check e s r)) = db s.
Proof.
  intros Hro. unfold handle.
  destruct (run_chain _ _) as [c|resp|t] eqn:Echain; [|done..].
  apply run_chain_request in Echain. unfold handler. rewrite Echain.
  assert (Hon : forall m catch,
            untouched (fun d : database => d) m ->
            db (fst (on_store m catch s)) = db s).
  { intros m catch Hm. unfold on_store, try_catch.
    destruct (m (db s)) as [d' [t|resp]] eqn:E; simpl; exact (Hm _ _ _ E). }
  assert (Hby : forall v,
            untouched (fun d : database => d) (getAnswerSheetsByExaminer v)).
  { intros v. unfold getAnswerSheetsByExaminer. untouched_tac users_blind. }
  destruct (target r); try discriminate.
  - done.
  - by unfold get_auth_verify; destruct (ctx_user c).
  - apply Hon. unfold get_answer_sheets, req_user, getAllAnswerSheets.
    destruct (ctx_user c); [|untouched_tac users_blind].
    apply untouched_bind; [untouched_tac users_blind|]. intros user.
    destruct (bool_decide _); [|untouched_tac users_blind].
    destruct (negb _); [untouched_tac users_blind|].
    apply untouched_bind; [apply Hby|]. intros ?. untouched_tac users_blind.
  - apply Hon. unfold get_answer_sheets_examiner.
    apply untouched_bind; [apply Hby|]. intros ?. untouched_tac users_blind.
Qed.

(** Whoever is not an examiner gets every row of the evaluation summary,
    each exactly once, ordered so that no row comes before one of a later
    evaluation date (rows without a date first). *)
Theorem staff_get_all_sheets_latest_first c user d :
  ctx_user c = Some user -> c_role user <> Some "examiner" ->
  exists rows,
    get_answer_sheets c d = (d, inr (json_ok 200 (sheets rows)))
    /\ rows ≡ₚ evaluation_summary d
    /\ StronglySorted date_desc rows.
Proof.
  intros Hu Hr. exists (merge_sort date_desc (evaluation_summary d)).
  split; [|split].
  - unfold get_answer_sheets, req_user. rewrite Hu.
    rewrite (io_bind_ok _ _ d d user) by done.
    rewrite bool_decide_eq_false_2 by done. reflexivity.
  - apply merge_sort_Permutation.
  - apply (@StronglySorted_merge_sort _ date_desc _ date_desc_transitive
             date_desc_total).
Qed.

End Footprint.

(** ** Students *)

Definition rows_added (results : list bulk_result) : list student_row :=
  omap (fun r => match r with
                 | bulk_added row => Some row
                 | bulk_failed _ _ => None
                 end) results.

(** What the result at some position says about the element at that
    position: a stored row has the element's roll number as the column
    keeps it, a failure has it as sent. *)
Definition reports `{PgInput} (o : gmap string jsval) (r : bulk_result) : Prop :=
  match r with
  | bulk_added row =>
      varchar_param 50 (o !! "studentRollNumber")
      = inr (Some (st_student_roll_number row))
  | bulk_failed _ roll => roll = o !! "studentRollNumber"
  end.

Lemma js_or_idem v w : js_or (js_or v w) w = js_or v w.
Proof.
  unfold js_or. destruct (truthy v) eqn:E; [by rewrite E|].
  by destruct (truthy (Some w)).
Qed.

Section Students.

Context `{PgInput}.

Lemma addStudent_inv dta d d' row :
  addStudent dta d = (d', inr row) ->
  exists roll name,
    varchar_param 50 (sd_studentRollNumber dta) = inr (Some roll)
    /\ varchar_param 255 (sd_studentName dta) = inr (Some name)
    /\ int_param (sd_schoolId dta) = inr (st_school_id row)
    /\ int_param (js_or (sd_classStandard dta) (JNum 10))
       = inr (st_class_standard row)
    /\ row = StudentRow (students_seq d + 1) roll name (st_school_id row)
               (st_class_standard row)
    /\ d' = with_students (fun l => l ++ [row]) (fst (nextval_students d))
    /\ (roll ∉ map st_student_roll_number (students d))
    /\ (forall k, st_school_id row = Some k -> k ∈ school_ids d).
Proof.
  intros E. unfold addStudent in E. io_peel E.
  repeat match goal with
         | Hn : negb _ = true |- _ =>
             apply negb_true_iff, bool_decide_eq_false in Hn
         end.
  subst. eexists _, _. unfold nextval_students. rewrite Hseq.
  simpl in *. repeat split; done.
Qed.

Lemma addStudent_raise_untouched {X} (view : database -> X) dta :
  seq_blind view -> raise_untouched view (addStudent dta).
Proof.
  intros Hb. unfold addStudent.
  repeat (apply raise_untouched_bind; [solve [untouched_tac Hb]|intros ?]).
  apply raise_untouched_write_ret.
Qed.

Lemma bulk_loop_app l1 l2 acc d :
  bulk_loop (l1 ++ l2) acc d = io_bind (bulk_loop l1 acc) (bulk_loop l2) d.
Proof.
  revert acc d. induction l1 as [|[o|] l1 IH]; intros acc d; simpl.
  - reflexivity.
  - unfold io_bind.
    destruct (addStudent (student_of o) d) as [d1 [t|row]]; rewrite IH;
      reflexivity.
  - reflexivity.
Qed.

Lemma bulk_loop_objects (l : list (gmap string jsval)) acc d :
  exists d' res,
    bulk_loop (Some <$> l) acc d = (d', inr (acc ++ res))
    /\ Forall2 reports l res
    /\ students d' = students d ++ rows_added res.
Proof.
  revert acc d. induction l as [|o l IH]; intros acc d; csimpl.
  - exists d, []. rewrite !app_nil_r. by split; [|split; [constructor|]].
  - destruct (addStudent (student_of o) d) as [d1 [t|row]] eqn:E.
    + destruct (IH (acc ++ [bulk_failed t (o !! "studentRollNumber")]) d1)
        as (d' & res & -> & HF & Hs).
      exists d', (bulk_failed t (o !! "studentRollNumber") :: res).
      rewrite <- app_assoc. split; [done|]. split; [by constructor|].
      rewrite Hs. simpl.
      by rewrite (addStudent_raise_untouched students _ students_blind _ _ _ E).
    + destruct (IH (acc ++ [bulk_added row]) d1) as (d' & res & -> & HF & Hs).
      exists d', (bulk_added row :: res).
      rewrite <- app_assoc. split; [done|].
      apply addStudent_inv in E
        as (roll & name & Hroll & _ & _ & _ & Hrow & -> & _).
      split.
      * constructor; [|done]. simpl. rewrite Hrow. simpl. exact Hroll.
      * rewrite Hs. after_nextval; by rewrite <- app_assoc.
Qed.

(** The bulk route over an array of objects always answers 200, with one
    result per element in the order of the array: a success carries the row
    stored under the element's roll number (as its column keeps it), a
    failure the element's roll number as sent.  The students table is afterwards the one before
    followed by exactly the rows reported as successes, in that order; a
    failing element neither stops the loop nor undoes earlier rows. *)
Theorem bulk_students_reports_each_element (l : list (gmap string jsval)) d :
  exists d' results,
    post_bulk_students (Some (Some <$> l)) d = (d', inr results)
    /\ Forall2 reports l results
    /\ students d' = students d ++ rows_added results.
Proof.
  destruct (bulk_loop_objects l [] d) as (d' & res & E & HF & Hs).
  exists d', res. by split.
Qed.

(** A [null] element aborts the bulk route: the request is answered 500,
    the elements after it are never looked at, and the store is left as the
    elements before it made it. *)
Theorem bulk_students_null_element_aborts pre post d :
  post_bulk_students (Some ((Some <$> pre) ++ None :: post)) d
  = (fst (post_bulk_students (Some (Some <$> pre)) d), inl TypeError).
Proof.
  unfold post_bulk_students. rewrite bulk_loop_app.
  destruct (bulk_loop_objects pre [] d) as (d' & res & E & _).
  unfold io_bind. rewrite E. reflexivity.
Qed.

(** A roll number that is already in the table: when the parameters
    convert, the texts fit their columns and the sequence of student ids is
    not exhausted, [POST /api/students] answers 400 "Student roll number
    already exists" and the students table is unchanged. *)
Theorem post_students_taken_roll_number (b : gmap string jsval) d roll name school class :
  int_param (b !! "schoolId") = inr school ->
  int_param (js_or (b !! "classStandard") (JNum 10)) = inr class ->
  varchar_param 50 (b !! "studentRollNumber") = inr (Some roll) ->
  varchar_param 255 (b !! "studentName") = inr (Some name) ->
  students_seq d + 1 <= 2147483647 ->
  roll ∈ map st_student_roll_number (students d) ->
  exists d',
    try_catch (post_students b) post_students_catch d
    = (d', json_error 400 "Student roll number already exists")
    /\ students d' = students d.
Proof.
  intros Hschool Hclass Hroll Hname Hseq Htaken. apply Z.leb_le in Hseq.
  assert (exists c,
            addStudent
              (mkStudentData (b !! "studentRollNumber") (b !! "studentName")
                 (b !! "schoolId") (js_or (b !! "classStandard") (JNum 10))) d
            = (fst (nextval_students d), inl (PgError (unique_violation c))))
    as [c E].
  { unfold addStudent. simpl. rewrite js_or_idem, Hschool, Hclass, Hroll, Hname.
    unfold io_bind, lift_pg, io_ret, nextval_students, not_null, io_read.
    rewrite Hseq. simpl.
    destruct (bool_decide (students_seq d + 1 ∈ map st_student_id (students d)));
      simpl; [by eexists|].
    rewrite bool_decide_eq_true_2 by done. by eexists. }
  exists (fst (nextval_students d)). split; [|by after_nextval].
  unfold try_catch, post_students. by rewrite (io_bind_raised _ _ _ _ _ E).
Qed.

(** A student added without a class, or with one that JavaScript takes for
    false (0, the empty string, null), is stored in class 10. *)
Theorem post_students_defaults_class_to_10 (b : gmap string jsval) d d' resp :
  post_students b d = (d', inr resp) ->
  truthy (b !! "classStandard") = false ->
  exists row,
    resp = json_ok 201 (student_data row)
    /\ st_class_standard row = Some 10
    /\ students d' = students d ++ [row].
Proof.
  intros E Hfalsy. unfold post_students in E.
  apply io_bind_inv in E as (d1 & row & S & E). io_prim E.
  apply addStudent_inv in S as (roll & name & _ & _ & _ & Hclass & _ & -> & _).
  exists row. split; [done|]. split; [|by after_nextval].
  simpl in Hclass. unfold js_or in Hclass. rewrite Hfalsy in Hclass.
  simpl in Hclass. by injection Hclass as <-.
Qed.

(** An update of a student replaces name, school and class by what the
    body carries, so a field the body leaves out is stored as NULL; the
    roll number stays. *)
Theorem put_students_nulls_omitted_fields roll (b : gmap string jsval) d d' resp :
  put_students roll b d = (d', inr resp) ->
  status resp = 200 ->
  exists row,
    resp = json_ok 200 (student_data row)
    /\ st_student_roll_number row = roll
    /\ (b !! "classStandard" = None -> st_class_standard row = None)
    /\ (b !! "schoolId" = None -> st_school_id row = None)
    /\ row ∈ students d'.
Proof.
  intros E Hst. unfold put_students in E.
  apply io_bind_inv in E as (d1 & rows & S & E).
  destruct rows as [|row rest]; io_prim E; [done|].
  exists row. split; [done|].
  unfold update_student in S.
  apply io_bind_inv in S as (d2 & school & S1 & S). io_prim S1.
  apply io_bind_inv in S as (d3 & class & S2 & S). io_prim S2.
  apply io_bind_inv in S as (d5 & kept & S4 & S). io_prim S4.
  apply io_bind_inv in S as (d4 & rows & S3 & S). io_prim S3.
  destruct (select_where _ (students d)) as [|old olds] eqn:Hsel;
    [by apply io_ret_inv in S as [_ [=]]|].
  remember (row :: rest) as rr eqn:Hrr in S. io_peel S. simplify_eq.
  assert (old ∈ students d /\ String.eqb (st_student_roll_number old) roll = true)
    as [Hin Hhit].
  { assert (In old (select_where
                      (fun r => String.eqb (st_student_roll_number r) roll)
                      (students d))) as Hold by (rewrite Hsel; by left).
    apply filter_In in Hold as [? ?]. split; [by apply list_elem_of_In|done]. }
  split; [by apply String.eqb_eq|].
  split; [intros Hn; rewrite Hn in S2; simpl in S2; by injection S2 as <-|].
  split; [intros Hn; rewrite Hn in S1; simpl in S1; by injection S1 as <-|].
  simpl. apply list_elem_of_In, in_map_iff. exists old.
  rewrite Hhit. split; [done|by apply list_elem_of_In].
Qed.

End Students.

(** ** Deletions *)

Section Deletions.

Context `{PgInput}.

Lemma select_where_hit {A} (p : A -> bool) (l : list A) x :
  In x l -> p x = true -> select_where p l <> [].
Proof.
  intros Hin Hp Hnil.
  assert (In x (select_where p l)) as Hx by (apply filter_In; by split).
  by rewrite Hnil in Hx.
Qed.

Lemma select_where_head {A} (p : A -> bool) (l : list A) x rest :
  select_where p l = x :: rest -> In x l /\ p x = true.
Proof.
  intros Hsel. apply filter_In. unfold select_where in Hsel. rewrite Hsel.
  by left.
Qed.

(** [DELETE /api/invigilation/:id] with an id the store reads as the number
    [n]: when an assignment has that id the answer is 200, no assignment
    with that id is left and every other assignment is kept; when none has
    it the answer is 404 and the store is as before. *)
Theorem delete_invigilation_removes_exactly_that_row id n d :
  int4_in id = Some n ->
  (n ∈ map ia_assignment_id (invigilation_assignments d) ->
   exists d',
     delete_invigilation id d = (d', inr (json_ok 200 no_data))
     /\ (n ∉ map ia_assignment_id (invigilation_assignments d'))
     /\ forall row, ia_assignment_id row <> n ->
                    (row ∈ invigilation_assignments d'
                     <-> row ∈ invigilation_assignments d))
  /\ ((n ∉ map ia_assignment_id (invigilation_assignments d)) ->
      delete_invigilation id d
      = (d, inr (json_error 404 "Assignment not found"))).
Proof.
  intros Hid.
  assert (int_param (Some (JStr id)) = inr (Some n)) as Hk
      by (simpl; by rewrite Hid).
  unfold delete_invigilation. rewrite Hk.
  unfold io_bind, lift_pg, io_ret, io_read, io_write. simpl.
  destruct (select_where _ (invigilation_assignments d)) as [|hit hits] eqn:Hsel.
  - split; [|done]. intros Hin. exfalso.
    apply list_elem_of_In, in_map_iff in Hin as (row & Hrow & Hin).
    eapply select_where_hit; [exact Hin| |exact Hsel].
    apply bool_decide_eq_true_2. by rewrite Hrow.
  - apply select_where_head in Hsel as [Hin Hhit].
    apply bool_decide_eq_true in Hhit. injection Hhit as Hhit.
    split.
    + intros _. eexists. split; [reflexivity|]. simpl. unfold delete_where.
      split.
      * intros Hn. apply list_elem_of_In, in_map_iff in Hn as (row & Hrow & Hn).
        apply filter_In in Hn as [_ Hneg].
        apply negb_true_iff, bool_decide_eq_false in Hneg. apply Hneg.
        by rewrite Hrow.
      * intros row Hne. rewrite !list_elem_of_In, filter_In.
        split; [tauto|]. intros Hrow. split; [done|].
        apply negb_true_iff, bool_decide_eq_false. by intros [= ?].
    + intros Hnot. exfalso. apply Hnot. apply list_elem_of_In, in_map_iff.
      by exists hit.
Qed.

(** [DELETE /api/examiners/:id] for an existing examiner: as long as a user
    account, an answer sheet or an invigilation assignment refers to the
    examiner, the store refuses, the answer is 500 and nothing changes; once
    nothing refers to the examiner the answer is 200 and the examiner is
    gone. *)
Theorem delete_examiners_only_when_unreferenced id n d :
  int4_in id = Some n -> n ∈ examiner_ids d ->
  (Some n ∈ map u_examiner_id (users d)
   \/ Some n ∈ map as_examiner_id (answer_sheets d)
   \/ Some n ∈ map ia_examiner_id (invigilation_assignments d) ->
   exists c,
     try_catch (delete_examiners id) (json_caught 500) d
     = (d, json_caught 500 (PgError (foreign_key_violation c))))
  /\ ((Some n ∉ map u_examiner_id (users d))
      /\ (Some n ∉ map as_examiner_id (answer_sheets d))
      /\ (Some n ∉ map ia_examiner_id (invigilation_assignments d)) ->
      exists d',
        try_catch (delete_examiners id) (json_caught 500) d
        = (d', json_ok 200 no_data)
        /\ (n ∉ examiner_ids d')).
Proof.
  intros Hid Hex.
  assert (int_param (Some (JStr id)) = inr (Some n)) as Hk
      by (simpl; by rewrite Hid).
  unfold try_catch, delete_examiners. rewrite Hk.
  unfold io_bind, lift_pg, io_ret, io_read, io_write, require, io_raise. simpl.
  destruct (select_where _ (examiners d)) as [|hit hits] eqn:Hsel.
  { exfalso.
    apply list_elem_of_In, in_map_iff in Hex as (row & Hrow & Hin).
    eapply select_where_hit; [exact Hin| |exact Hsel].
    apply bool_decide_eq_true_2. by rewrite Hrow. }
  destruct (bool_decide (Some n ∈ map u_examiner_id (users d))) eqn:B1;
    destruct (bool_decide (Some n ∈ map as_examiner_id (answer_sheets d))) eqn:B2;
    destruct (bool_decide (Some n ∈ map ia_examiner_id (invigilation_assignments d)))
      eqn:B3; simpl;
    try apply bool_decide_eq_true in B1; try apply bool_decide_eq_false in B1;
    try apply bool_decide_eq_true in B2; try apply bool_decide_eq_false in B2;
    try apply bool_decide_eq_true in B3; try apply bool_decide_eq_false in B3;
    (split; [intros Href|intros (N1 & N2 & N3)]); try done;
    try (eexists; reflexivity); try (by destruct Href as [?|[?|?]]).
  eexists. split; [reflexivity|]. simpl. unfold examiner_ids, delete_where. simpl.
  intros Hn. apply list_elem_of_In, in_map_iff in Hn as (row & Hrow & Hn).
  apply filter_In in Hn as [_ Hneg].
  apply negb_true_iff, bool_decide_eq_false in Hneg. apply Hneg. by rewrite Hrow.
Qed.

End Deletions.

(** ** Usernames longer than their column *)

Lemma varchar_long n s s' :
  varchar n s = inr s' -> (n < String.length s)%nat ->
  s' = take_chars n s /\ blank (drop_chars n s) = true.
Proof.
  unfold varchar. intros E Hl.
  rewrite (proj2 (Nat.leb_gt _ _) Hl) in E.
  destruct (blank (drop_chars n s)); [|done]. by injection E as <-.
Qed.

Section LongNames.

Context `{JwtLib} `{Bcrypt} `{PgInput}.
Variable JWT_SECRET : string.
Variable role_check : option string -> bool.

(** A registration whose username does not fit the 50 characters of its
    column, other than by trailing spaces, passes the handler's own checks
    (which do not look at lengths) and is refused by the store: it is
    answered 500 "Registration failed" and the users table is unchanged. *)
Theorem register_username_too_long e s r sent err :
  target r = POST_auth_register ->
  truthy (body r !! "username") = true -> truthy (body r !! "email") = true ->
  truthy (body r !! "password") = true ->
  length_lt (body r !! "password") 6 = false ->
  getUserByUsername (body r !! "username") (db s) = (db s, inr None) ->
  getUserByEmail (body r !! "email") (db s) = (db s, inr None) ->
  text_param (body r !! "username") = Some sent ->
  varchar 50 sent = inl err ->
  exists t,
    snd (handle JWT_SECRET role_check e s r)
    = Response 500 (Some (Text "Registration failed")) (Some (MessageOf t)) no_data
    /\ users (db (fst (handle JWT_SECRET role_check e s r))) = users (db s).
Proof.
  intros Ht Hu He Hp Hl Hfu Hfe Hsent Hlong.
  rewrite handle_register by done. unfold post_auth_register, try_catch. simpl.
  rewrite register_past_checks by done.
  destruct (io_bind (examiner_step (body r)) _ (db s)) as [d' res] eqn:E.
  apply io_bind_cases in E as [(t & EF & ->)|(dx & fin & EF & E)].
  { exists t. simpl. split; [done|]. by eapply examiner_step_untouched. }
  assert (users dx = users (db s)) as Hdx by (by eapply examiner_step_untouched).
  apply io_bind_cases in E as [(t & EC & ->)|(d2 & u & EC & E)].
  { exists t. simpl. split; [done|]. rewrite <- Hdx.
    by eapply (createUser_raise_untouched role_check users), EC. }
  exfalso. apply createUser_inv in EC
    as (p & un & em & _ & _ & _ & Hun & _).
  unfold varchar_param in Hun. by rewrite Hsent, Hlong in Hun.
Qed.

(** A username of more than 50 characters whose excess is all spaces is
    accepted and recorded cut to 50 characters; a login under the username
    as it was sent then finds nobody and is answered 401, the users table
    holding names of at most 50 characters. *)
Theorem register_truncates_trailing_spaces
    e0 s0 r0 s1 id uname mail role sent e1 r1 :
  target r0 = POST_auth_register ->
  handle JWT_SECRET role_check e0 s0 r0
  = (s1, json_ok 201 (registered id uname mail role)) ->
  text_param (body r0 !! "username") = Some sent ->
  (50 < String.length sent)%nat ->
  Forall (fun v => (String.length (u_username v) <= 50)%nat) (users (db s0)) ->
  target r1 = POST_auth_login ->
  body r1 !! "username" = body r0 !! "username" ->
  truthy (body r1 !! "password") = true ->
  uname = take_chars 50 sent
  /\ blank (drop_chars 50 sent) = true
  /\ handle JWT_SECRET role_check e1 s1 r1
     = (s1, json_error 401 "Invalid credentials").
Proof.
  intros Ht0 Hreg Hsent Hlong Hfit Ht1 Hname Hpass.
  apply register_answered_201 in Hreg as [Hreg _]; [|done].
  apply register_created in Hreg
    as (u & p & dx & Hp & Htu & Htp & Hun & _ & _ & Hu & Husers & _).
  assert (u_username u = uname) as Hnm by (by rewrite Hu).
  apply varchar_param_some in Hun as (sent' & Hsent' & Hkept).
  rewrite Hsent in Hsent'. injection Hsent' as <-.
  pose proof (varchar_length _ _ _ Hkept) as Hshort.
  apply varchar_long in Hkept as [-> Hblank]; [|done].
  split; [done|]. split; [done|].
  rewrite handle_login by done. unfold post_auth_login.
  rewrite (login_unknown JWT_SECRET e1 (body r1) (db s1)).
  - rewrite Hname, Htu, Hpass. simpl. by destruct s1.
  - apply getUserByUsername_none. intros v Hv Htext.
    rewrite Hname, Hsent in Htext. injection Htext as Htext.
    assert ((String.length (u_username v) <= 50)%nat) as Hv50.
    { rewrite Husers in Hv. apply elem_of_app in Hv as [Hv|Hv].
      - by eapply (proj1 (Forall_forall _ _) Hfit).
      - apply list_elem_of_singleton in Hv as ->. by rewrite Hnm. }
    rewrite <- Htext in Hv50. lia.
Qed.

End LongNames.

(** ** The theorems at concrete requests, with the reference libraries *)

Module Examples.

#[local] Existing Instance reference_jwt.
#[local] Existing Instance reference_bcrypt.
#[local] Existing Instance reference_pg.

Definition secret : string := "cbse-jwt-secret-key".

Definition serve : env -> server -> request -> server * response :=
  handle secret role_in_enum.

Definition at_100 : env := Env 100 "salt" "sid1".
Definition at_200 : env := Env 200 "salt" "sid2".
Definition at_300 : env := Env 300 "salt" "sid3".

Definition verify_without_token : request :=
  Request GET_auth_verify None None ∅.

Definition verify_with_garbage : request :=
  Request GET_auth_verify (Some "Bearer not-a-token") None ∅.

Definition register_coordinator : request :=
  Request POST_auth_register None None
    {[ "username" := JStr "t1"; "email" := JStr "t1@x.com";
       "password" := JStr "secret1"; "role" := JStr "coordinator" ]}.


Definition login_admin : request :=
  Request POST_auth_login None None
    {[ "username" := JStr "admin"; "password" := JStr "admin123" ]}.

Definition admin_claims : claims := Claims 1 "admin" (Some "admin") None None.

Definition admin_token : string := Reference.sign admin_claims secret 100 86400.

Definition logout_admin : request :=
  Request POST_auth_logout (Some (bearer admin_token)) (Some "sid1") ∅.

Definition verify_admin : request :=
  Request GET_auth_verify (Some (bearer admin_token)) (Some "sid1") ∅.

Definition register_without_role : request :=
  Request POST_auth_register None None
    {[ "username" := JStr "ex1"; "email" := JStr "ex1@x.com";
       "password" := JStr "secret1" ]}.

Definition register_examiner : request :=
  Request POST_auth_register None None
    {[ "username" := JStr "ex1"; "email" := JStr "ex1@x.com";
       "password" := JStr "secret1"; "role" := JStr "examiner" ]}.

(** The sample store with one more user, deactivated. *)
Definition retired : user_row :=
  UserRow 2 "retired" "retired@x.com" "secret1" (Some "coordinator") None None
    (Some false) None.

Definition server_with_retired : server :=
  Server (with_users (fun l => l ++ [retired]) sample_db) ∅.

Definition login_retired : request :=
  Request POST_auth_login None None
    {[ "username" := JStr "retired"; "password" := JStr "secret1" ]}.

Definition examiner2_claims : claims :=
  Claims 7 "priya" (Some "examiner") (Some 2) None.

Definition examiner2_token : string :=
  Reference.sign examiner2_claims secret 100 86400.

Definition sheets_as_examiner2 : request :=
  Request GET_answer_sheets (Some (bearer examiner2_token)) None ∅.

Definition update_body_unknown_examiner : gmap string jsval :=
  {[ "examinerId" := JNum 999; "schoolId" := JNum 1; "subjectId" := JNum 1;
     "examDate" := JStr "2025-06-01"; "examSession" := JStr "Morning" ]}.

Definition at_next_day : env := Env 86500 "salt" "sid4".

Definition admin_row : user_row :=
  UserRow 1 "admin" "admin@cbse.edu.in" "admin123" (Some "admin") None None
    (Some true) None.

Definition new_school : gmap string jsval :=
  {[ "school_name" := JStr "New School"; "location" := JStr "Pune" ]}.

Definition post_school_as_examiner2 : request :=
  Request POST_schools (Some (bearer examiner2_token)) None new_school.

Definition post_school_as_admin : request :=
  Request POST_schools (Some (bearer admin_token)) None new_school.

Definition register_username_only : request :=
  Request POST_auth_register None None {[ "username" := JStr "t2" ]}.

Definition register_admin_again : request :=
  Request POST_auth_register None None
    {[ "username" := JStr "admin"; "email" := JStr "other@x.com";
       "password" := JStr "secret1" ]}.

Definition login_ghost : request :=
  Request POST_auth_login None None
    {[ "username" := JStr "ghost"; "password" := JStr "secret1" ]}.

Definition register_as_retired : request :=
  Request POST_auth_register None None
    {[ "username" := JStr "retired"; "email" := JStr "new@x.com";
       "password" := JStr "secret1"; "role" := JStr "coordinator" ]}.

Definition register_examiner_as_retired : request :=
  Request POST_auth_register None None
    {[ "username" := JStr "retired"; "email" := JStr "new@x.com";
       "password" := JStr "secret1"; "role" := JStr "examiner" ]}.

(** The same store once the sequence of user ids has caught up with the
    deactivated user. *)
Definition server_after_retired : server :=
  Server (fst (nextval_users (db server_with_retired))) ∅.

Definition orphan_examiner : examiner_row :=
  ExaminerRow 4 "retired" (Some 1) (Some "Not specified") (Some 1) None
    (Some "new@x.com") (Some 0).

Definition staff_context : context := Context verify_admin (Some admin_claims) None.

Definition student_taken : gmap string jsval :=
  {[ "studentRollNumber" := JStr "2024001001"; "studentName" := JStr "Amit";
     "schoolId" := JNum 1 ]}.

Definition student_new : gmap string jsval :=
  {[ "studentRollNumber" := JStr "2024001003"; "studentName" := JStr "Ravi";
     "schoolId" := JNum 1; "classStandard" := JNum 0 ]}.

Definition student_rename : gmap string jsval :=
  {[ "studentName" := JStr "Amit P" ]}.

Definition db_with_assignment : database :=
  with_assignments
    (fun _ => [AssignmentRow 7 (Some 1) (Some 1) (JSDate.MakeDay 2025 5 1)
                 "Morning" None])
    sample_db.

(** Usernames of 51 characters: fifty letters and a space, fifty letters
    and one more. *)
Definition fifty_letters : string :=
  "aaaaaaaaaaaaaaaaaaaaaaaaaaaaaaaaaaaaaaaaaaaaaaaaaa".

Definition register_spaced_name : request :=
  Request POST_auth_register None None
    {[ "username" := JStr (fifty_letters +:+ " "); "email" := JStr "long@x.com";
       "password" := JStr "secret1"; "role" := JStr "coordinator" ]}.

Definition login_spaced_name : request :=
  Request POST_auth_login None None
    {[ "username" := JStr (fifty_letters +:+ " ");
       "password" := JStr "secret1" ]}.

Definition register_long_name : request :=
  Request POST_auth_register None None
    {[ "username" := JStr (fifty_letters +:+ "b"); "email" := JStr "long@x.com";
       "password" := JStr "secret1"; "role" := JStr "coordinator" ]}.

End Examples.

Import Examples.

#[local] Existing Instance reference_jwt.
#[local] Existing Instance reference_bcrypt.
#[local] Existing Instance reference_pg.

(** C1 fails as stated: a request whose token does not verify is answered
    403, not 401. *)
Lemma C1_counterexample :
  status (snd (serve at_100 sample_server verify_with_garbage)) = 403
  /\ status (snd (serve at_100 sample_server verify_with_garbage)) <> 401.
Proof. split; [by vm_compute|]. intros E. vm_compute in E. discriminate E. Qed.

Lemma C1_witness :
  serve at_100 sample_server verify_without_token
  = (sample_server, json_error 401 "Access token required")
  /\ serve at_100 sample_server verify_with_garbage
     = (sample_server, json_error 403 "Invalid or expired token").
Proof.
  split.
  - apply (proj1 (C1_gateway_401_then_403 secret role_in_enum at_100 sample_server
                    verify_without_token eq_refl)).
    reflexivity.
  - apply (proj2 (C1_gateway_401_then_403 secret role_in_enum at_100 sample_server
                    verify_with_garbage eq_refl) "not-a-token" JsonWebTokenError).
    + reflexivity.
    + discriminate.
    + vm_compute. reflexivity.
Defined.

Lemma C3_witness :
  exists k,
    spec_validate sample_db 999 1 1 "2025-06-01" k
    /\ match k with
       | Some err =>
           put_invigilation "1" update_body_unknown_examiner sample_db
           = (sample_db, inr (validation_response err))
       | None =>
           forall err,
             snd (put_invigilation "1" update_body_unknown_examiner sample_db)
             <> inr (validation_response err)
       end.
Proof.
  apply (proj1 C3_validation_order "1" update_body_unknown_examiner sample_db
           999 1 1 "2025-06-01");
    vm_compute; reflexivity.
Defined.

Lemma C4_witness :
  db (fst (serve at_200 (fst (serve at_100 sample_server login_admin)) logout_admin))
  = db (fst (serve at_100 sample_server login_admin))
  /\ serve at_300
       (fst (serve at_200 (fst (serve at_100 sample_server login_admin))
               logout_admin))
       verify_admin
     = (fst (serve at_200 (fst (serve at_100 sample_server login_admin))
               logout_admin),
        json_ok 200 (verified 1 "admin" (Some "admin"))).
Proof.
  assert (Hlogin : serve at_100 sample_server login_admin
                   = (fst (serve at_100 sample_server login_admin),
                      json_ok 200
                        (logged_in admin_token 1 "admin" "admin@cbse.edu.in"
                           (Some "admin") None None)))
    by (vm_compute; reflexivity).
  destruct (C4_logout_leaves_token_valid secret role_in_enum at_100 sample_server
              login_admin _ _ _ _ _ _ _ _ eq_refl Hlogin at_200
              (fst (serve at_100 sample_server login_admin)) logout_admin eq_refl)
    as (Hdb & _ & Hgate).
  split; [exact Hdb|].
  apply (Hgate at_300 verify_admin eq_refl); [vm_compute; reflexivity|reflexivity].
Defined.


Lemma C6_witness :
  (truthy (body login_retired !! "username") = true ->
   truthy (body login_retired !! "password") = true ->
   serve at_100 server_with_retired login_retired
   = (server_with_retired, json_error 401 "Invalid credentials"))
  /\ status (snd (serve at_100 server_with_retired login_retired)) <> 200
  /\ fst (serve at_100 server_with_retired login_retired) = server_with_retired.
Proof.
  apply (C6_inactive_user_cannot_login secret role_in_enum at_100
           server_with_retired login_retired retired).
  - reflexivity.
  - vm_compute. apply list_elem_of_further, list_elem_of_here.
  - discriminate.
  - vm_compute. repeat constructor; intros Hin;
      repeat (apply elem_of_cons in Hin as [Hin|Hin]; [discriminate Hin|]);
      by apply elem_of_nil in Hin.
  - vm_compute. reflexivity.
Defined.

Lemma C8_witness :
  (c_role examiner2_claims = Some "examiner" ->
   (forall rows,
      data (snd (serve at_100 sample_server sheets_as_examiner2)) = sheets rows ->
      forall row, row ∈ rows ->
        ev_examiner_id row = c_examinerId examiner2_claims
        /\ row ∈ evaluation_summary (db sample_server))
   /\ (forall n, c_examinerId examiner2_claims = Some n -> n <> 0 ->
         is_int4 n = true ->
         serve at_100 sample_server sheets_as_examiner2
         = (sample_server, json_ok 200 (sheets (sheets_of n (db sample_server))))))
  /\ (c_role examiner2_claims <> Some "examiner" ->
      exists rows,
        serve at_100 sample_server sheets_as_examiner2
        = (sample_server, json_ok 200 (sheets rows))
        /\ rows ≡ₚ evaluation_summary (db sample_server)).
Proof.
  apply (C8_answer_sheets_scoped_to_examiner secret role_in_enum at_100
           sample_server sheets_as_examiner2 examiner2_token examiner2_claims).
  - reflexivity.
  - vm_compute. reflexivity.
  - intros E. vm_compute in E. discriminate E.
  - vm_compute. reflexivity.
Defined.

Lemma C9_witness :
  serve at_100 sample_server
    (Request (GET_answer_sheets_examiner "2") None None ∅)
  = (sample_server, json_ok 200 (sheets (sheets_of 2 (db sample_server)))).
Proof.
  apply (C9_examiner_sheets_need_no_token secret role_in_enum at_100
           sample_server None None ∅ "2" 2).
  vm_compute. reflexivity.
Defined.

(** C10 fails as stated: a registration that names no role is stored with
    the role [examiner] and without an examiner reference. *)
Lemma C10_counterexample :
  snd (serve at_100 sample_server register_without_role)
  = json_ok 201 (registered 2 "ex1" "ex1@x.com" (Some "examiner"))
  /\ users (db (fst (serve at_100 sample_server register_without_role)))
     = users sample_db
         ++ [UserRow 2 "ex1" "ex1@x.com" "secret1" (Some "examiner") None None
               (Some true) None]
  /\ examiners (db (fst (serve at_100 sample_server register_without_role)))
     = examiners sample_db.
Proof. by vm_compute. Qed.

Lemma C10_witness :
  Some "examiner" = Some "examiner"
  /\ exists u x,
       users (db (fst (serve at_100 sample_server register_examiner)))
       = users (db sample_server) ++ [u]
       /\ u_user_id u = 2 /\ u_username u = "ex1" /\ u_role u = Some "examiner"
       /\ u_examiner_id u = Some x
       /\ x ∈ examiner_ids (db (fst (serve at_100 sample_server register_examiner)))
       /\ (truthy (body register_examiner !! "examinerId") = false ->
           exists row,
             examiners (db (fst (serve at_100 sample_server register_examiner)))
             = examiners (db sample_server) ++ [row]
             /\ ex_examiner_id row = x /\ (x ∉ examiner_ids (db sample_server))
             /\ varchar_param 255 (body register_examiner !! "username")
                = inr (Some (ex_examiner_name row))
             /\ (forall sent,
                   text_param (body register_examiner !! "username") = Some sent ->
                   (String.length sent <= 50)%nat ->
                   ex_examiner_name row = "ex1")
             /\ ex_subject_id row = Some 1
             /\ int_param (js_or (body register_examiner !! "schoolId") (JNum 1))
                = inr (ex_school_id row)
             /\ (truthy (body register_examiner !! "schoolId") = false ->
                 ex_school_id row = Some 1)).
Proof.
  apply (C10_examiner_registration_links_examiner secret role_in_enum at_100
           sample_server register_examiner
           (fst (serve at_100 sample_server register_examiner))
           2 "ex1" "ex1@x.com" (Some "examiner"));
    vm_compute; reflexivity.
Defined.

Lemma isValidDate_leap_day_witness :
  isValidDate (date_text 1900 2 29) = leap_year 1900.
Proof. apply isValidDate_leap_day. lia. Defined.

Lemma validateRequest_passes_iff_all_truthy_witness :
  validateRequest ["examinerId"; "schoolId"]
    (Context (Request POST_invigilation None None
                {[ "examinerId" := JNum 0; "schoolId" := JNum 1 ]}) None None)
  <> Next (Context (Request POST_invigilation None None
                      {[ "examinerId" := JNum 0; "schoolId" := JNum 1 ]}) None None).
Proof.
  apply (proj2 (proj2 (validateRequest_passes_iff_all_truthy
                         ["examinerId"; "schoolId"] _)) "examinerId" (JNum 0)).
  - apply list_elem_of_here.
  - vm_compute. reflexivity.
  - by left.
Defined.

Lemma bearer_token_is_second_piece_witness :
  bearer_token (Some ("Bearer" +:+ String " " "abc")) = Some "abc".
Proof.
  apply (proj1 bearer_token_is_second_piece "Bearer" "abc");
    intros Hin; simpl in Hin;
    repeat (destruct Hin as [Hin|Hin]; [discriminate Hin|]); exact Hin.
Defined.

Lemma write_routes_deny_other_roles_witness :
  serve at_100 sample_server post_school_as_examiner2
  = (sample_server, json_error 403 "Insufficient permissions").
Proof.
  apply (write_routes_deny_other_roles secret role_in_enum at_100 sample_server
           post_school_as_examiner2 examiner2_token examiner2_claims).
  - reflexivity.
  - reflexivity.
  - vm_compute. reflexivity.
  - intros E. vm_compute in E. discriminate E.
  - vm_compute. reflexivity.
  - vm_compute. reflexivity.
Defined.

Lemma login_token_expires_after_24h_witness :
  serve at_next_day sample_server verify_admin
  = (sample_server, json_error 403 "Invalid or expired token").
Proof.
  assert (Hlogin : serve at_100 sample_server login_admin
                   = (fst (serve at_100 sample_server login_admin),
                      json_ok 200
                        (logged_in admin_token 1 "admin" "admin@cbse.edu.in"
                           (Some "admin") None None)))
    by (vm_compute; reflexivity).
  apply (login_token_expires_after_24h secret role_in_enum at_100 sample_server
           login_admin _ _ _ _ _ _ _ _ eq_refl Hlogin at_next_day sample_server
           verify_admin).
  - reflexivity.
  - reflexivity.
  - simpl. lia.
Defined.

Lemma register_rejects_incomplete_input_witness :
  serve at_100 sample_server register_username_only
  = (sample_server, json_error 400 "Username, email, and password are required").
Proof.
  apply (proj1 (register_rejects_incomplete_input secret role_in_enum at_100
                  sample_server register_username_only eq_refl)).
  right. left. vm_compute. reflexivity.
Defined.

Lemma register_rejects_taken_name_or_email_witness :
  serve at_100 sample_server register_admin_again
  = (sample_server, json_error 400 "Username already exists").
Proof.
  apply (proj1 (register_rejects_taken_name_or_email secret role_in_enum at_100
                  sample_server register_admin_again admin_row eq_refl
                  eq_refl eq_refl eq_refl eq_refl
                  (list_elem_of_here _ _) eq_refl)).
  vm_compute. reflexivity.
Defined.

Lemma login_failures_look_alike_witness :
  serve at_100 sample_server login_ghost
  = (sample_server, json_error 401 "Invalid credentials").
Proof.
  apply (proj2 (login_failures_look_alike secret role_in_enum at_100
                  sample_server login_ghost eq_refl eq_refl)).
  - vm_compute. reflexivity.
  - vm_compute. reflexivity.
Defined.

Lemma login_stamps_and_records_session_witness :
  snd (serve at_100 sample_server login_admin)
  = json_ok 200
      (logged_in admin_token 1 "admin" "admin@cbse.edu.in" (Some "admin") None None)
  /\ users (db (fst (serve at_100 sample_server login_admin)))
     = [touch 100 admin_row]
  /\ sessions (fst (serve at_100 sample_server login_admin))
     = <["sid1" := SessionRecord 1 "admin" (Some "admin")]> ∅.
Proof.
  unfold serve.
  rewrite (login_stamps_and_records_session secret role_in_enum at_100
             sample_server login_admin admin_row "admin123" eq_refl
             (list_elem_of_here _ _) eq_refl (NoDup_singleton _) eq_refl eq_refl
             eq_refl ltac:(discriminate) eq_refl).
  repeat split.
Defined.

Lemma login_then_logout_session_witness :
  sessions (fst (serve at_100 sample_server login_admin))
  = <[sessionID at_100 sample_server login_admin :=
        SessionRecord 1 "admin" (Some "admin")]> (sessions sample_server).
Proof.
  assert (Hlogin : serve at_100 sample_server login_admin
                   = (fst (serve at_100 sample_server login_admin),
                      json_ok 200
                        (logged_in admin_token 1 "admin" "admin@cbse.edu.in"
                           (Some "admin") None None)))
    by (vm_compute; reflexivity).
  apply (proj1 (login_then_logout_session secret role_in_enum at_100
                  sample_server login_admin _ _ _ _ _ _ _ _ eq_refl Hlogin)).
Defined.

Lemma every_request_keeps_users_unique_witness :
  users_unique (db (fst (serve at_100 sample_server register_coordinator))).
Proof.
  apply (every_request_keeps_users_unique secret role_in_enum at_100
           sample_server register_coordinator).
  repeat split; apply NoDup_singleton.
Defined.

Lemma register_name_of_inactive_user_witness :
  exists t,
    snd (serve at_100 server_after_retired register_as_retired)
    = Response 500 (Some (Text "Registration failed")) (Some (MessageOf t)) no_data
    /\ users (db (fst (serve at_100 server_after_retired register_as_retired)))
       = users (db server_after_retired).
Proof.
  apply (register_name_of_inactive_user secret role_in_enum at_100
           server_after_retired register_as_retired "retired");
    try (vm_compute; reflexivity).
  - simpl. lia.
  - vm_compute. apply list_elem_of_further, list_elem_of_here.
Defined.

Lemma failed_registration_leaves_examiner_row_witness :
  snd (serve at_100 server_after_retired register_examiner_as_retired)
  = Response 500 (Some (Text "Registration failed"))
      (Some (MessageOf (PgError (unique_violation "users_username_key")))) no_data
  /\ users (db (fst (serve at_100 server_after_retired register_examiner_as_retired)))
     = users (db server_after_retired)
  /\ examiners
       (db (fst (serve at_100 server_after_retired register_examiner_as_retired)))
     = examiners (db server_after_retired) ++ [orphan_examiner].
Proof.
  apply (failed_registration_leaves_examiner_row secret role_in_enum at_100
           server_after_retired register_examiner_as_retired
           (fst (addExaminer (new_examiner_data (body register_examiner_as_retired))
                   (db server_after_retired)))
           orphan_examiner
           (PgError (unique_violation "users_username_key"))
           (fst (nextval_users
                   (fst (addExaminer
                           (new_examiner_data (body register_examiner_as_retired))
                           (db server_after_retired))))));
    vm_compute; reflexivity.
Defined.

Lemma users_change_only_on_register_and_login_witness :
  users (db (fst (serve at_100 sample_server post_school_as_admin)))
  = users (db sample_server).
Proof.
  apply (users_change_only_on_register_and_login secret role_in_enum at_100
           sample_server post_school_as_admin); discriminate.
Defined.

Lemma read_routes_leave_store_alone_witness :
  db (fst (serve at_100 sample_server sheets_as_examiner2)) = db sample_server.
Proof.
  apply (read_routes_leave_store_alone secret role_in_enum at_100 sample_server
           sheets_as_examiner2).
  reflexivity.
Defined.

Lemma staff_get_all_sheets_latest_first_witness :
  exists rows,
    get_answer_sheets staff_context sample_db
    = (sample_db, inr (json_ok 200 (sheets rows)))
    /\ rows ≡ₚ evaluation_summary sample_db
    /\ StronglySorted date_desc rows.
Proof.
  apply staff_get_all_sheets_latest_first with (user := admin_claims).
  - reflexivity.
  - discriminate.
Defined.

Lemma post_students_taken_roll_number_witness :
  exists d',
    try_catch (post_students student_taken) post_students_catch sample_db
    = (d', json_error 400 "Student roll number already exists")
    /\ students d' = students sample_db.
Proof.
  apply (post_students_taken_roll_number student_taken sample_db "2024001001"
           "Amit" (Some 1) (Some 10));
    try (vm_compute; reflexivity).
  - simpl. lia.
  - vm_compute. apply list_elem_of_here.
Defined.

Lemma post_students_defaults_class_to_10_witness :
  exists row,
    json_ok 201 (student_data (StudentRow 3 "2024001003" "Ravi" (Some 1) (Some 10)))
    = json_ok 201 (student_data row)
    /\ st_class_standard row = Some 10
    /\ students (fst (post_students student_new sample_db))
       = students sample_db ++ [row].
Proof.
  apply (post_students_defaults_class_to_10 student_new sample_db
           (fst (post_students student_new sample_db))
           (json_ok 201
              (student_data (StudentRow 3 "2024001003" "Ravi" (Some 1) (Some 10)))));
    vm_compute; reflexivity.
Defined.

Lemma put_students_nulls_omitted_fields_witness :
  exists row,
    json_ok 200 (student_data (StudentRow 1 "2024001001" "Amit P" None None))
    = json_ok 200 (student_data row)
    /\ st_student_roll_number row = "2024001001"
    /\ (student_rename !! "classStandard" = None -> st_class_standard row = None)
    /\ (student_rename !! "schoolId" = None -> st_school_id row = None)
    /\ row ∈ students (fst (put_students "2024001001" student_rename sample_db)).
Proof.
  apply (put_students_nulls_omitted_fields "2024001001" student_rename sample_db
           (fst (put_students "2024001001" student_rename sample_db))
           (json_ok 200
              (student_data (StudentRow 1 "2024001001" "Amit P" None None))));
    vm_compute; reflexivity.
Defined.

Lemma delete_invigilation_removes_exactly_that_row_witness :
  exists d',
    delete_invigilation "7" db_with_assignment = (d', inr (json_ok 200 no_data))
    /\ (7 ∉ map ia_assignment_id (invigilation_assignments d'))
    /\ forall row, ia_assignment_id row <> 7 ->
                   (row ∈ invigilation_assignments d'
                    <-> row ∈ invigilation_assignments db_with_assignment).
Proof.
  assert (Hid : int4_in "7" = Some 7) by (vm_compute; reflexivity).
  apply (proj1 (delete_invigilation_removes_exactly_that_row "7" 7
                  db_with_assignment Hid)).
  vm_compute. apply list_elem_of_here.
Defined.

Lemma delete_examiners_only_when_unreferenced_witness :
  exists c,
    try_catch (delete_examiners "1") (json_caught 500) sample_db
    = (sample_db, json_caught 500 (PgError (foreign_key_violation c))).
Proof.
  assert (Hid : int4_in "1" = Some 1) by (vm_compute; reflexivity).
  assert (Hex : 1 ∈ examiner_ids sample_db)
    by (vm_compute; apply list_elem_of_here).
  apply (proj1 (delete_examiners_only_when_unreferenced "1" 1 sample_db Hid Hex)).
  right. left. vm_compute. apply list_elem_of_here.
Defined.

Lemma register_username_too_long_witness :
  exists t,
    snd (serve at_100 sample_server register_long_name)
    = Response 500 (Some (Text "Registration failed")) (Some (MessageOf t)) no_data
    /\ users (db (fst (serve at_100 sample_server register_long_name)))
       = users (db sample_server).
Proof.
  apply (register_username_too_long secret role_in_enum at_100 sample_server
           register_long_name (fifty_letters +:+ "b")
           (string_data_right_truncation 50));
    vm_compute; reflexivity.
Defined.

Lemma register_truncates_trailing_spaces_witness :
  fifty_letters = take_chars 50 (fifty_letters +:+ " ")
  /\ blank (drop_chars 50 (fifty_letters +:+ " ")) = true
  /\ serve at_200 (fst (serve at_100 sample_server register_spaced_name))
       login_spaced_name
     = (fst (serve at_100 sample_server register_spaced_name),
        json_error 401 "Invalid credentials").
Proof.
  apply (register_truncates_trailing_spaces secret role_in_enum at_100
           sample_server register_spaced_name
           (fst (serve at_100 sample_server register_spaced_name))
           2 fifty_letters "long@x.com" (Some "coordinator")
           (fifty_letters +:+ " ") at_200 login_spaced_name);
    try (vm_compute; reflexivity).
  apply Forall_cons. split; [vm_compute; lia|constructor].
Defined.
